(** * hdhr_xmltv: the guide client and the XMLTV converter

    A shallow embedding of [src/hdhr_xmltv/hdhr_client.py] and
    [src/hdhr_xmltv/xmltv_converter.py].

    Conventions of the embedding.
    - A timezone-aware [datetime] in UTC is its POSIX timestamp, an integer
      number of seconds ([Z]) within the years 1 to 9999.  The guide service
      sends integer timestamps; sub-second parts are not modelled.  The
      operations that build a [datetime] raise when the result would leave
      these years, as the library's do.
    - A [str] is a [string] whose characters are the code points 0 to 255;
      text with other code points is outside the embedding.
    - A JSON object of the guide or lineup service is a record with one
      optional field per key the client reads: [None] is an absent key, and
      a present key holds a value of the JSON type that the dataclasses
      [ChannelInfo] and [ProgramInfo] annotate.
    - Python exceptions are values of [exn]; a function that can raise
      returns [exn + A].  The one exception class of the client,
      [HDHomeRunAPIError], carries the raise site that built its message.
    - The network is an oracle answering each request; the requests issued
      are recorded in the client state, so that the fallback order can be
      read back. *)

From Stdlib Require Import ZArith List String Ascii Bool Lia Permutation.
From Stdlib Require Decimal DecimalString DecimalPos DecimalZ.
Import ListNotations.

Local Open Scope string_scope.
Local Open Scope list_scope.
Local Open Scope Z_scope.

(** ** Data model ([hdhr_client.py], the two dataclasses) *)

Module ChannelInfo.
Record t : Type := mk {
  guide_number : string;
  guide_name : string;
  url : string;
  image_url : option string
}.
End ChannelInfo.

Module ProgramInfo.
Record t : Type := mk {
  title : string;
  start_time : Z;
  end_time : Z;
  guide_number : string;
  synopsis : option string;
  episode_title : option string;
  episode_number : option string;
  image_url : option string;
  original_airdate : option Z;
  filters : option (list string);
  first : option bool
}.
End ProgramInfo.

(** [dict.get(key, default)] on an optional field. *)
Definition get {A : Type} (field : option A) (default : A) : A :=
  match field with
  | Some v => v
  | None => default
  end.

(** ** Exceptions *)

(** The raise sites of [HDHomeRunAPIError], named after their messages. *)
Inductive api_error : Type :=
| NoDevicesDiscovered        (* "No HD HomeRun devices discovered. ..." *)
| FailedToGetLineup          (* "Failed to get channel lineup: ..." *)
| InvalidJSONFromLineup      (* "Invalid JSON response from channel lineup" *)
| Forbidden403FromAll        (* "Received 403 Forbidden from all endpoints
                                 and user agents. ..." *)
| HTTPErrorCode (code : Z)   (* "HTTP error {code}: {reason}" *)
| FailedToRetrieveEPG        (* "Failed to retrieve EPG data: ..." *)
| FailedFromAnyEndpoint      (* "Failed to retrieve EPG data from any
                                 endpoint" *)
| InvalidJSONFromEPG         (* "Invalid JSON response from EPG request" *)
| UnexpectedErrorEPG.        (* "Unexpected error retrieving EPG data" *)

Inductive exn : Type :=
| HDHomeRunAPIError (e : api_error)
| JSONDecodeError
| KeyError (key : string)
| IndexError
| TimeoutError
| ValueError
| OverflowError
| OSError.

(** ** Guide service responses *)

(** A program object of the guide response. *)
Record program_data : Type := mkProgramData {
  pd_Title : option string;
  pd_StartTime : option Z;
  pd_EndTime : option Z;
  pd_Synopsis : option string;
  pd_EpisodeTitle : option string;
  pd_EpisodeNumber : option string;
  pd_ImageURL : option string;
  pd_OriginalAirdate : option Z;
  pd_Filter : option (list string);
  pd_First : option bool
}.

(** A per-channel object of the guide response. *)
Record channel_guide : Type := mkChannelGuide {
  cg_GuideNumber : option string;
  cg_Guide : option (list program_data)
}.

(** What [urllib.request.urlopen] followed by [json.loads] does for one
    guide request: a JSON array of per-channel objects, an HTTP error status,
    a [URLError] that is no [HTTPError], a body that is not JSON, or a
    timeout while reading, which is none of these classes. *)
Inductive urlopen_result : Type :=
| Response (epg_data : list channel_guide)
| HTTPError (code : Z)
| URLError
| BodyNotJSON
| SocketTimeout.

Record Request : Type := mkRequest {
  req_url_base : string;
  req_start : Z;
  req_user_agent : string
}.

(** The network: the answer to the [n]-th request of a run (counting from
    zero) when it is [req]. *)
Definition network : Type := nat -> Request -> urlopen_result.

(** ** The range of [datetime]

    The first and the last second that a [datetime] can hold, 0001-01-01
    00:00:00 and 9999-12-31 23:59:59, as seconds since 1970-01-01 00:00:00
    on the same clock. *)
Definition datetime_min : Z := -62135596800.
Definition datetime_max : Z := 253402300799.

Definition in_datetime_range (t : Z) : bool :=
  (datetime_min <=? t) && (t <=? datetime_max).

(** [datetime.fromtimestamp(t, tz=pytz.UTC)] for an integer [t], on a
    system with a 64-bit [time_t]: a year outside 1..9999 is a
    [ValueError]; further out the C library's [gmtime] fails, an [OSError];
    an integer that does not fit [time_t] is an [OverflowError]. *)
Definition fromtimestamp (t : Z) : exn + Z :=
  if in_datetime_range t then inr t
  else if (-67768040609740800 <=? t) && (t <=? 67768036191676799) then inl ValueError
  else if (- 2 ^ 63 <=? t) && (t <? 2 ^ 63) then inl OSError
  else inl OverflowError.

(** ** [_parse_program_data] *)

Definition _parse_program_data (pd : program_data) (guide_number : string)
  : exn + ProgramInfo.t :=
  match pd_StartTime pd with
  | None => inl (KeyError "StartTime")
  | Some t =>
    match fromtimestamp t with
    | inl e => inl e
    | inr start_time =>
      match pd_EndTime pd with
      | None => inl (KeyError "EndTime")
      | Some t =>
        match fromtimestamp t with
        | inl e => inl e
        | inr end_time =>
          let original_airdate :=
            match pd_OriginalAirdate pd with
            | None => inr None
            | Some t =>
              match fromtimestamp t with
              | inl e => inl e
              | inr airdate => inr (Some airdate)
              end
            end in
          match original_airdate with
          | inl e => inl e
          | inr original_airdate =>
            inr (ProgramInfo.mk
                   (get (pd_Title pd) "")
                   start_time
                   end_time
                   guide_number
                   (pd_Synopsis pd)
                   (pd_EpisodeTitle pd)
                   (pd_EpisodeNumber pd)
                   (pd_ImageURL pd)
                   original_airdate
                   (Some (get (pd_Filter pd) []))
                   (pd_First pd))
          end
        end
      end
    end
  end.

(** An entry carries both timestamps, the two keys that
    [_parse_program_data] subscripts. *)
Definition has_times (pd : program_data) : Prop :=
  pd_StartTime pd <> None /\ pd_EndTime pd <> None.

(** An entry is well timed when it carries both timestamps and each of
    its timestamps, the original airdate included, is an instant of the
    years 1 to 9999. *)
Definition well_timed (pd : program_data) : Prop :=
  (exists s, pd_StartTime pd = Some s /\ in_datetime_range s = true)
  /\ (exists e, pd_EndTime pd = Some e /\ in_datetime_range e = true)
  /\ (forall a, pd_OriginalAirdate pd = Some a -> in_datetime_range a = true).

(** The exceptions that leave [_parse_program_data]. *)
Definition parse_failure (e : exn) : Prop :=
  (exists key, e = KeyError key) \/ e = ValueError \/ e = OSError \/ e = OverflowError.

(** A response is complete when all its entries are well timed. *)
Definition complete_response (epg_data : list channel_guide) : Prop :=
  Forall (fun cg => Forall well_timed (get (cg_Guide cg) [])) epg_data.

(** ** Deduplication (the [any(...)] test of [get_epg_data]) *)

(** The generator condition: [p] and [program] are the same broadcast. *)
Definition same_broadcast (program p : ProgramInfo.t) : bool :=
  (ProgramInfo.start_time p =? ProgramInfo.start_time program)
  && String.eqb (ProgramInfo.title p) (ProgramInfo.title program)
  && String.eqb (ProgramInfo.guide_number p) (ProgramInfo.guide_number program).

(** [if not any(...): programs.append(program)]. *)
Definition add_program (programs : list ProgramInfo.t) (program : ProgramInfo.t)
  : list ProgramInfo.t :=
  if existsb (same_broadcast program) programs
  then programs
  else programs ++ [program].

(** Feeding a stream of records through the duplicate test, starting from
    no programs. *)
Definition dedup (stream : list ProgramInfo.t) : list ProgramInfo.t :=
  fold_left add_program stream [].

(** The key the duplicate test compares. *)
Definition dedup_key (p : ProgramInfo.t) : Z * string * string :=
  (ProgramInfo.start_time p, ProgramInfo.title p, ProgramInfo.guide_number p).

(** ** Processing one guide response *)

(** The inner loop: [for program_data in channel_data.get("Guide", [])]. *)
Fixpoint process_guide (guide_number : string) (guide : list program_data)
    (programs : list ProgramInfo.t) : exn + list ProgramInfo.t :=
  match guide with
  | [] => inr programs
  | pd :: guide' =>
    match _parse_program_data pd guide_number with
    | inl e => inl e
    | inr program => process_guide guide_number guide' (add_program programs program)
    end
  end.

(** [any(ch.guide_number == guide_number for ch in self._channels)]. *)
Definition in_lineup (channels : list ChannelInfo.t) (guide_number : string) : bool :=
  existsb (fun ch => String.eqb (ChannelInfo.guide_number ch) guide_number) channels.

(** The outer loop: [for channel_data in epg_data]. *)
Fixpoint process_epg_response (channels : list ChannelInfo.t)
    (epg_data : list channel_guide) (programs : list ProgramInfo.t)
  : exn + list ProgramInfo.t :=
  match epg_data with
  | [] => inr programs
  | channel_data :: epg_data' =>
    let guide_number := get (cg_GuideNumber channel_data) "" in
    if negb (in_lineup channels guide_number)
    then process_epg_response channels epg_data' programs
    else
      match process_guide guide_number (get (cg_Guide channel_data) []) programs with
      | inl e => inl e
      | inr programs' => process_epg_response channels epg_data' programs'
      end
  end.

(** ** [get_epg_data] *)

Definition api_endpoints (device_auth : string) : list string :=
  [ "https://api.hdhomerun.com/api/guide?DeviceAuth=" ++ device_auth;
    "https://my.hdhomerun.com/api/guide.php?DeviceAuth=" ++ device_auth ]%string.

Definition user_agents : list string :=
  [ "Mozilla/5.0 (Linux; HDHomeRun-XMLTV-Converter)";
    "Mozilla/5.0 (Windows NT 10.0; Win64; x64) AppleWebKit/537.36 (KHTML, like Gecko) Chrome/91.0.4472.124 Safari/537.36";
    "HDHomeRun/1.0";
    "Python-urllib/3.11" ].

(** The locals of [get_epg_data] that the loops update, and the requests
    sent so far (oldest first). *)
Record fetch_state : Type := mkFetchState {
  programs : list ProgramInfo.t;
  current_ua_index : nat;
  consecutive_403_errors : nat;
  sent : list Request
}.

Definition initial_state : fetch_state := mkFetchState [] 0 0 [].

Definition record_request (req : Request) (st : fetch_state) : fetch_state :=
  mkFetchState (programs st) (current_ua_index st) (consecutive_403_errors st)
               (sent st ++ [req]).

Definition count_403 (st : fetch_state) : fetch_state :=
  mkFetchState (programs st) (current_ua_index st)
               (S (consecutive_403_errors st)) (sent st).

Definition next_user_agent (st : fetch_state) : fetch_state :=
  mkFetchState (programs st)
               (Nat.modulo (current_ua_index st + 1) (List.length user_agents))
               (consecutive_403_errors st) (sent st).

Definition window_succeeded (programs' : list ProgramInfo.t) (st : fetch_state)
  : fetch_state :=
  mkFetchState programs' (current_ua_index st) 0 (sent st).

(** [current_ua_index] is a valid index of [user_agents]. *)
Definition valid_ua (st : fetch_state) : Prop :=
  (current_ua_index st < List.length user_agents)%nat.

(** How the [for ... in enumerate(api_endpoints)] loop of one window ends:
    it runs to its end or breaks, leaving [success], or an exception leaves
    it. *)
Inductive for_result : Type :=
| Completed (success : bool)
| Raised (e : exn).

(** The loops of [get_epg_data] for a network [net], with [channels] for
    [self._channels] and [device_auth] for [self.device_auth].  The pause of
    one second between two windows is left out. *)
Section Fetch.
Variable net : network.
Variable channels : list ChannelInfo.t.
Variable device_auth : string.

(** The [for] loop of one window, from endpoint [endpoint_idx] on;
    [rest] are the endpoints not yet tried. *)
Fixpoint for_endpoints (timestamp : Z) (endpoint_idx : nat) (rest : list string)
    (st : fetch_state) : fetch_state * for_result :=
  match rest with
  | [] => (st, Completed false)
  | url_base :: rest' =>
    match nth_error user_agents (current_ua_index st) with
    | None => (st, Raised IndexError)
    | Some user_agent =>
      let req := mkRequest url_base timestamp user_agent in
      let answer := net (List.length (sent st)) req in
      let st := record_request req st in
      match answer with
      | Response epg_data =>
        match process_epg_response channels epg_data (programs st) with
        | inl e => (st, Raised e)
        | inr programs' => (window_succeeded programs' st, Completed true)
        end
      | HTTPError code =>
        if code =? 403 then
          let st := count_403 st in
          if Nat.eqb endpoint_idx (List.length (api_endpoints device_auth) - 1) then
            let st := next_user_agent st in
            if Nat.leb (List.length (api_endpoints device_auth) * List.length user_agents)
                       (consecutive_403_errors st)
            then (st, Raised (HDHomeRunAPIError Forbidden403FromAll))
            else for_endpoints timestamp (S endpoint_idx) rest' st
          else for_endpoints timestamp (S endpoint_idx) rest' st
        else (st, Raised (HDHomeRunAPIError (HTTPErrorCode code)))
      | URLError =>
        if Nat.eqb endpoint_idx (List.length (api_endpoints device_auth) - 1)
        then (st, Raised (HDHomeRunAPIError FailedToRetrieveEPG))
        else for_endpoints timestamp (S endpoint_idx) rest' st
      | BodyNotJSON => (st, Raised JSONDecodeError)
      | SocketTimeout => (st, Raised TimeoutError)
      end
    end
  end.

(** The request that the loop sends to [url_base] in state [st], and the
    network's answer to it. *)
Definition request_of (url_base : string) (timestamp : Z) (st : fetch_state)
  : Request :=
  mkRequest url_base timestamp (nth (current_ua_index st) user_agents "").

Definition answer_of (url_base : string) (timestamp : Z) (st : fetch_state)
  : urlopen_result :=
  net (List.length (sent st)) (request_of url_base timestamp st).

(** The body of the [while] loop for the window starting at
    [timestamp]. *)
Definition fetch_window (timestamp : Z) (st : fetch_state)
  : fetch_state * for_result :=
  match for_endpoints timestamp 0 (api_endpoints device_auth) st with
  | (st', Completed false) =>
    (st', Raised (HDHomeRunAPIError FailedFromAnyEndpoint))
  | r => r
  end.

(** The [while current_time < end_time] loop over the window starts. *)
Fixpoint while_windows (windows : list Z) (st : fetch_state)
  : fetch_state * (exn + list ProgramInfo.t) :=
  match windows with
  | [] => (st, inr (programs st))
  | timestamp :: windows' =>
    match fetch_window timestamp st with
    | (st', Raised e) => (st', inl e)
    | (st', Completed _) => while_windows windows' st'
    end
  end.

(** The [except] clauses around the [while] loop. *)
Definition epg_handlers (e : exn) : api_error :=
  match e with
  | HDHomeRunAPIError a => a
  | JSONDecodeError => InvalidJSONFromEPG
  | _ => UnexpectedErrorEPG
  end.

(** [get_epg_data] over given window starts: the final state and either
    the failure raised or the list returned. *)
Definition fetch_epg (windows : list Z)
  : fetch_state * (api_error + list ProgramInfo.t) :=
  match while_windows windows initial_state with
  | (st, inl e) => (st, inl (epg_handlers e))
  | (st, inr result) => (st, inr result)
  end.

(** The window starts of a run beginning at [now]: [now], then every
    [hours_increment] hours, while before [now + days]; none when the end is
    not after [now].  With [days >= 1] and [hours_increment <= 0] the
    cursor of the source never reaches the end, and the additions of
    [timedelta] raise when a time leaves the years 1 to 9999: the embedding
    covers the runs with [days <= 0] or [hours_increment >= 1] whose times
    stay within these years. *)
Definition window_starts (now days hours_increment : Z) : list Z :=
  let span := 86400 * days in
  let step := 3600 * hours_increment in
  if span <=? 0 then []
  else map (fun k => now + Z.of_nat k * step)
           (seq 0 (Z.to_nat ((span + step - 1) / step))).

(** [get_epg_data] from its [try] statement on, for a run that begins at
    the instant [now]. *)
Definition get_epg_data (now days hours_increment : Z)
  : fetch_state * (api_error + list ProgramInfo.t) :=
  fetch_epg (window_starts now days hours_increment).

End Fetch.

(** ** The stream that a fetch deduplicates

    The records of a response, in the order in which [get_epg_data] meets
    them: the parsed entries of the channels of the lineup. *)
Definition records_of_guide (guide_number : string) (guide : list program_data)
  : list ProgramInfo.t :=
  flat_map (fun pd =>
              match _parse_program_data pd guide_number with
              | inr program => [program]
              | inl _ => []
              end) guide.

Definition records_of_response (channels : list ChannelInfo.t)
    (epg_data : list channel_guide) : list ProgramInfo.t :=
  flat_map (fun channel_data =>
              let guide_number := get (cg_GuideNumber channel_data) "" in
              if in_lineup channels guide_number
              then records_of_guide guide_number (get (cg_Guide channel_data) [])
              else []) epg_data.

(** The guide responses among the answers to the requests [reqs], the
    first of which is request number [n]. *)
Fixpoint responses_from (net : network) (n : nat) (reqs : list Request)
  : list (list channel_guide) :=
  match reqs with
  | [] => []
  | req :: reqs' =>
    match net n req with
    | Response epg_data => epg_data :: responses_from net (S n) reqs'
    | _ => responses_from net (S n) reqs'
    end
  end.

(** All records received in answer to the requests sent, in order. *)
Definition fetched_stream (net : network) (channels : list ChannelInfo.t)
    (st : fetch_state) : list ProgramInfo.t :=
  flat_map (records_of_response channels) (responses_from net O (sent st)).

(** The programs held are the deduplicated stream of what was received. *)
Definition programs_are_dedup (net : network) (channels : list ChannelInfo.t)
    (st : fetch_state) : Prop :=
  programs st = dedup (fetched_stream net channels st).

(** ** [discover_all_devices] *)

(** What [GET /discover.json] on a host gives: no usable answer (the host
    is unreachable, times out or sends no JSON), or a JSON object with or
    without a ["DeviceAuth"] string. *)
Inductive discover_reply : Type :=
| NoReply
| DiscoverJSON (DeviceAuth : option string).

(** The local network as discovery sees it: the source addresses of the
    replies (of eight bytes or more) to the broadcast probe in arrival
    order, the answer of each host to the HTTP probe, and the order in which
    the interpreter iterates a set of host names (an arrangement of its
    elements). *)
Record lan : Type := mkLan {
  broadcast_replies : list string;
  discover_json : string -> discover_reply;
  set_iteration : list string -> list string
}.

(** [_discover_single_device]: every exception is swallowed into [None]. *)
Definition _discover_single_device (l : lan) (host : string) : option string :=
  match discover_json l host with
  | NoReply => None
  | DiscoverJSON device_auth => device_auth
  end.

(** A set of strings, kept as a list without repetition; [set_add] is
    [set.add]. *)
Definition set_mem (x : string) (s : list string) : bool :=
  existsb (String.eqb x) s.

Definition set_add (s : list string) (x : string) : list string :=
  if set_mem x s then s else s ++ [x].

(** [_discover_via_broadcast]: the set of the reply addresses. *)
Definition _discover_via_broadcast (l : lan) : list string :=
  fold_left set_add (broadcast_replies l) [].

(** The set [device_hosts]: the configured host, the broadcast replies and
    the two common names. *)
Definition device_hosts (l : lan) (host : string) : list string :=
  let device_hosts := [host] in
  let device_hosts := fold_left set_add (_discover_via_broadcast l) device_hosts in
  fold_left set_add ["hdhomerun.local"; "hdhomerun"] device_hosts.

(** A Python string is true when it is not empty. *)
Definition truthy (s : string) : bool := negb (String.eqb s "").

(** The body of [for host in device_hosts]: the lists [all_device_auths]
    and [discovered_devices] after probing [host]. *)
Definition probe_host (l : lan) (acc : list string * list string) (host : string)
  : list string * list string :=
  let (all_device_auths, discovered_devices) := acc in
  match _discover_single_device l host with
  | Some device_auth =>
    if truthy device_auth && negb (set_mem device_auth all_device_auths)
    then (all_device_auths ++ [device_auth], discovered_devices ++ [host])
    else acc
  | None => acc
  end.

(** The attributes of [HDHomeRunClient] that the methods read and write. *)
Record HDHomeRunClient : Type := mkClient {
  host : string;
  device_auth : option string;
  all_device_auths : list string;
  discovered_devices : list string;
  _channels : option (list ChannelInfo.t)
}.

(** [''.join(tokens)]. *)
Definition join (tokens : list string) : string := String.concat "" tokens.

(** [discover_all_devices]: the credential and the updated client, or the
    failure.  The two lists are reset before the probes, so they are
    assigned also when the method raises. *)
Definition discover_all_devices (l : lan) (self : HDHomeRunClient)
  : HDHomeRunClient * (exn + string) :=
  let hosts := set_iteration l (device_hosts l (host self)) in
  let (auths, devices) := fold_left (probe_host l) hosts ([], []) in
  match auths with
  | [] =>
    (mkClient (host self) (device_auth self) auths devices (_channels self),
     inl (HDHomeRunAPIError NoDevicesDiscovered))
  | _ =>
    (mkClient (host self) (Some (join auths)) auths devices (_channels self),
     inr (join auths))
  end.

Definition discover_device := discover_all_devices.

(** The tokens that the hosts return, in probing order, empty strings
    left out. *)
Definition returned_tokens (l : lan) (hosts : list string) : list string :=
  flat_map (fun host =>
              match _discover_single_device l host with
              | Some device_auth => if truthy device_auth then [device_auth] else []
              | None => []
              end) hosts.

(** The distinct elements of a list in the order of their first
    occurrences. *)
Fixpoint first_seen (tokens : list string) : list string :=
  match tokens with
  | [] => []
  | t :: tokens' => t :: filter (fun u => negb (String.eqb u t)) (first_seen tokens')
  end.

(** Truth of an optional list: present and not empty. *)
Definition nonempty {A : Type} (o : option (list A)) : bool :=
  match o with
  | Some (_ :: _) => true
  | _ => false
  end.

(** ** [get_channels] *)

(** A channel object of the lineup response. *)
Record lineup_entry : Type := mkLineupEntry {
  le_GuideNumber : option string;
  le_GuideName : option string;
  le_URL : option string;
  le_ImageURL : option string
}.

(** What [urlopen] followed by [json.loads] does for [/lineup.json]: a
    JSON array of channel objects, a [URLError] (an HTTP error status is
    one), a body that is not JSON, or an exception of another class. *)
Inductive lineup_result : Type :=
| Lineup (data : list lineup_entry)
| LineupURLError
| LineupNotJSON
| LineupTimeout.

Definition channel_of_entry (channel_data : lineup_entry) : ChannelInfo.t :=
  ChannelInfo.mk (get (le_GuideNumber channel_data) "")
                 (get (le_GuideName channel_data) "Unknown")
                 (get (le_URL channel_data) "")
                 (le_ImageURL channel_data).

(** [if not self.device_auth]: the attribute is [None] or empty. *)
Definition has_device_auth (self : HDHomeRunClient) : bool :=
  match device_auth self with
  | Some a => truthy a
  | None => false
  end.

(** The [try] block of [get_channels] with its two handlers. *)
Definition fetch_lineup (answer : lineup_result) (self : HDHomeRunClient)
  : HDHomeRunClient * (exn + list ChannelInfo.t) :=
  match answer with
  | Lineup data =>
    let channels := map channel_of_entry data in
    (mkClient (host self) (device_auth self) (all_device_auths self)
              (discovered_devices self) (Some channels),
     inr channels)
  | LineupURLError => (self, inl (HDHomeRunAPIError FailedToGetLineup))
  | LineupNotJSON => (self, inl (HDHomeRunAPIError InvalidJSONFromLineup))
  | LineupTimeout => (self, inl TimeoutError)
  end.

Definition get_channels (l : lan) (answer : lineup_result) (self : HDHomeRunClient)
  : HDHomeRunClient * (exn + list ChannelInfo.t) :=
  if has_device_auth self then fetch_lineup answer self
  else
    match discover_device l self with
    | (self', inl e) => (self', inl e)
    | (self', inr _) => fetch_lineup answer self'
    end.

(** ** [get_epg_data] as a method of the client

    Before its [try] statement the method discovers the devices when the
    client has no credential and fetches the lineup when it has no channels;
    a failure of either leaves the method as it is. *)
Definition has_channels (self : HDHomeRunClient) : bool :=
  nonempty (_channels self).

Definition client_get_epg_data (l : lan) (answer : lineup_result) (net : network)
    (now days hours_increment : Z) (self : HDHomeRunClient)
  : HDHomeRunClient * (exn + list ProgramInfo.t) :=
  let fetch (self : HDHomeRunClient) :=
    match snd (get_epg_data net (get (_channels self) []) (get (device_auth self) "")
                 now days hours_increment) with
    | inl a => (self, inl (HDHomeRunAPIError a))
    | inr result => (self, inr result)
    end in
  let with_channels (self : HDHomeRunClient) :=
    if has_channels self then fetch self
    else
      match get_channels l answer self with
      | (self', inl e) => (self', inl e)
      | (self', inr _) => fetch self'
      end in
  if has_device_auth self then with_channels self
  else
    match discover_device l self with
    | (self', inl e) => (self', inl e)
    | (self', inr _) => with_channels self'
    end.

(** * The converter ([xmltv_converter.py]) *)

(** ** Python strings and integers

    A string is a sequence of characters of code 0..255. *)

(** [str.isspace] on one character; [str.strip] and the pattern [\s] use
    the same class. *)
Definition is_space (c : ascii) : bool :=
  let n := nat_of_ascii c in
  ((9 <=? n) && (n <=? 13) || (28 <=? n) && (n <=? 32)
   || (n =? 133) || (n =? 160))%nat.

Definition is_digit (c : ascii) : bool :=
  let n := nat_of_ascii c in ((48 <=? n) && (n <=? 57))%nat.

Definition digit_value (c : ascii) : Z := Z.of_nat (nat_of_ascii c) - 48.

Fixpoint lstrip (s : string) : string :=
  match s with
  | String c s' => if is_space c then lstrip s' else s
  | EmptyString => EmptyString
  end.

Fixpoint rstrip (s : string) : string :=
  match s with
  | String c s' =>
    match rstrip s' with
    | EmptyString => if is_space c then EmptyString else String c EmptyString
    | r => String c r
    end
  | EmptyString => EmptyString
  end.

(** [s.strip()]. *)
Definition strip (s : string) : string := rstrip (lstrip s).

(** The digits of an integer literal: decimal digits, with single
    underscores allowed between two digits. *)
Inductive literal_state : Type := AtStart | AfterDigit | AfterUnderscore.

Fixpoint int_digits (s : string) (acc : Z) (prev : literal_state) : option Z :=
  match s with
  | EmptyString =>
    match prev with
    | AfterDigit => Some acc
    | _ => None
    end
  | String c s' =>
    if is_digit c then int_digits s' (10 * acc + digit_value c) AfterDigit
    else if Ascii.eqb c "_" then
      match prev with
      | AfterDigit => int_digits s' acc AfterUnderscore
      | _ => None
      end
    else None
  end.

(** The whitespace that [int] drops around a literal: the characters for
    which the C library's [isspace] holds, and U+0085 and U+00A0, which the
    interpreter turns into spaces first.  The separators U+001C to U+001F,
    which [str.isspace] accepts, are not among them. *)
Definition is_int_space (c : ascii) : bool :=
  let n := nat_of_ascii c in
  ((9 <=? n) && (n <=? 13) || (n =? 32) || (n =? 133) || (n =? 160))%nat.

Fixpoint lstrip_by (f : ascii -> bool) (s : string) : string :=
  match s with
  | String c s' => if f c then lstrip_by f s' else s
  | EmptyString => EmptyString
  end.

Fixpoint rstrip_by (f : ascii -> bool) (s : string) : string :=
  match s with
  | String c s' =>
    match rstrip_by f s' with
    | EmptyString => if f c then EmptyString else String c EmptyString
    | r => String c r
    end
  | EmptyString => EmptyString
  end.

(** The number of decimal digits of a string. *)
Fixpoint count_digits (s : string) : nat :=
  match s with
  | String c s' => if is_digit c then S (count_digits s') else count_digits s'
  | EmptyString => O
  end.

(** [sys.get_int_max_str_digits()]: the interpreter (3.11) converts no
    string of more digits to an integer and writes no integer of more
    digits. *)
Definition int_max_str_digits : nat := 4300.

(** [int(s)] for a string: surrounding whitespace is dropped, one sign is
    allowed, and anything else raises [ValueError], as does a literal of
    more than 4300 digits. *)
Definition int (s : string) : exn + Z :=
  let literal := rstrip_by is_int_space (lstrip_by is_int_space s) in
  if (int_max_str_digits <? count_digits literal)%nat then inl ValueError
  else
    let body :=
      match literal with
      | String c s' =>
        if Ascii.eqb c "-" then option_map Z.opp (int_digits s' 0 AtStart)
        else if Ascii.eqb c "+" then int_digits s' 0 AtStart
        else int_digits (String c s') 0 AtStart
      | EmptyString => None
      end in
    match body with
    | Some z => inr z
    | None => inl ValueError
    end.

(** [str(z)] for an integer whose writing the interpreter does not
    refuse. *)
Definition str (z : Z) : string :=
  DecimalString.NilZero.string_of_int (Z.to_int z).

(** The rendering of an integer in an f-string: [ValueError] for an
    integer of more than 4300 digits. *)
Definition format_int (z : Z) : exn + string :=
  if (int_max_str_digits <? String.length (str (Z.abs z)))%nat then inl ValueError
  else inr (str z).

(** [c in s] for a one-character string [c]. *)
Fixpoint contains (c : ascii) (s : string) : bool :=
  match s with
  | String c' s' => Ascii.eqb c' c || contains c s'
  | EmptyString => false
  end.

(** [s.index(c)] for a one-character string [c]. *)
Fixpoint index (c : ascii) (s : string) : exn + nat :=
  match s with
  | String c' s' =>
    if Ascii.eqb c' c then inr O
    else match index c s' with
         | inr i => inr (S i)
         | inl e => inl e
         end
  | EmptyString => inl ValueError
  end.

(** [s[i:j]] and [s[i:]] for indexes that are not negative. *)
Definition slice (s : string) (i j : nat) : string := substring i (j - i) s.

Definition slice_from (s : string) (i : nat) : string :=
  substring i (String.length s - i) s.

(** Truth of an [Optional[str]]. *)
Definition truthy_opt (o : option string) : bool :=
  match o with
  | Some s => truthy s
  | None => false
  end.

(** ** Dates and times

    [ZoneInfo]: the offset from UTC, in seconds, in force at a UTC
    instant. *)
Record ZoneInfo : Type := mkZoneInfo {
  utcoffset : Z -> Z
}.

Definition UTC : ZoneInfo := mkZoneInfo (fun _ => 0).

(** A datetime whose [tzinfo] is the converter's zone: the wall-clock
    fields, counted as seconds since 1970-01-01 00:00:00 on that clock, and
    the offset from UTC. *)
Record datetime : Type := mkDatetime {
  wall : Z;
  offset : Z
}.

(** [t.astimezone(tz)] for a UTC datetime [t]: [OverflowError] ("date value
    out of range") when the wall clock of the zone would show a time
    outside the years 1 to 9999. *)
Definition astimezone (tz : ZoneInfo) (t : Z) : exn + datetime :=
  let local := t + utcoffset tz t in
  if in_datetime_range local then inr (mkDatetime local (utcoffset tz t))
  else inl OverflowError.

(** The wall-clock fields of [d.replace(hour=0, minute=0, second=0,
    microsecond=0)].  Two datetimes with the same [tzinfo] are compared by
    these fields alone. *)
Definition replace_midnight (d : datetime) : Z := 86400 * (wall d / 86400).

(** The day number of the wall clock: the calendar date. *)
Definition calendar_day (d : datetime) : Z := wall d / 86400.

(** Year, month and day of the proleptic Gregorian calendar for a number
    of days since 1970-01-01. *)
Definition civil_from_days (days : Z) : Z * Z * Z :=
  let z := days + 719468 in
  let era := z / 146097 in
  let doe := z - era * 146097 in
  let yoe := (doe - doe / 1460 + doe / 36524 - doe / 146096) / 365 in
  let doy := doe - (365 * yoe + yoe / 4 - yoe / 100) in
  let mp := (5 * doy + 2) / 153 in
  let d := doy - (153 * mp + 2) / 5 + 1 in
  let m := if mp <? 10 then mp + 3 else mp - 9 in
  let y := yoe + era * 400 + (if m <=? 2 then 1 else 0) in
  (y, m, d).

(** A number that is not negative, in decimal, padded with zeros on the
    left to [width] digits. *)
Fixpoint zeros (n : nat) : string :=
  match n with
  | O => EmptyString
  | S n' => String "0" (zeros n')
  end.

Definition zero_padded (width : nat) (z : Z) : string :=
  (zeros (width - String.length (str z)) ++ str z)%string.

(** [d.strftime("%Y%m%d%H%M%S")].  The C library writes the year without
    padding, so a year before 1000 has fewer than four digits. *)
Definition strftime_compact (d : datetime) : string :=
  let '(y, m, day) := civil_from_days (wall d / 86400) in
  let secs := wall d mod 86400 in
  let hours := zero_padded 2 (secs / 3600) in
  let minutes := zero_padded 2 (secs / 60 mod 60) in
  let seconds := zero_padded 2 (secs mod 60) in
  (str y ++ zero_padded 2 m ++ zero_padded 2 day
   ++ hours ++ minutes ++ seconds)%string.

(** [%z]: sign, hours and minutes of the offset, and its seconds when it
    has any. *)
Definition strftime_z (d : datetime) : string :=
  let a := Z.abs (offset d) in
  let sign := if offset d <? 0 then "-" else "+" in
  let hours := zero_padded 2 (a / 3600) in
  let minutes := zero_padded 2 (a / 60 mod 60) in
  let seconds := if a mod 60 =? 0 then "" else zero_padded 2 (a mod 60) in
  (sign ++ hours ++ minutes ++ seconds)%string.

(** [d.strftime("%Y%m%d%H%M%S %z")]. *)
Definition strftime_with_offset (d : datetime) : string :=
  (strftime_compact d ++ " " ++ strftime_z d)%string.

(** ** Element trees ([xml.etree.ElementTree]) *)

#[local] Unset Elimination Schemes.
Inductive Element : Type :=
  mkElement (tag : string) (attrib : list (string * string))
            (text : option string) (children : list Element).
#[local] Set Elimination Schemes.

Definition tag (e : Element) : string :=
  let 'mkElement t _ _ _ := e in t.
Definition attrib (e : Element) : list (string * string) :=
  let 'mkElement _ a _ _ := e in a.
Definition text (e : Element) : option string :=
  let 'mkElement _ _ x _ := e in x.
Definition children (e : Element) : list Element :=
  let 'mkElement _ _ _ c := e in c.

Definition append_child (parent child : Element) : Element :=
  mkElement (tag parent) (attrib parent) (text parent) (children parent ++ [child]).

(** [e.get(key)]. *)
Fixpoint attribute (key : string) (a : list (string * string)) : option string :=
  match a with
  | [] => None
  | (k, v) :: a' => if String.eqb k key then Some v else attribute key a'
  end.

(** ** Warnings and errors of the logger

    The calls [logger.warning] and [logger.error] are recorded;
    [logger.debug] and [logger.info] are left out. *)
Inductive level : Type := WARNING | ERROR.

Record log_record : Type := mkLog {
  log_level : level;
  log_message : string
}.

(** [str(e)] in a log message.  The converter logs the [OverflowError] of
    a conversion between zones, whose text is given; the other texts stand
    for the messages of exceptions that it does not log. *)
Definition exn_text (e : exn) : string :=
  match e with
  | HDHomeRunAPIError _ => "HDHomeRunAPIError"
  | JSONDecodeError => "JSONDecodeError"
  | KeyError k => k
  | IndexError => "IndexError"
  | TimeoutError => "TimeoutError"
  | ValueError => "ValueError"
  | OverflowError => "date value out of range"
  | OSError => "OSError"
  end.

(** ** Building an element: state and exceptions

    The state is the element that the running method adds to and the
    records logged so far.  A computation returns the new state together
    with a value or the exception raised: what was added before an
    exception stays added. *)
Record builder : Type := mkBuilder {
  elem : Element;
  log : list log_record
}.

Definition M (A : Type) : Type := builder -> builder * (exn + A).

Definition ret {A : Type} (a : A) : M A := fun b => (b, inr a).

Definition bind {A B : Type} (m : M A) (k : A -> M B) : M B :=
  fun b =>
    match m b with
    | (b', inr a) => k a b'
    | (b', inl e) => (b', inl e)
    end.

Definition raise {A : Type} (e : exn) : M A := fun b => (b, inl e).

(** A value or an exception computed without the state. *)
Definition lift {A : Type} (r : exn + A) : M A := fun b => (b, r).

(** [try: body except <classes> as e: handler(e)]; [catches] tells the
    classes of the clause. *)
Definition try_except {A : Type} (body : M A) (catches : exn -> bool)
    (handler : exn -> M A) : M A :=
  fun b =>
    match body b with
    | (b', inl e) => if catches e then handler e b' else (b', inl e)
    | r => r
    end.

Declare Scope builder_scope.
Delimit Scope builder_scope with builder.
Notation "x <- m ;; k" := (bind m (fun x => k))
  (at level 61, m at next level, right associativity) : builder_scope.
Notation "m ;; k" := (bind m (fun _ => k))
  (at level 61, right associativity) : builder_scope.

(** [except Exception]. *)
Definition any_exception (e : exn) : bool := true.

(** [except (ValueError, IndexError)]. *)
Definition value_or_index_error (e : exn) : bool :=
  match e with
  | ValueError | IndexError => true
  | _ => false
  end.

(** [when c m]: an [if] without [else]. *)
Definition when (c : bool) (m : M unit) : M unit :=
  if c then m else ret tt.

(** [for x in xs: body(x)]. *)
Fixpoint for_each {A : Type} (xs : list A) (body : A -> M unit) : M unit :=
  match xs with
  | [] => ret tt
  | x :: xs' => bind (body x) (fun _ => for_each xs' body)
  end.

(** [ET.SubElement(current, tag, **attrib)] followed by [body] on the new
    element.  The new element is a child of the current one from its
    creation on, so it stays one when [body] raises. *)
Definition SubElement {A : Type} (tag : string) (attrib : list (string * string))
    (body : M A) : M A :=
  fun b =>
    let (b', r) := body (mkBuilder (mkElement tag attrib None []) (log b)) in
    (mkBuilder (append_child (elem b) (elem b')) (log b'), r).

(** [current.text = s]. *)
Definition set_text (s : string) : M unit :=
  fun b =>
    (mkBuilder (mkElement (tag (elem b)) (attrib (elem b)) (Some s) (children (elem b)))
               (log b),
     inr tt).

Definition logger (l : level) (message : string) : M unit :=
  fun b => (mkBuilder (elem b) (log b ++ [mkLog l message]), inr tt).

(** [current.set(key, value)]. *)
Fixpoint dict_set (key value : string) (a : list (string * string))
  : list (string * string) :=
  match a with
  | [] => [(key, value)]
  | (k, v) :: a' =>
    if String.eqb k key then (k, value) :: a' else (k, v) :: dict_set key value a'
  end.

Definition set_attribute (key value : string) : M unit :=
  fun b =>
    (mkBuilder (mkElement (tag (elem b)) (dict_set key value (attrib (elem b)))
                          (text (elem b)) (children (elem b)))
               (log b),
     inr tt).

(** ** [_clean_text] *)

Fixpoint filter_chars (f : ascii -> bool) (s : string) : string :=
  match s with
  | String c s' => if f c then String c (filter_chars f s') else filter_chars f s'
  | EmptyString => EmptyString
  end.

(** [ord(ch) >= 32 or ch in '\t\n\r']. *)
Definition keeps_char (c : ascii) : bool :=
  let n := nat_of_ascii c in
  ((32 <=? n) || (n =? 9) || (n =? 10) || (n =? 13))%nat.

(** A position in a match: the number of characters consumed and the rest
    of the subject. *)
Definition cursor : Type := nat * string.

(** [x?] for a character class [x]. *)
Definition optional (f : ascii -> bool) (p : cursor) : cursor :=
  match p with
  | (n, String c s') => if f c then (S n, s') else p
  | _ => p
  end.

(** [x*] for a character class [x]. *)
Fixpoint many_from (f : ascii -> bool) (n : nat) (s : string) : cursor :=
  match s with
  | String c s' => if f c then many_from f (S n) s' else (n, s)
  | EmptyString => (n, s)
  end.

Definition many (f : ascii -> bool) (p : cursor) : cursor :=
  many_from f (fst p) (snd p).

(** One character of a class, and [x+]. *)
Definition one (f : ascii -> bool) (p : cursor) : option cursor :=
  match p with
  | (n, String c s') => if f c then Some (S n, s') else None
  | _ => None
  end.

Definition many1 (f : ascii -> bool) (p : cursor) : option cursor :=
  option_map (many f) (one f p).

Definition is_char (c : ascii) : ascii -> bool := Ascii.eqb c.

(** The class [A-Z,]. *)
Definition is_tag_char (c : ascii) : bool :=
  let n := nat_of_ascii c in
  ((65 <=? n) && (n <=? 90) || (n =? 44))%nat.

Definition is_S_or_E (c : ascii) : bool := Ascii.eqb c "S" || Ascii.eqb c "E".

Definition is_digit_or_slash (c : ascii) : bool := is_digit c || Ascii.eqb c "/".

Definition and_then {A B : Type} (o : option A) (f : A -> option B) : option B :=
  match o with
  | Some a => f a
  | None => None
  end.

(** The length of the match of [\[[A-Z,]+\]] at the start of [s].  No
    alternative of the pattern overlaps the next, so the greedy match is
    the only one. *)
Definition match_feature_tag (s : string) : option nat :=
  and_then (one (is_char "[") (O, s)) (fun p =>
  and_then (many1 is_tag_char p) (fun p =>
  and_then (one (is_char "]") p) (fun p =>
  Some (fst p)))).

(** The length of the match of [\(?[SE]?\d+\s?Ep\s?\d+[\d/]*\)?] at the
    start of [s]. *)
Definition match_season_episode (s : string) : option nat :=
  let p := optional is_S_or_E (optional (is_char "(") (O, s)) in
  and_then (many1 is_digit p) (fun p =>
  and_then (one (is_char "E") (optional is_space p)) (fun p =>
  and_then (one (is_char "p") p) (fun p =>
  and_then (many1 is_digit (optional is_space p)) (fun p =>
  Some (fst (optional (is_char ")") (many is_digit_or_slash p))))))).

(** [re.sub(pattern, '', s)] for a pattern that matches no empty string:
    [skip] characters of a match remain to be dropped. *)
Fixpoint re_sub_from (match_at : string -> option nat) (skip : nat) (s : string)
  : string :=
  match s with
  | EmptyString => EmptyString
  | String c s' =>
    match skip with
    | S k => re_sub_from match_at k s'
    | O =>
      match match_at s with
      | Some (S k) => re_sub_from match_at k s'
      | _ => String c (re_sub_from match_at O s')
      end
    end
  end.

Definition re_sub (match_at : string -> option nat) (s : string) : string :=
  re_sub_from match_at O s.

Definition _clean_text (text : string) : string :=
  if negb (truthy text) then ""
  else
    let cleaned := filter_chars keeps_char text in
    let cleaned := re_sub match_feature_tag cleaned in
    let cleaned := re_sub match_season_episode cleaned in
    strip cleaned.

(** ** The converter *)

Record XMLTVConverter : Type := mkConverter {
  timezone : ZoneInfo
}.

Definition lang_en : list (string * string) := [("lang", "en")].

(** [x is True] and [x is False] for an [Optional[bool]]. *)
Definition is_True (x : option bool) : bool :=
  match x with
  | Some true => true
  | _ => false
  end.

Definition is_False (x : option bool) : bool :=
  match x with
  | Some false => true
  | _ => false
  end.

(** Truth of an [Optional[datetime]]: a datetime is always true. *)
Definition present {A : Type} (x : option A) : bool :=
  match x with
  | Some _ => true
  | None => false
  end.

Local Open Scope builder_scope.

Definition _add_channel (channel : ChannelInfo.t) : M unit :=
  SubElement "channel" [("id", ChannelInfo.guide_number channel)]
    (SubElement "display-name" lang_en (set_text (ChannelInfo.guide_name channel)) ;;
     when (truthy_opt (ChannelInfo.image_url channel))
       (SubElement "icon" [("src", get (ChannelInfo.image_url channel) "")] (ret tt))).

Definition _add_episode_numbering (episode_number : string) : M unit :=
  try_except
    (SubElement "episode-num" [("system", "onscreen")] (set_text episode_number) ;;
     when (contains "S" episode_number && contains "E" episode_number)
       (s <- lift (index "S" episode_number) ;;
        let series_start := (s + 1)%nat in
        series_end <- lift (index "E" episode_number) ;;
        e <- lift (index "E" episode_number) ;;
        let episode_start := (e + 1)%nat in
        try_except
          (n <- lift (int (slice episode_number series_start series_end)) ;;
           let series_num := n - 1 in
           m <- lift (int (slice_from episode_number episode_start)) ;;
           let episode_num := m - 1 in
           SubElement "episode-num" [("system", "xmltv_ns")]
             (series_text <- lift (format_int series_num) ;;
              episode_text <- lift (format_int episode_num) ;;
              set_text (series_text ++ "." ++ episode_text ++ ".0/0")%string))
          value_or_index_error
          (fun _ =>
             logger WARNING
               ("Could not parse episode number: " ++ episode_number)%string)))
    any_exception
    (fun e =>
       logger WARNING
         ("Error processing episode number '" ++ episode_number ++ "': "
          ++ exn_text e)%string).

Definition _add_episode_status (self : XMLTVConverter) (program : ProgramInfo.t)
  : M unit :=
  try_except
    (if is_True (ProgramInfo.first program) then
       SubElement "new" [] (ret tt)
     else if present (ProgramInfo.original_airdate program) then
       (start_time <- lift (astimezone (timezone self) (ProgramInfo.start_time program)) ;;
        let start_date := replace_midnight start_time in
        air_date <-
          lift (astimezone (timezone self)
                  (get (ProgramInfo.original_airdate program) 0)) ;;
        let air_date_only := replace_midnight air_date in
        if negb (air_date_only =? start_date) then
          SubElement "previously-shown" []
            (set_attribute "start" (strftime_compact air_date))
        else if is_False (ProgramInfo.first program) then
          SubElement "previously-shown" [] (ret tt)
        else ret tt)
     else if is_False (ProgramInfo.first program) then
       SubElement "previously-shown" [] (ret tt)
     else ret tt)
    any_exception
    (fun e =>
       logger WARNING
         ("Error processing episode status for '" ++ ProgramInfo.title program
          ++ "': " ++ exn_text e)%string).

Definition _add_program (self : XMLTVConverter) (program : ProgramInfo.t) : M unit :=
  try_except
    (start_time <- lift (astimezone (timezone self) (ProgramInfo.start_time program)) ;;
     end_time <- lift (astimezone (timezone self) (ProgramInfo.end_time program)) ;;
     SubElement "programme"
       [ ("start", strftime_with_offset start_time);
         ("stop", strftime_with_offset end_time);
         ("channel", ProgramInfo.guide_number program) ]
       (SubElement "title" lang_en (set_text (ProgramInfo.title program)) ;;
        when (truthy_opt (ProgramInfo.episode_title program))
          (SubElement "sub-title" lang_en
             (set_text (get (ProgramInfo.episode_title program) ""))) ;;
        when (truthy_opt (ProgramInfo.synopsis program))
          (SubElement "desc" lang_en
             (set_text (_clean_text (get (ProgramInfo.synopsis program) "")))) ;;
        when (nonempty (ProgramInfo.filters program))
          (for_each (get (ProgramInfo.filters program) [])
             (fun filter_name => SubElement "category" lang_en (set_text filter_name))) ;;
        when (truthy_opt (ProgramInfo.image_url program))
          (SubElement "icon" [("src", get (ProgramInfo.image_url program) "")] (ret tt)) ;;
        when (truthy_opt (ProgramInfo.episode_number program))
          (_add_episode_numbering (get (ProgramInfo.episode_number program) "")) ;;
        _add_episode_status self program))
    any_exception
    (fun e =>
       logger ERROR
         ("Error adding program '" ++ ProgramInfo.title program ++ "': "
          ++ exn_text e)%string).

(** [convert_to_xmltv]: the records logged, and the root element or the
    exception that left the method. *)
Definition convert_to_xmltv (self : XMLTVConverter)
    (channels : list ChannelInfo.t) (programs : list ProgramInfo.t)
    (generator_name generator_url : string)
  : list log_record * (exn + Element) :=
  let tv_root :=
    mkElement "tv"
      [ ("source-info-name", "HDHomeRun");
        ("generator-info-name", generator_name);
        ("generator-info-url", generator_url) ] None [] in
  match (for_each channels _add_channel ;;
         for_each programs (_add_program self)) (mkBuilder tv_root []) with
  | (b, inr _) => (log b, inr (elem b))
  | (b, inl e) => (log b, inl e)
  end.

Local Close Scope builder_scope.

(** ** What a method adds

    [add_children e cs] is [e] with the elements [cs] appended to its
    children; [Emits m cs ls] says that [m], from every state, returns
    normally having appended [cs] to the current element and [ls] to the
    log. *)
Definition add_children (e : Element) (cs : list Element) : Element :=
  mkElement (tag e) (attrib e) (text e) (children e ++ cs).

Definition Emits (m : M unit) (cs : list Element) (ls : list log_record) : Prop :=
  forall b, m b = (mkBuilder (add_children (elem b) cs) (log b ++ ls), inr tt).

(** [Raises m cs ls e]: from every state [m] raises [e], having appended
    [cs] and [ls]. *)
Definition Raises {A : Type} (m : M A) (cs : list Element) (ls : list log_record)
    (e : exn) : Prop :=
  forall b, m b = (mkBuilder (add_children (elem b) cs) (log b ++ ls), inl e).

(** The start and the end of a record can both be expressed on the clock
    of the converter's zone. *)
Definition converts (self : XMLTVConverter) (program : ProgramInfo.t) : bool :=
  match astimezone (timezone self) (ProgramInfo.start_time program),
        astimezone (timezone self) (ProgramInfo.end_time program) with
  | inr _, inr _ => true
  | _, _ => false
  end.

(** The warning of [_add_episode_numbering] for a string it cannot
    translate. *)
Definition parse_warning (episode_number : string) : log_record :=
  mkLog WARNING ("Could not parse episode number: " ++ episode_number)%string.

(** The records that the two handlers for a failed conversion log. *)
Definition adding_error (program : ProgramInfo.t) (e : exn) : log_record :=
  mkLog ERROR ("Error adding program '" ++ ProgramInfo.title program ++ "': "
               ++ exn_text e)%string.

Definition status_warning (program : ProgramInfo.t) (e : exn) : log_record :=
  mkLog WARNING ("Error processing episode status for '" ++ ProgramInfo.title program
                 ++ "': " ++ exn_text e)%string.

(** The two numbering elements. *)
Definition onscreen_element (episode_number : string) : Element :=
  mkElement "episode-num" [("system", "onscreen")] (Some episode_number) [].

Definition xmltv_ns_element (series_num episode_num : Z) : Element :=
  mkElement "episode-num" [("system", "xmltv_ns")]
            (Some (str series_num ++ "." ++ str episode_num ++ ".0/0")%string) [].

(** The two substrings that [_add_episode_numbering] passes to [int], for
    a string that contains an "S" and an "E". *)
Definition series_part (episode_number : string) : string :=
  match index "S" episode_number, index "E" episode_number with
  | inr s, inr e => slice episode_number (s + 1) e
  | _, _ => ""
  end.

Definition episode_part (episode_number : string) : string :=
  match index "E" episode_number with
  | inr e => slice_from episode_number (e + 1)
  | _ => ""
  end.

(** The string "S<n>E<m>" for two runs of decimal digits. *)
Definition SnEm (dn dm : Decimal.uint) : string :=
  ("S" ++ DecimalString.NilEmpty.string_of_uint dn
   ++ "E" ++ DecimalString.NilEmpty.string_of_uint dm)%string.

(** The three status markers. *)
Definition new_element : Element := mkElement "new" [] None [].

Definition previously_shown_element : Element :=
  mkElement "previously-shown" [] None [].

Definition previously_shown_at (start : string) : Element :=
  mkElement "previously-shown" [("start", start)] None [].

(** ** Concrete inputs for the examples *)

Definition lineup_2_1 : list ChannelInfo.t :=
  [ ChannelInfo.mk "2.1" "KTVU" "http://hdhr/auto/v2.1" None ].

(** An entry with the given title and timestamps and nothing else. *)
Definition entry (title : string) (start_time end_time : option Z) : program_data :=
  mkProgramData (Some title) start_time end_time None None None None None None None.

(** Every combination is answered with 403 Forbidden. *)
Definition net_all_403 : network := fun _ _ => HTTPError 403.

(** The first request meets a server error; every later one would be
    answered with an empty guide. *)
Definition net_500_then_ok : network :=
  fun n _ => match n with
             | O => HTTPError 500
             | _ => Response []
             end.

(** The first request meets a network error; every later one is answered
    with an empty guide. *)
Definition net_down_then_ok : network :=
  fun n _ => match n with
             | O => URLError
             | _ => Response []
             end.

(** No request reaches a server. *)
Definition net_always_down : network := fun _ _ => URLError.

(** Every request is answered with a page that is not JSON. *)
Definition net_not_json : network := fun _ _ => BodyNotJSON.

(** One entry that ends before it starts. *)
Definition net_reversed_entry : network :=
  fun _ _ =>
    Response [ mkChannelGuide (Some "2.1")
                 (Some [ entry "News" (Some 1700003600) (Some 1700000000) ]) ].

(** A good entry followed by one without a [StartTime]. *)
Definition net_entry_without_start : network :=
  fun _ _ =>
    Response [ mkChannelGuide (Some "2.1")
                 (Some [ entry "News" (Some 1700000000) (Some 1700003600);
                         entry "Weather" None (Some 1700007200) ]) ].

(** Two records of the same broadcast that differ in their synopsis. *)
Definition news_short : ProgramInfo.t :=
  ProgramInfo.mk "News" 1700000000 1700003600 "2.1"
                 (Some "Headlines.") None None None None (Some []) None.

Definition news_long : ProgramInfo.t :=
  ProgramInfo.mk "News" 1700000000 1700003600 "2.1"
                 (Some "Headlines, sport and weather.") None None None None (Some []) None.

(** Two tuners that return the same token, a third with its own, and an
    interpreter that iterates the host set backwards. *)
Definition two_tuners_one_token : lan :=
  mkLan [ "192.168.1.21"; "192.168.1.20"; "192.168.1.21" ]
        (fun host =>
           if String.eqb host "192.168.1.20" then DiscoverJSON (Some "AbCd1234")
           else if String.eqb host "192.168.1.21" then DiscoverJSON (Some "AbCd1234")
           else if String.eqb host "hdhomerun.local" then DiscoverJSON (Some "XyZw9876")
           else if String.eqb host "hdhomerun" then DiscoverJSON None
           else NoReply)
        (@List.rev string).

Definition fresh_client (host : string) : HDHomeRunClient :=
  mkClient host None [] [] None.

(** A client after discovery, and a lineup with channel objects that lack
    fields. *)
Definition discovered_client : HDHomeRunClient :=
  mkClient "192.168.1.20" (Some "AbCd1234") ["AbCd1234"] ["192.168.1.20"] None.

Definition sparse_lineup : list lineup_entry :=
  [ mkLineupEntry None None None None;
    mkLineupEntry (Some "2.1") None (Some "http://192.168.1.20:5004/auto/v2.1") None;
    mkLineupEntry (Some "4.1") (Some "KRON") None (Some "http://img/kron.png") ].

(** A converter one hour ahead of UTC, and the instant 9999-12-31 23:30:00
    UTC, half an hour before the last that a [datetime] holds. *)
Definition one_hour_ahead : XMLTVConverter := mkConverter (mkZoneInfo (fun _ => 3600)).

Definition last_half_hour : Z := 253402299000.

(** A record that is broadcast in that half hour. *)
Definition last_broadcast : ProgramInfo.t :=
  ProgramInfo.mk "Finale" last_half_hour (last_half_hour + 1200) "4.1" None None
                 (Some "S01E05") None None (Some []) None.

(** A one followed by 4300 zeros, and the episode number with that series
    number: "S1", 4300 zeros, "E1". *)
Definition long_series_digits : Decimal.uint :=
  Decimal.D1 (Nat.iter 4300 Decimal.D0 Decimal.Nil).

Definition long_episode_number : string :=
  SnEm long_series_digits (Decimal.D1 Decimal.Nil).

(** A converter eight hours behind UTC, and a record that starts at
    2023-11-14 14:13:20 on its clock, with the given first-run flag and
    original airdate. *)
Definition pacific : XMLTVConverter := mkConverter (mkZoneInfo (fun _ => -28800)).

Definition broadcast (first : option bool) (original_airdate : option Z)
  : ProgramInfo.t :=
  ProgramInfo.mk "News" 1700000000 1700003600 "2.1" None None None None
                 original_airdate (Some []) first.

(** 2023-11-14 22:33:20 on the converter's clock (the next day in UTC), and
    2020-09-13 04:26:40. *)
Definition same_evening : Z := 1700030000.
Definition years_before : Z := 1600000000.

(** * Further definitions *)

(** ** Guide runs used in the examples *)

(** Every request is answered with the same guide: two programs on
    channel 2.1 and one on a channel that is not in the lineup. *)
Definition net_same_guide : network :=
  fun _ _ =>
    Response
      [ mkChannelGuide (Some "2.1")
          (Some [ entry "News" (Some 1700000000) (Some 1700003600);
                  entry "Weather" (Some 1700003600) (Some 1700007200) ]);
        mkChannelGuide (Some "9.9")
          (Some [ entry "Shopping" (Some 1700000000) (Some 1700003600) ]) ].

(** The first endpoint rejects every request; the second answers with an
    empty guide. *)
Definition net_first_endpoint_403 : network :=
  fun _ req =>
    if String.eqb (req_url_base req) "https://api.hdhomerun.com/api/guide?DeviceAuth=auth"
    then HTTPError 403
    else Response [].

(** The first user agent and the two endpoints. *)
Definition first_user_agent : string := nth 0 user_agents "".

Definition first_endpoint (device_auth : string) : string :=
  nth 0 (api_endpoints device_auth) "".

Definition second_endpoint (device_auth : string) : string :=
  nth 1 (api_endpoints device_auth) "".

(** The times of a run stay within the years that a [datetime] holds: its
    beginning, its end, and the cursor after the last window, which is less
    than one step past the end. *)
Definition within_calendar (now days hours_increment : Z) : bool :=
  in_datetime_range now
  && in_datetime_range (now + 86400 * days)
  && in_datetime_range (now + 86400 * days + 3600 * hours_increment).

(** ** What [_add_program] adds

    The children that [_add_program] gives a programme element before the
    episode numbering: the title, then the sub-title, the description, the
    categories and the icon of a record that has them. *)
Definition programme_head (program : ProgramInfo.t) : list Element :=
  [mkElement "title" lang_en (Some (ProgramInfo.title program)) []]
  ++ (if truthy_opt (ProgramInfo.episode_title program)
      then [mkElement "sub-title" lang_en
              (Some (get (ProgramInfo.episode_title program) "")) []]
      else [])
  ++ (if truthy_opt (ProgramInfo.synopsis program)
      then [mkElement "desc" lang_en
              (Some (_clean_text (get (ProgramInfo.synopsis program) ""))) []]
      else [])
  ++ map (fun filter_name => mkElement "category" lang_en (Some filter_name) [])
         (get (ProgramInfo.filters program) [])
  ++ (if truthy_opt (ProgramInfo.image_url program)
      then [mkElement "icon" [("src", get (ProgramInfo.image_url program) "")] None []]
      else []).

(** The attributes of the programme element of a record whose start and
    end are [start_time] and [end_time] on the converter's clock. *)
Definition programme_attrib (start_time end_time : datetime) (program : ProgramInfo.t)
  : list (string * string) :=
  [ ("start", strftime_with_offset start_time);
    ("stop", strftime_with_offset end_time);
    ("channel", ProgramInfo.guide_number program) ].

(** The converter's clock can show the start, the end and the original
    airdate of a record. *)
Definition shows (self : XMLTVConverter) (program : ProgramInfo.t) : bool :=
  converts self program
  && match ProgramInfo.original_airdate program with
     | Some airdate =>
       match astimezone (timezone self) airdate with
       | inr _ => true
       | inl _ => false
       end
     | None => true
     end.

(** What the conversion of a record may log: the error for a start or an
    end that the clock cannot show; else the warning for an episode number
    with both letters, and the warning for an original airdate that the
    clock cannot show. *)
Definition logged_for (self : XMLTVConverter) (program : ProgramInfo.t)
    (r : log_record) : Prop :=
  (converts self program = false /\ r = adding_error program OverflowError)
  \/ (converts self program = true
      /\ exists episode_number,
           ProgramInfo.episode_number program = Some episode_number
           /\ contains "S" episode_number = true
           /\ contains "E" episode_number = true
           /\ r = parse_warning episode_number)
  \/ (converts self program = true
      /\ exists airdate,
           ProgramInfo.original_airdate program = Some airdate
           /\ astimezone (timezone self) airdate = inl OverflowError
           /\ r = status_warning program OverflowError).

(** ** Strings

    [Subsequence s t]: [s] is [t] with some characters deleted. *)
Inductive Subsequence : string -> string -> Prop :=
| Subsequence_empty : Subsequence "" ""
| Subsequence_keep (c : ascii) (s t : string) :
    Subsequence s t -> Subsequence (String c s) (String c t)
| Subsequence_drop (c : ascii) (s t : string) :
    Subsequence s t -> Subsequence s (String c t).

(** [all_chars f s]: every character of [s] is in the class [f]. *)
Fixpoint all_chars (f : ascii -> bool) (s : string) : bool :=
  match s with
  | String c s' => f c && all_chars f s'
  | EmptyString => true
  end.

(** [p in s] for strings. *)
Fixpoint contains_str (p s : string) : bool :=
  String.prefix p s
  || match s with
     | String _ s' => contains_str p s'
     | EmptyString => false
     end.

(** * The file manager ([file_manager.py]) *)

(** [len(s)]. *)
Definition len (s : string) : Z := Z.of_nat (String.length s).

(** [s[:n]] and [s[-n:]] for [n >= 0]; [s[-0:]] is all of [s]. *)
Definition slice_to (s : string) (n : Z) : string := substring 0 (Z.to_nat n) s.

Definition slice_last (s : string) (n : Z) : string :=
  if n =? 0 then s
  else substring (String.length s - Z.to_nat n) (Z.to_nat n) s.

(** What opening and reading the written file gives: its content as text,
    or an exception. *)
Inductive read_result : Type :=
| Content (actual_content : string)
| ReadError.

(** The failures that [_verify_file] raises, each a [FileOperationError]. *)
Inductive verify_error : Type :=
| SizeMismatch (expected got : Z)
| PartialCheckFailed
| FullCheckFailed
| VerificationFailed.

Definition _verify_file (read : read_result) (expected_content : string)
  : verify_error + unit :=
  match read with
  | ReadError => inl VerificationFailed
  | Content actual_content =>
    if negb (len actual_content =? len expected_content) then
      inl (SizeMismatch (len expected_content) (len actual_content))
    else if len expected_content >? 1024 * 1024 then
      let start_check := Z.min 1024 (len expected_content / 4) in
      let end_check := Z.min 1024 (len expected_content / 4) in
      if negb (String.eqb (slice_to actual_content start_check)
                          (slice_to expected_content start_check))
         || negb (String.eqb (slice_last actual_content end_check)
                             (slice_last expected_content end_check))
      then inl PartialCheckFailed
      else inr tt
    else if negb (String.eqb actual_content expected_content) then
      inl FullCheckFailed
    else inr tt
  end.

(** Reading in text mode with the default [newline]: each "\r\n" and each
    other "\r" comes back as "\n". *)
Definition CR : ascii := "013"%char.
Definition LF : ascii := "010"%char.

Fixpoint universal_newlines (s : string) : string :=
  match s with
  | EmptyString => EmptyString
  | String c s' =>
    if Ascii.eqb c CR then
      String LF
        match s' with
        | String c' s'' =>
          if Ascii.eqb c' LF then universal_newlines s'' else universal_newlines s'
        | EmptyString => EmptyString
        end
    else String c (universal_newlines s')
  end.

(** What [_verify_file] reads after [content] has been written in full in
    text mode on a system whose line separator is "\n": the writing leaves
    the characters as they are, the reading translates the line ends. *)
Definition read_back (content : string) : read_result :=
  Content (universal_newlines content).

(** [n] copies of a character. *)
Fixpoint replicate (n : nat) (c : ascii) : string :=
  match n with
  | O => EmptyString
  | S n' => String c (replicate n' c)
  end.

(** ** Backups

    The name that [_create_backup] gives the copy of a file with the given
    stem and suffix, for the text [timestamp] of the clock, and the pattern
    with which [cleanup_old_backups] looks for the copies. *)
Definition backup_name (stem suffix timestamp : string) : string :=
  (stem ++ "." ++ timestamp ++ suffix ++ ".bak")%string.

Definition backup_pattern (base_name extension : string) : string :=
  (base_name ++ ".*." ++ extension ++ ".bak")%string.

(** Matching of a file name against a pattern in which "*" stands for any
    run of characters and "?" for one character; bracket expressions are
    not covered. *)
Fixpoint fnmatch (pattern name : string) : bool :=
  match pattern with
  | EmptyString =>
    match name with
    | EmptyString => true
    | _ => false
    end
  | String c pattern' =>
    if Ascii.eqb c "*" then
      (fix star (name : string) : bool :=
         fnmatch pattern' name
         || match name with
            | String _ name' => star name'
            | EmptyString => false
            end) name
    else
      match name with
      | String c' name' =>
        (Ascii.eqb c "?" || Ascii.eqb c c') && fnmatch pattern' name'
      | EmptyString => false
      end
  end.

(** The characters with a meaning of their own in a pattern. *)
Definition is_literal (c : ascii) : bool :=
  negb (Ascii.eqb c "*" || Ascii.eqb c "?" || Ascii.eqb c "[").

(** The characters of the clock text "%Y%m%d_%H%M%S". *)
Definition is_timestamp_char (c : ascii) : bool := is_digit c || Ascii.eqb c "_".

(** [list.sort(key=mtime, reverse=True)] on files with their modification
    times: newest first, files of equal time in their former order. *)
Fixpoint insert_newest (f : string * Z) (sorted : list (string * Z))
  : list (string * Z) :=
  match sorted with
  | [] => [f]
  | g :: sorted' =>
    if snd g <=? snd f then f :: sorted else g :: insert_newest f sorted'
  end.

Definition sort_newest_first (files : list (string * Z)) : list (string * Z) :=
  fold_right insert_newest [] files.

(** [cleanup_old_backups] on a directory given as its file names with
    their modification times: the files that it unlinks. *)
Definition cleanup_old_backups (directory : list (string * Z))
    (base_name extension : string) (keep_count : nat) : list string :=
  let backup_files :=
    filter (fun f => fnmatch (backup_pattern base_name extension) (fst f)) directory in
  if (List.length backup_files <=? keep_count)%nat then []
  else map fst (skipn keep_count (sort_newest_first backup_files)).

(** * Properties *)

(** ** Deduplication *)

Lemma same_broadcast_key (program p : ProgramInfo.t) :
  same_broadcast program p = true <-> dedup_key p = dedup_key program.
Proof.
  unfold same_broadcast, dedup_key.
  rewrite !andb_true_iff, Z.eqb_eq, !String.eqb_eq.
  split.
  - intros [[-> ->] ->]. reflexivity.
  - intros H. injection H as -> -> ->. auto.
Qed.

Lemma existsb_same_broadcast (programs : list ProgramInfo.t) (program : ProgramInfo.t) :
  existsb (same_broadcast program) programs = true
  <-> In (dedup_key program) (map dedup_key programs).
Proof.
  rewrite existsb_exists, in_map_iff.
  split; intros [p [H1 H2]]; exists p.
  - apply same_broadcast_key in H2. auto.
  - split; [assumption|]. apply same_broadcast_key. assumption.
Qed.

Lemma add_program_keys (programs : list ProgramInfo.t) (program : ProgramInfo.t) k :
  In k (map dedup_key (add_program programs program))
  <-> In k (map dedup_key programs) \/ k = dedup_key program.
Proof.
  unfold add_program.
  destruct (existsb (same_broadcast program) programs) eqn:E.
  - apply existsb_same_broadcast in E.
    split; [auto|]. intros [H | ->]; assumption.
  - rewrite map_app, in_app_iff. simpl. intuition.
Qed.

Lemma add_program_NoDup (programs : list ProgramInfo.t) (program : ProgramInfo.t) :
  NoDup (map dedup_key programs) ->
  NoDup (map dedup_key (add_program programs program)).
Proof.
  intros H. unfold add_program.
  destruct (existsb (same_broadcast program) programs) eqn:E; [assumption|].
  rewrite map_app. simpl.
  apply NoDup_app; [assumption | repeat constructor; simpl; tauto |].
  intros k Hk [<- | []].
  apply existsb_same_broadcast in Hk. congruence.
Qed.

Lemma fold_add_program_keys (stream programs : list ProgramInfo.t) k :
  In k (map dedup_key (fold_left add_program stream programs))
  <-> In k (map dedup_key programs) \/ In k (map dedup_key stream).
Proof.
  revert programs.
  induction stream as [|p stream IH]; intros programs; simpl.
  - tauto.
  - rewrite IH, add_program_keys. intuition.
Qed.

Lemma fold_add_program_NoDup (stream programs : list ProgramInfo.t) :
  NoDup (map dedup_key programs) ->
  NoDup (map dedup_key (fold_left add_program stream programs)).
Proof.
  revert programs.
  induction stream as [|p stream IH]; intros programs H; simpl.
  - assumption.
  - apply IH, add_program_NoDup, H.
Qed.

(** A stream whose keys are all new and pairwise distinct is appended
    whole. *)
Lemma fold_add_program_fresh (stream programs : list ProgramInfo.t) :
  NoDup (map dedup_key (programs ++ stream)) ->
  fold_left add_program stream programs = programs ++ stream.
Proof.
  revert programs.
  induction stream as [|p stream IH]; intros programs H; simpl.
  - symmetry. apply app_nil_r.
  - assert (E : existsb (same_broadcast p) programs = false).
    { destruct (existsb (same_broadcast p) programs) eqn:E; [|reflexivity].
      exfalso. apply existsb_same_broadcast in E.
      rewrite map_app in H. simpl in H.
      apply NoDup_remove_2 in H. apply H, in_or_app. auto. }
    unfold add_program at 2. rewrite E.
    replace (programs ++ p :: stream) with ((programs ++ [p]) ++ stream) in *
      by (rewrite <- app_assoc; reflexivity).
    apply IH, H.
Qed.

Lemma dedup_NoDup_keys (stream : list ProgramInfo.t) :
  NoDup (map dedup_key (dedup stream)).
Proof. apply fold_add_program_NoDup. constructor. Qed.

Lemma dedup_keys (stream : list ProgramInfo.t) k :
  In k (map dedup_key (dedup stream)) <-> In k (map dedup_key stream).
Proof. unfold dedup. rewrite fold_add_program_keys. simpl. tauto. Qed.

Lemma add_program_incl (programs : list ProgramInfo.t) (program p : ProgramInfo.t) :
  In p (add_program programs program) -> In p programs \/ p = program.
Proof.
  unfold add_program.
  destruct (existsb (same_broadcast program) programs); [auto|].
  rewrite in_app_iff. simpl. intuition.
Qed.

Lemma fold_add_program_incl (stream programs : list ProgramInfo.t) p :
  In p (fold_left add_program stream programs) -> In p programs \/ In p stream.
Proof.
  revert programs.
  induction stream as [|q stream IH]; intros programs H; simpl in *.
  - auto.
  - apply IH in H. destruct H as [H | H]; [|auto].
    apply add_program_incl in H. intuition.
Qed.

Lemma dedup_incl (stream : list ProgramInfo.t) p :
  In p (dedup stream) -> In p stream.
Proof.
  intros H. apply fold_add_program_incl in H. destruct H as [[] | H]. exact H.
Qed.

Lemma fold_add_program_keeps (stream programs : list ProgramInfo.t) p :
  In p programs -> In p (fold_left add_program stream programs).
Proof.
  revert programs.
  induction stream as [|q stream IH]; intros programs H; simpl.
  - exact H.
  - apply IH. unfold add_program.
    destruct (existsb (same_broadcast q) programs); [exact H|].
    apply in_or_app. left. exact H.
Qed.

(** The first record met with a key is the one kept. *)
Lemma dedup_keeps_first (before after : list ProgramInfo.t) (q : ProgramInfo.t) :
  ~ In (dedup_key q) (map dedup_key before) ->
  In q (dedup (before ++ q :: after)).
Proof.
  intros H. unfold dedup. rewrite fold_left_app. cbn [fold_left].
  apply fold_add_program_keeps.
  fold (dedup before). unfold add_program.
  destruct (existsb (same_broadcast q) (dedup before)) eqn:E.
  - apply existsb_same_broadcast in E.
    apply (proj1 (dedup_keys before (dedup_key q))) in E.
    destruct (H E).
  - apply in_or_app. right. left. reflexivity.
Qed.

Lemma dedup_idempotent (stream : list ProgramInfo.t) :
  dedup (dedup stream) = dedup stream.
Proof.
  unfold dedup at 1.
  rewrite fold_add_program_fresh; [reflexivity|].
  simpl. apply dedup_NoDup_keys.
Qed.

Lemma dedup_keys_Permutation (s1 s2 : list ProgramInfo.t) :
  Permutation s1 s2 ->
  Permutation (map dedup_key (dedup s1)) (map dedup_key (dedup s2)).
Proof.
  intros H.
  apply NoDup_Permutation; try apply dedup_NoDup_keys.
  intros k. rewrite !dedup_keys.
  split; apply Permutation_in; [|symmetry]; apply Permutation_map, H.
Qed.

Lemma dedup_Permutation_of_distinct (s1 s2 : list ProgramInfo.t) :
  Permutation s1 s2 ->
  (forall p q, In p s1 -> In q s1 -> dedup_key p = dedup_key q -> p = q) ->
  Permutation (dedup s1) (dedup s2).
Proof.
  intros HP Hinj.
  assert (Hinj2 : forall p q, In p s2 -> In q s2 -> dedup_key p = dedup_key q -> p = q).
  { intros p q Hp Hq. apply Hinj; eapply Permutation_in; try eassumption;
      symmetry; assumption. }
  assert (Hmem : forall s, (forall p q, In p s -> In q s -> dedup_key p = dedup_key q -> p = q) ->
                           forall p, In p (dedup s) <-> In p s).
  { intros s Hs p. split; [apply dedup_incl|].
    intros Hp.
    assert (Hk : In (dedup_key p) (map dedup_key (dedup s))).
    { apply dedup_keys, in_map, Hp. }
    apply in_map_iff in Hk. destruct Hk as [q [Hq1 Hq2]].
    assert (q = p) by (apply Hs; auto using dedup_incl).
    subst q. assumption. }
  apply NoDup_Permutation.
  - eapply NoDup_map_inv, dedup_NoDup_keys.
  - eapply NoDup_map_inv, dedup_NoDup_keys.
  - intros p. rewrite (Hmem s1 Hinj), (Hmem s2 Hinj2).
    split; apply Permutation_in; [|symmetry]; assumption.
Qed.

(** ** Parsing one guide entry *)

Lemma fromtimestamp_in_range (t : Z) :
  in_datetime_range t = true -> fromtimestamp t = inr t.
Proof. intros H. unfold fromtimestamp. rewrite H. reflexivity. Qed.

Lemma fromtimestamp_returns (t t' : Z) :
  fromtimestamp t = inr t' -> t' = t /\ in_datetime_range t = true.
Proof.
  unfold fromtimestamp. destruct (in_datetime_range t).
  - intros H. inversion H. split; reflexivity.
  - repeat match goal with |- context [if ?c then _ else _] => destruct c end;
      discriminate.
Qed.

Lemma fromtimestamp_raises (t : Z) (e : exn) :
  fromtimestamp t = inl e -> in_datetime_range t = false /\ parse_failure e.
Proof.
  unfold fromtimestamp, parse_failure. destruct (in_datetime_range t); [discriminate|].
  repeat match goal with |- context [if ?c then _ else _] => destruct c end;
    intros H; inversion H; auto.
Qed.

Lemma parse_complete (pd : program_data) (guide_number : string) s e :
  pd_StartTime pd = Some s -> pd_EndTime pd = Some e ->
  in_datetime_range s = true -> in_datetime_range e = true ->
  (forall a, pd_OriginalAirdate pd = Some a -> in_datetime_range a = true) ->
  _parse_program_data pd guide_number =
  inr (ProgramInfo.mk (get (pd_Title pd) "") s e guide_number
         (pd_Synopsis pd) (pd_EpisodeTitle pd) (pd_EpisodeNumber pd)
         (pd_ImageURL pd) (pd_OriginalAirdate pd)
         (Some (get (pd_Filter pd) [])) (pd_First pd)).
Proof.
  intros Hs He Rs Re Ra. unfold _parse_program_data.
  rewrite Hs, He, (fromtimestamp_in_range s Rs), (fromtimestamp_in_range e Re).
  destruct (pd_OriginalAirdate pd) as [a|]; [|reflexivity].
  rewrite (fromtimestamp_in_range a (Ra a eq_refl)). reflexivity.
Qed.

Lemma parse_well_timed (pd : program_data) (guide_number : string) :
  well_timed pd -> exists p, _parse_program_data pd guide_number = inr p.
Proof.
  intros ((s & Hs & Rs) & (e & He & Re) & Ra).
  eexists. apply (parse_complete pd guide_number s e); assumption.
Qed.

(** What is parsed has its times from an entry that is well timed. *)
Lemma parse_returns (pd : program_data) (guide_number : string) (p : ProgramInfo.t) :
  _parse_program_data pd guide_number = inr p ->
  well_timed pd
  /\ pd_StartTime pd = Some (ProgramInfo.start_time p)
  /\ pd_EndTime pd = Some (ProgramInfo.end_time p)
  /\ ProgramInfo.original_airdate p = pd_OriginalAirdate pd
  /\ ProgramInfo.guide_number p = guide_number.
Proof.
  unfold _parse_program_data, well_timed.
  destruct (pd_StartTime pd) as [s|]; [|discriminate].
  destruct (fromtimestamp s) as [x|s'] eqn:Es; [discriminate|].
  destruct (pd_EndTime pd) as [e|]; [|discriminate].
  destruct (fromtimestamp e) as [x|e'] eqn:Ee; [discriminate|].
  apply fromtimestamp_returns in Es, Ee. destruct Es as [-> Rs], Ee as [-> Re].
  destruct (pd_OriginalAirdate pd) as [a|].
  - destruct (fromtimestamp a) as [x|a'] eqn:Ea; [discriminate|].
    apply fromtimestamp_returns in Ea. destruct Ea as [-> Ra].
    intros H. inversion H; subst. cbn.
    repeat split; eauto. intros a0 Ha0. inversion Ha0; subst. exact Ra.
  - intros H. inversion H; subst. cbn.
    repeat split; eauto. discriminate.
Qed.

Lemma parse_raises (pd : program_data) (guide_number : string) e :
  _parse_program_data pd guide_number = inl e ->
  ~ well_timed pd /\ parse_failure e.
Proof.
  unfold _parse_program_data, well_timed.
  destruct (pd_StartTime pd) as [s|].
  2: { intros H. inversion H. split; [|left; eauto].
       intros ((s & Hs & _) & _). discriminate. }
  destruct (fromtimestamp s) as [x|s'] eqn:Es.
  { intros H. inversion H; subst. apply fromtimestamp_raises in Es.
    destruct Es as [Rs Hf]. split; [|exact Hf].
    intros ((s0 & Hs & Rs0) & _). inversion Hs; subst. congruence. }
  destruct (pd_EndTime pd) as [t|].
  2: { intros H. inversion H. split; [|left; eauto].
       intros (_ & (t & Ht & _) & _). discriminate. }
  destruct (fromtimestamp t) as [x|t'] eqn:Et.
  { intros H. inversion H; subst. apply fromtimestamp_raises in Et.
    destruct Et as [Rt Hf]. split; [|exact Hf].
    intros (_ & (t0 & Ht & Rt0) & _). inversion Ht; subst. congruence. }
  destruct (pd_OriginalAirdate pd) as [a|]; [|discriminate].
  destruct (fromtimestamp a) as [x|a'] eqn:Ea; [|discriminate].
  intros H. inversion H; subst. apply fromtimestamp_raises in Ea.
  destruct Ea as [Ra Hf]. split; [|exact Hf].
  intros (_ & _ & Hall). rewrite (Hall a eq_refl) in Ra. discriminate.
Qed.

(** A missing timestamp is a [KeyError]. *)
Lemma parse_raises_KeyError (pd : program_data) (guide_number : string) :
  pd_StartTime pd = None
  \/ ((exists s, pd_StartTime pd = Some s /\ in_datetime_range s = true)
      /\ pd_EndTime pd = None) ->
  exists key, _parse_program_data pd guide_number = inl (KeyError key).
Proof.
  unfold _parse_program_data.
  intros [-> | ((s & -> & Rs) & ->)]; [eexists; reflexivity|].
  rewrite (fromtimestamp_in_range s Rs). eexists. reflexivity.
Qed.

Lemma parse_failure_handled (e : exn) :
  parse_failure e -> epg_handlers e = UnexpectedErrorEPG.
Proof. intros [(k & ->) | [-> | [-> | ->]]]; reflexivity. Qed.

Lemma parse_failure_not_api (e : exn) (a : api_error) :
  parse_failure e -> e <> HDHomeRunAPIError a.
Proof. intros [(k & ->) | [-> | [-> | ->]]]; discriminate. Qed.

Lemma process_guide_complete (guide_number : string) (guide : list program_data)
    (programs : list ProgramInfo.t) :
  Forall well_timed guide ->
  exists programs', process_guide guide_number guide programs = inr programs'.
Proof.
  intros H. revert programs.
  induction H as [|pd guide Hpd _ IH]; intros programs; simpl.
  - eexists. reflexivity.
  - destruct (parse_well_timed pd guide_number Hpd) as [p ->]. apply IH.
Qed.

Lemma process_guide_raises (guide_number : string) (guide : list program_data)
    (programs : list ProgramInfo.t) e :
  process_guide guide_number guide programs = inl e -> parse_failure e.
Proof.
  revert programs.
  induction guide as [|pd guide IH]; intros programs; simpl.
  - discriminate.
  - destruct (_parse_program_data pd guide_number) eqn:E.
    + intros H. inversion H; subst. eapply parse_raises, E.
    + apply IH.
Qed.

(** The first entry of a guide that is not well timed stops the loop with
    the exception of its parse. *)
Lemma process_guide_ill_timed (guide_number : string)
    (before after : list program_data) (pd : program_data)
    (programs : list ProgramInfo.t) (e : exn) :
  Forall well_timed before ->
  _parse_program_data pd guide_number = inl e ->
  process_guide guide_number (before ++ pd :: after) programs = inl e.
Proof.
  intros H Hpd. revert programs.
  induction H as [|pd0 before Hpd0 _ IH]; intros programs; simpl.
  - rewrite Hpd. reflexivity.
  - destruct (parse_well_timed pd0 guide_number Hpd0) as [p ->]. apply IH.
Qed.

Lemma process_epg_response_complete (channels : list ChannelInfo.t)
    (epg_data : list channel_guide) (programs : list ProgramInfo.t) :
  complete_response epg_data ->
  exists programs', process_epg_response channels epg_data programs = inr programs'.
Proof.
  intros H. revert programs.
  induction H as [|cg epg_data Hcg _ IH]; intros programs; simpl.
  - eexists. reflexivity.
  - destruct (negb (in_lineup channels (get (cg_GuideNumber cg) ""))).
    + apply IH.
    + destruct (process_guide_complete (get (cg_GuideNumber cg) "") _ programs Hcg)
        as [programs' ->].
      apply IH.
Qed.

Lemma process_epg_response_raises (channels : list ChannelInfo.t)
    (epg_data : list channel_guide) (programs : list ProgramInfo.t) e :
  process_epg_response channels epg_data programs = inl e -> parse_failure e.
Proof.
  revert programs.
  induction epg_data as [|cg epg_data IH]; intros programs; simpl.
  - discriminate.
  - destruct (negb (in_lineup channels (get (cg_GuideNumber cg) ""))).
    + apply IH.
    + destruct (process_guide _ _ programs) eqn:E.
      * intros H. inversion H; subst. eapply process_guide_raises, E.
      * apply IH.
Qed.

Lemma process_epg_response_ill_timed (channels : list ChannelInfo.t)
    (earlier later : list channel_guide) (cg : channel_guide)
    (before after : list program_data) (pd : program_data)
    (programs : list ProgramInfo.t) (e : exn) :
  complete_response earlier ->
  in_lineup channels (get (cg_GuideNumber cg) "") = true ->
  get (cg_Guide cg) [] = before ++ pd :: after ->
  Forall well_timed before ->
  _parse_program_data pd (get (cg_GuideNumber cg) "") = inl e ->
  process_epg_response channels (earlier ++ cg :: later) programs = inl e.
Proof.
  intros H Hin Hg Hb Hpd. revert programs.
  induction H as [|cg0 earlier Hcg0 _ IH]; intros programs; simpl.
  - rewrite Hin. simpl. rewrite Hg.
    rewrite (process_guide_ill_timed (get (cg_GuideNumber cg) "")
               before after pd programs e Hb Hpd).
    reflexivity.
  - destruct (negb (in_lineup channels (get (cg_GuideNumber cg0) ""))).
    + apply IH.
    + destruct (process_guide_complete (get (cg_GuideNumber cg0) "") _ programs Hcg0)
        as [programs' ->].
      apply IH.
Qed.

(** ** The endpoint loop of one window *)

Section FetchFacts.
Variable net : network.
Variable channels : list ChannelInfo.t.
Variable device_auth : string.

Lemma nth_error_user_agent (st : fetch_state) :
  valid_ua st ->
  nth_error user_agents (current_ua_index st)
  = Some (nth (current_ua_index st) user_agents "").
Proof. intros H. apply nth_error_nth'. exact H. Qed.

Lemma valid_ua_next st : valid_ua (next_user_agent st).
Proof.
  unfold valid_ua, next_user_agent. cbn [current_ua_index].
  apply Nat.mod_upper_bound. discriminate.
Qed.

(** One unfolding of the loop, by the kind of answer. *)
Lemma for_endpoints_step (timestamp : Z) (idx : nat) (url_base : string)
    (rest : list string) (st : fetch_state) :
  valid_ua st ->
  for_endpoints net channels device_auth timestamp idx (url_base :: rest) st =
  let st1 := record_request (request_of url_base timestamp st) st in
  match answer_of net url_base timestamp st with
  | Response epg_data =>
    match process_epg_response channels epg_data (programs st1) with
    | inl e => (st1, Raised e)
    | inr programs' => (window_succeeded programs' st1, Completed true)
    end
  | HTTPError code =>
    if code =? 403 then
      if Nat.eqb idx (List.length (api_endpoints device_auth) - 1) then
        if Nat.leb (List.length (api_endpoints device_auth) * List.length user_agents)
                   (consecutive_403_errors (next_user_agent (count_403 st1)))
        then (next_user_agent (count_403 st1),
              Raised (HDHomeRunAPIError Forbidden403FromAll))
        else for_endpoints net channels device_auth timestamp (S idx) rest
                           (next_user_agent (count_403 st1))
      else for_endpoints net channels device_auth timestamp (S idx) rest (count_403 st1)
    else (st1, Raised (HDHomeRunAPIError (HTTPErrorCode code)))
  | URLError =>
    if Nat.eqb idx (List.length (api_endpoints device_auth) - 1)
    then (st1, Raised (HDHomeRunAPIError FailedToRetrieveEPG))
    else for_endpoints net channels device_auth timestamp (S idx) rest st1
  | BodyNotJSON => (st1, Raised JSONDecodeError)
  | SocketTimeout => (st1, Raised TimeoutError)
  end.
Proof.
  intros Hua. cbn [for_endpoints].
  rewrite (nth_error_user_agent st Hua).
  unfold answer_of, request_of. reflexivity.
Qed.

(** The 403 counter cannot reach the product of the two list lengths
    within the endpoints that remain. *)
Lemma for_endpoints_inv (rest : list string) :
  forall (timestamp : Z) (idx : nat) (st st' : fetch_state) (r : for_result),
  valid_ua st ->
  (consecutive_403_errors st + List.length rest
   < List.length (api_endpoints device_auth) * List.length user_agents)%nat ->
  for_endpoints net channels device_auth timestamp idx rest st = (st', r) ->
  valid_ua st'
  /\ r <> Raised (HDHomeRunAPIError Forbidden403FromAll)
  /\ (r = Completed true -> consecutive_403_errors st' = 0%nat).
Proof.
  induction rest as [|url_base rest IH]; intros timestamp idx st st' r Hua Hc H.
  - cbn in H. inversion H; subst. repeat split; try assumption; discriminate.
  - rewrite for_endpoints_step in H by assumption. cbv zeta in H.
    set (st1 := record_request (request_of url_base timestamp st) st) in *.
    assert (Hua1 : valid_ua st1) by exact Hua.
    assert (Hc1 : consecutive_403_errors st1 = consecutive_403_errors st) by reflexivity.
    cbn [List.length] in Hc.
    destruct (answer_of net url_base timestamp st) as [epg|code| | |].
    + destruct (process_epg_response channels epg (programs st1)) as [e|ps] eqn:E;
        inversion H; subst.
      * apply process_epg_response_raises in E.
        repeat split; try assumption; [|discriminate].
        intros Hr. inversion Hr; subst.
        exact (parse_failure_not_api _ Forbidden403FromAll E eq_refl).
      * repeat split; try assumption; discriminate.
    + destruct (code =? 403).
      * destruct (Nat.eqb idx _).
        -- destruct (Nat.leb _ _) eqn:L.
           ++ apply Nat.leb_le in L. cbn [consecutive_403_errors next_user_agent count_403] in L.
              lia.
           ++ eapply IH; [apply valid_ua_next | | exact H].
              cbn [consecutive_403_errors next_user_agent count_403]. lia.
        -- eapply (IH _ _ (count_403 st1)); [exact Hua1 | | exact H].
           cbn [consecutive_403_errors count_403]. lia.
      * inversion H; subst. repeat split; try assumption; discriminate.
    + destruct (Nat.eqb idx _).
      * inversion H; subst. repeat split; try assumption; discriminate.
      * eapply IH; [exact Hua1 | | exact H]. lia.
    + inversion H; subst. repeat split; try assumption; discriminate.
    + inversion H; subst. repeat split; try assumption; discriminate.
Qed.

Lemma fetch_window_inv (timestamp : Z) (st st' : fetch_state) (r : for_result) :
  valid_ua st -> consecutive_403_errors st = 0%nat ->
  fetch_window net channels device_auth timestamp st = (st', r) ->
  valid_ua st'
  /\ r <> Raised (HDHomeRunAPIError Forbidden403FromAll)
  /\ r <> Completed false
  /\ (r = Completed true -> consecutive_403_errors st' = 0%nat).
Proof.
  intros Hua Hc. unfold fetch_window.
  destruct (for_endpoints net channels device_auth timestamp 0
              (api_endpoints device_auth) st) as [st1 r1] eqn:E.
  apply for_endpoints_inv in E; [|assumption|rewrite Hc; cbn; lia].
  destruct E as (H1 & H2 & H3).
  destruct r1 as [[|]|e]; intros H; inversion H; subst;
    repeat split; try assumption; try discriminate.
Qed.

Lemma while_windows_never_403_from_all (windows : list Z) :
  forall (st : fetch_state),
  valid_ua st -> consecutive_403_errors st = 0%nat ->
  snd (while_windows net channels device_auth windows st)
  <> inl (HDHomeRunAPIError Forbidden403FromAll).
Proof.
  induction windows as [|timestamp windows IH]; intros st Hua Hc; cbn.
  - discriminate.
  - destruct (fetch_window net channels device_auth timestamp st) as [st' r] eqn:E.
    apply fetch_window_inv in E; try assumption.
    destruct E as (H1 & H2 & H3 & H4).
    destruct r as [[|]|e]; cbn.
    + apply IH; auto.
    + congruence.
    + congruence.
Qed.

(** An exception leaving the window's [for] loop leaves the whole fetch,
    through the handlers. *)
Lemma fetch_epg_first_window_raises (timestamp : Z) (windows : list Z)
    (st : fetch_state) (e : exn) :
  fetch_window net channels device_auth timestamp initial_state = (st, Raised e) ->
  fetch_epg net channels device_auth (timestamp :: windows) = (st, inl (epg_handlers e)).
Proof. intros H. unfold fetch_epg. cbn. rewrite H. reflexivity. Qed.

End FetchFacts.

(** ** The fetch output is the deduplicated stream *)

Lemma process_guide_fold (guide_number : string) (guide : list program_data) :
  forall programs programs',
  process_guide guide_number guide programs = inr programs' ->
  programs' = fold_left add_program (records_of_guide guide_number guide) programs.
Proof.
  induction guide as [|pd guide IH]; intros programs programs'; cbn.
  - intros H. inversion H. reflexivity.
  - destruct (_parse_program_data pd guide_number) as [e|p]; [discriminate|].
    intros H. apply IH in H. exact H.
Qed.

Lemma process_epg_response_fold (channels : list ChannelInfo.t)
    (epg_data : list channel_guide) :
  forall programs programs',
  process_epg_response channels epg_data programs = inr programs' ->
  programs' = fold_left add_program (records_of_response channels epg_data) programs.
Proof.
  induction epg_data as [|cg epg_data IH]; intros programs programs'; cbn.
  - intros H. inversion H. reflexivity.
  - unfold records_of_response in *. cbn. rewrite fold_left_app.
    destruct (in_lineup channels (get (cg_GuideNumber cg) "")); cbn.
    + destruct (process_guide _ _ programs) as [e|ps] eqn:E; [discriminate|].
      apply process_guide_fold in E. subst ps. apply IH.
    + apply IH.
Qed.

Lemma responses_from_app (net : network) (reqs : list Request) (req : Request) :
  forall n,
  responses_from net n (reqs ++ [req])
  = responses_from net n reqs
    ++ match net (n + List.length reqs)%nat req with
       | Response epg_data => [epg_data]
       | _ => []
       end.
Proof.
  induction reqs as [|r reqs IH]; intros n; cbn.
  - rewrite Nat.add_0_r. destruct (net n req); reflexivity.
  - rewrite IH, Nat.add_succ_r. destruct (net n r); reflexivity.
Qed.

Section FetchStream.
Variable net : network.
Variable channels : list ChannelInfo.t.
Variable device_auth : string.

Lemma stream_after_failure (url_base : string) (timestamp : Z) (st : fetch_state) :
  (forall epg_data, answer_of net url_base timestamp st <> Response epg_data) ->
  fetched_stream net channels (record_request (request_of url_base timestamp st) st)
  = fetched_stream net channels st.
Proof.
  intros H. unfold fetched_stream, record_request. cbn [sent].
  rewrite responses_from_app. cbn [Nat.add].
  unfold answer_of in H.
  destruct (net (List.length (sent st)) (request_of url_base timestamp st));
    try (rewrite app_nil_r; reflexivity).
  exfalso. eapply H. reflexivity.
Qed.

Lemma for_endpoints_dedup (rest : list string) :
  forall (timestamp : Z) (idx : nat) (st st' : fetch_state) (success : bool),
  valid_ua st ->
  programs_are_dedup net channels st ->
  for_endpoints net channels device_auth timestamp idx rest st = (st', Completed success) ->
  programs_are_dedup net channels st'.
Proof.
  induction rest as [|url_base rest IH]; intros timestamp idx st st' success Hua Hinv H.
  - cbn in H. inversion H; subst. exact Hinv.
  - rewrite for_endpoints_step in H by assumption. cbv zeta in H.
    assert (Hfail : (forall epg_data, answer_of net url_base timestamp st <> Response epg_data) ->
                    programs_are_dedup net channels
                      (record_request (request_of url_base timestamp st) st)).
    { intros Hf. unfold programs_are_dedup.
      rewrite stream_after_failure by assumption. exact Hinv. }
    destruct (answer_of net url_base timestamp st) as [epg|code| | |] eqn:Ea.
    + destruct (process_epg_response channels epg _) as [e|ps] eqn:E; [discriminate|].
      inversion H; subst. clear H.
      apply process_epg_response_fold in E. cbn [programs record_request] in E.
      unfold programs_are_dedup, window_succeeded, fetched_stream. cbn [programs sent record_request].
      rewrite responses_from_app. cbn [Nat.add].
      unfold answer_of in Ea. rewrite Ea.
      rewrite flat_map_app. cbn [flat_map]. rewrite app_nil_r.
      unfold dedup. rewrite fold_left_app.
      fold (dedup (flat_map (records_of_response channels)
                     (responses_from net 0 (sent st)))).
      fold (fetched_stream net channels st). rewrite <- Hinv. exact E.
    + destruct (code =? 403); [|discriminate].
      destruct (Nat.eqb idx _).
      * destruct (Nat.leb _ _); [discriminate|].
        apply IH in H; [exact H | apply valid_ua_next |].
        apply Hfail. discriminate.
      * apply IH in H; [exact H | exact Hua |].
        apply Hfail. discriminate.
    + destruct (Nat.eqb idx _); [discriminate|].
      apply IH in H; [exact H | exact Hua |].
      apply Hfail. discriminate.
    + discriminate.
    + discriminate.
Qed.

Lemma while_windows_dedup (windows : list Z) :
  forall (st st' : fetch_state) (result : list ProgramInfo.t),
  valid_ua st -> consecutive_403_errors st = 0%nat ->
  programs_are_dedup net channels st ->
  while_windows net channels device_auth windows st = (st', inr result) ->
  result = dedup (fetched_stream net channels st').
Proof.
  induction windows as [|timestamp windows IH]; intros st st' result Hua Hc Hinv; cbn.
  - intros H. inversion H; subst. exact Hinv.
  - destruct (fetch_window net channels device_auth timestamp st) as [st1 r] eqn:E.
    pose proof (fetch_window_inv net channels device_auth _ _ _ _ Hua Hc E)
      as (H1 & H2 & H3 & H4).
    destruct r as [success|e]; [|discriminate].
    destruct success; [|congruence].
    apply IH; [exact H1 | apply H4; reflexivity |].
    unfold fetch_window in E.
    destruct (for_endpoints net channels device_auth timestamp 0
                (api_endpoints device_auth) st) as [st2 r2] eqn:E2.
    destruct r2 as [[|]|e]; inversion E; subst.
    eapply for_endpoints_dedup; [exact Hua | exact Hinv | exact E2].
Qed.

(** What a fetch returns is the deduplication of the records received,
    in the order received. *)
Lemma fetch_epg_is_dedup (windows : list Z) (st : fetch_state)
    (result : list ProgramInfo.t) :
  fetch_epg net channels device_auth windows = (st, inr result) ->
  result = dedup (fetched_stream net channels st).
Proof.
  unfold fetch_epg.
  destruct (while_windows net channels device_auth windows initial_state)
    as [st' [e|r]] eqn:E; intros H; inversion H; subst.
  eapply while_windows_dedup; [| | |exact E].
  - cbv. lia.
  - reflexivity.
  - reflexivity.
Qed.

End FetchStream.

(** ** The windows of a run *)

(** The window starts are the instants [now + k * step] before the end of
    the horizon, from [now] on: the values of the cursor of the [while]
    loop. *)
Lemma window_starts_spec (now days hours_increment : Z) (t : Z) :
  0 < hours_increment ->
  In t (window_starts now days hours_increment)
  <-> exists k, 0 <= k /\ t = now + k * (3600 * hours_increment)
                /\ t < now + 86400 * days.
Proof.
  intros Hh. unfold window_starts. cbv zeta.
  set (span := 86400 * days). set (step := 3600 * hours_increment).
  assert (Hstep : 0 < step) by (unfold step; lia).
  destruct (Z.leb_spec span 0) as [Hspan|Hspan].
  { split; [intros []|]. intros (k & Hk & -> & Hlt). fold step span in Hlt. nia. }
  rewrite in_map_iff. split.
  - intros (k & <- & Hk). apply in_seq in Hk.
    exists (Z.of_nat k). split; [lia|]. split; [reflexivity|].
    assert (Hq : Z.of_nat k < (span + step - 1) / step) by lia.
    pose proof (Z.mul_div_le (span + step - 1) step Hstep). nia.
  - intros (k & Hk & -> & Hlt).
    exists (Z.to_nat k). rewrite Z2Nat.id by assumption. split; [reflexivity|].
    apply in_seq. split; [lia|]. cbn [Nat.add].
    assert (Hq : k + 1 <= (span + step - 1) / step).
    { apply Z.div_le_lower_bound; [exact Hstep|]. nia. }
    lia.
Qed.

Lemma window_starts_first (now days hours_increment : Z) :
  0 < days -> 0 < hours_increment ->
  exists rest, window_starts now days hours_increment = now :: rest.
Proof.
  intros Hd Hh. unfold window_starts. cbv zeta.
  destruct (Z.leb_spec (86400 * days) 0) as [Hspan|Hspan]; [lia|].
  assert (Hq : 1 <= (86400 * days + 3600 * hours_increment - 1) / (3600 * hours_increment)).
  { apply Z.div_le_lower_bound; lia. }
  destruct (Z.to_nat _) as [|n] eqn:E; [lia|].
  cbn [seq map]. eexists. f_equal. lia.
Qed.

(** The default horizon, seven days in steps of three hours, has 56
    windows. *)
Example default_windows :
  List.length (window_starts 1700000000 7 3) = 56%nat
  /\ firstn 3 (window_starts 1700000000 7 3) = [1700000000; 1700010800; 1700021600].
Proof. split; reflexivity. Qed.

(** ** The fallback over endpoints and user agents *)

(** C1.  When every request is answered with 403, a run with at least
    one window stops after one pass over the endpoints: two requests, both
    with the first user agent, and then the failure "Failed to retrieve EPG
    data from any endpoint".  The failure "Received 403 Forbidden from all
    endpoints and user agents" is raised by no run at all. *)
Theorem all_403_stops_after_one_pass (net : network)
    (channels : list ChannelInfo.t) (device_auth : string) :
  (forall windows,
      snd (fetch_epg net channels device_auth windows) <> inl Forbidden403FromAll)
  /\ ((forall n req, net n req = HTTPError 403) ->
      forall now days hours_increment,
        0 < days -> 0 < hours_increment ->
        get_epg_data net channels device_auth now days hours_increment
        = (mkFetchState [] 1 2
             [ mkRequest (nth 0 (api_endpoints device_auth) "") now
                         (nth 0 user_agents "");
               mkRequest (nth 1 (api_endpoints device_auth) "") now
                         (nth 0 user_agents "") ],
           inl FailedFromAnyEndpoint)).
Proof.
  split.
  - intros windows. unfold fetch_epg.
    pose proof (while_windows_never_403_from_all net channels device_auth windows
                  initial_state) as H.
    destruct (while_windows net channels device_auth windows initial_state)
      as [st [e|ps]]; cbn in *; [|discriminate].
    intros E. apply H; [cbv; lia | reflexivity |].
    destruct e as [a| | | | | | |]; cbn in E; try discriminate.
    congruence.
  - intros H403 now days hours_increment Hd Hh.
    unfold get_epg_data.
    destruct (window_starts_first now days hours_increment Hd Hh) as [windows ->].
    apply fetch_epg_first_window_raises with (e := HDHomeRunAPIError FailedFromAnyEndpoint).
    unfold fetch_window, api_endpoints.
    rewrite for_endpoints_step by (cbv; lia).
    unfold answer_of. rewrite H403. cbn -[for_endpoints user_agents].
    rewrite for_endpoints_step by (cbv; lia).
    unfold answer_of. rewrite H403. reflexivity.
Qed.

Lemma all_403_stops_after_one_pass_witness :
  get_epg_data net_all_403 lineup_2_1 "auth" 1700000000 7 3
  = (mkFetchState [] 1 2
       [ mkRequest "https://api.hdhomerun.com/api/guide?DeviceAuth=auth" 1700000000
                   "Mozilla/5.0 (Linux; HDHomeRun-XMLTV-Converter)";
         mkRequest "https://my.hdhomerun.com/api/guide.php?DeviceAuth=auth" 1700000000
                   "Mozilla/5.0 (Linux; HDHomeRun-XMLTV-Converter)" ],
     inl FailedFromAnyEndpoint).
Proof.
  apply (proj2 (all_403_stops_after_one_pass net_all_403 lineup_2_1 "auth"));
    [reflexivity | lia | lia].
Defined.

Section FetchRuns.
Variable net : network.
Variable channels : list ChannelInfo.t.
Variable device_auth : string.

(** The windows after a run of windows that succeeded. *)
Lemma while_windows_app (before rest : list Z) :
  forall st,
  while_windows net channels device_auth (before ++ rest) st
  = match while_windows net channels device_auth before st with
    | (st', inr _) => while_windows net channels device_auth rest st'
    | r => r
    end.
Proof.
  induction before as [|timestamp before IH]; intros st; cbn [app while_windows].
  - reflexivity.
  - destruct (fetch_window net channels device_auth timestamp st) as [st' [b|e]];
      [apply IH | reflexivity].
Qed.

Lemma while_windows_returns_inv (windows : list Z) :
  forall st st' ps,
  valid_ua st -> consecutive_403_errors st = 0%nat ->
  while_windows net channels device_auth windows st = (st', inr ps) ->
  valid_ua st' /\ consecutive_403_errors st' = 0%nat /\ ps = programs st'.
Proof.
  induction windows as [|timestamp windows IH]; intros st st' ps Hua Hc; cbn.
  - intros H. inversion H; subst. auto.
  - destruct (fetch_window net channels device_auth timestamp st) as [st1 r] eqn:E.
    apply fetch_window_inv in E; try assumption.
    destruct E as (H1 & H2 & H3 & H4).
    destruct r as [[|]|e]; [|congruence|discriminate].
    apply IH; auto.
Qed.

(** An exception that leaves the endpoint loop of a window, after windows
    that succeeded, leaves the fetch through the handlers. *)
Lemma fetch_epg_window_raises (before later : list Z) (timestamp : Z)
    (st st' : fetch_state) (ps : list ProgramInfo.t) (e : exn) :
  while_windows net channels device_auth before initial_state = (st, inr ps) ->
  for_endpoints net channels device_auth timestamp 0 (api_endpoints device_auth) st
  = (st', Raised e) ->
  fetch_epg net channels device_auth (before ++ timestamp :: later)
  = (st', inl (epg_handlers e)).
Proof.
  intros Hb Hw. unfold fetch_epg. rewrite while_windows_app, Hb.
  cbn [while_windows]. unfold fetch_window. rewrite Hw. reflexivity.
Qed.

End FetchRuns.




(** ** Entries of a guide response *)

(** C4, as amended.  [_parse_program_data] compares no timestamps: an
    entry with [StartTime] s and [EndTime] e, instants of the years 1 to
    9999, becomes a record with exactly these times, whatever their order;
    the record is appended to the programs when no record of the same
    broadcast is there yet, and dropped otherwise. *)
Theorem parse_keeps_times_unchecked (pd : program_data) (guide_number : string)
    (s e : Z) (programs : list ProgramInfo.t) :
  pd_StartTime pd = Some s ->
  pd_EndTime pd = Some e ->
  in_datetime_range s = true ->
  in_datetime_range e = true ->
  (forall a, pd_OriginalAirdate pd = Some a -> in_datetime_range a = true) ->
  exists p,
    _parse_program_data pd guide_number = inr p
    /\ ProgramInfo.start_time p = s
    /\ ProgramInfo.end_time p = e
    /\ (existsb (same_broadcast p) programs = false ->
        process_guide guide_number [pd] programs = inr (programs ++ [p]))
    /\ (existsb (same_broadcast p) programs = true ->
        process_guide guide_number [pd] programs = inr programs).
Proof.
  intros Hs He Rs Re Ra.
  pose proof (parse_complete pd guide_number s e Hs He Rs Re Ra) as Hp.
  eexists. split; [exact Hp|].
  cbn [ProgramInfo.start_time ProgramInfo.end_time].
  split; [reflexivity|]. split; [reflexivity|].
  split; intros Hnew; cbn [process_guide]; rewrite Hp;
    unfold add_program; rewrite Hnew; reflexivity.
Qed.

Lemma parse_keeps_times_unchecked_witness :
  exists p,
    _parse_program_data (entry "News" (Some 1700003600) (Some 1700000000)) "2.1" = inr p
    /\ ProgramInfo.start_time p = 1700003600
    /\ ProgramInfo.end_time p = 1700000000
    /\ (existsb (same_broadcast p) [] = false ->
        process_guide "2.1" [entry "News" (Some 1700003600) (Some 1700000000)] []
        = inr ([] ++ [p]))
    /\ (existsb (same_broadcast p) [] = true ->
        process_guide "2.1" [entry "News" (Some 1700003600) (Some 1700000000)] []
        = inr []).
Proof.
  apply (parse_keeps_times_unchecked
           (entry "News" (Some 1700003600) (Some 1700000000)) "2.1"
           1700003600 1700000000 []); try reflexivity.
  discriminate.
Defined.

(** C4 as stated fails: the fetch returns a record that ends an hour
    before it starts. *)
Lemma fetch_returns_reversed_record :
  exists p,
    snd (get_epg_data net_reversed_entry lineup_2_1 "auth" 1700000000 1 3) = inr [p]
    /\ ProgramInfo.start_time p >= ProgramInfo.end_time p.
Proof.
  eexists. split; [vm_compute; reflexivity|]. cbn. lia.
Qed.

(** C7, as amended.  An entry that carries both timestamps, its
    timestamps instants of the years 1 to 9999, is parsed, with "" for a
    missing title, the empty list for a missing filter list and absent for
    the other missing fields; a response all of whose entries are such is
    processed to its end, and the window succeeds.  The first entry, on a
    channel of the lineup, that lacks [StartTime] or [EndTime] is not
    parsed: its exception leaves the response loop and the endpoint loop,
    and the fetch then raises "Unexpected error retrieving EPG data". *)
Theorem missing_field_defaults_or_aborts (net : network)
    (channels : list ChannelInfo.t) (device_auth : string) :
  (forall pd guide_number s e,
      pd_StartTime pd = Some s -> pd_EndTime pd = Some e ->
      in_datetime_range s = true -> in_datetime_range e = true ->
      (forall a, pd_OriginalAirdate pd = Some a -> in_datetime_range a = true) ->
      _parse_program_data pd guide_number =
      inr (ProgramInfo.mk (get (pd_Title pd) "") s e guide_number
             (pd_Synopsis pd) (pd_EpisodeTitle pd) (pd_EpisodeNumber pd)
             (pd_ImageURL pd) (pd_OriginalAirdate pd)
             (Some (get (pd_Filter pd) [])) (pd_First pd)))
  /\ (forall epg_data programs,
      complete_response epg_data ->
      exists programs', process_epg_response channels epg_data programs = inr programs')
  /\ (forall earlier later cg before after pd programs,
      complete_response earlier ->
      in_lineup channels (get (cg_GuideNumber cg) "") = true ->
      get (cg_Guide cg) [] = before ++ pd :: after ->
      Forall well_timed before ->
      pd_StartTime pd = None \/ pd_EndTime pd = None ->
      exists e, parse_failure e
                /\ process_epg_response channels (earlier ++ cg :: later) programs
                   = inl e)
  /\ (forall timestamp idx url_base rest st epg_data programs',
      valid_ua st ->
      answer_of net url_base timestamp st = Response epg_data ->
      process_epg_response channels epg_data (programs st) = inr programs' ->
      for_endpoints net channels device_auth timestamp idx (url_base :: rest) st
      = (window_succeeded programs'
           (record_request (request_of url_base timestamp st) st),
         Completed true))
  /\ (forall timestamp idx url_base rest st epg_data e,
      valid_ua st ->
      answer_of net url_base timestamp st = Response epg_data ->
      process_epg_response channels epg_data (programs st) = inl e ->
      for_endpoints net channels device_auth timestamp idx (url_base :: rest) st
      = (record_request (request_of url_base timestamp st) st, Raised e))
  /\ (forall timestamp windows st epg_data e,
      valid_ua st ->
      answer_of net (nth 0 (api_endpoints device_auth) "") timestamp st
      = Response epg_data ->
      process_epg_response channels epg_data (programs st) = inl e ->
      while_windows net channels device_auth (timestamp :: windows) st
      = (record_request
           (request_of (nth 0 (api_endpoints device_auth) "") timestamp st) st,
         inl e)
      /\ epg_handlers e = UnexpectedErrorEPG)
  /\ (forall timestamp windows epg_data e,
      answer_of net (nth 0 (api_endpoints device_auth) "") timestamp initial_state
      = Response epg_data ->
      process_epg_response channels epg_data [] = inl e ->
      snd (fetch_epg net channels device_auth (timestamp :: windows))
      = inl UnexpectedErrorEPG).
Proof.
  assert (Hstep : forall timestamp idx url_base rest st epg_data e,
             valid_ua st ->
             answer_of net url_base timestamp st = Response epg_data ->
             process_epg_response channels epg_data (programs st) = inl e ->
             for_endpoints net channels device_auth timestamp idx (url_base :: rest) st
             = (record_request (request_of url_base timestamp st) st, Raised e)).
  { intros timestamp idx url_base rest st epg_data e Hua Ha Hp.
    rewrite for_endpoints_step by assumption. rewrite Ha. cbv zeta.
    cbn [programs record_request]. rewrite Hp. reflexivity. }
  assert (Hwin : forall timestamp windows st epg_data e,
             valid_ua st ->
             answer_of net (nth 0 (api_endpoints device_auth) "") timestamp st
             = Response epg_data ->
             process_epg_response channels epg_data (programs st) = inl e ->
             while_windows net channels device_auth (timestamp :: windows) st
             = (record_request
                  (request_of (nth 0 (api_endpoints device_auth) "") timestamp st) st,
                inl e)).
  { intros timestamp windows st epg_data e Hua Ha Hp.
    cbn [while_windows]. unfold fetch_window.
    change (api_endpoints device_auth)
      with (nth 0 (api_endpoints device_auth) "" :: tl (api_endpoints device_auth)) at 1.
    rewrite (Hstep _ _ _ _ _ _ _ Hua Ha Hp). reflexivity. }
  split; [|split; [|split; [|split; [|split; [|split]]]]].
  - intros. apply parse_complete; assumption.
  - intros. apply process_epg_response_complete; assumption.
  - intros earlier later cg before after pd programs He Hin Hg Hb Hpd.
    destruct (_parse_program_data pd (get (cg_GuideNumber cg) "")) as [e|p] eqn:E.
    + exists e. split; [eapply parse_raises; exact E|].
      eapply process_epg_response_ill_timed; eassumption.
    + exfalso. apply parse_returns in E. destruct E as (_ & Hs & Ht & _).
      destruct Hpd as [Hpd|Hpd]; congruence.
  - intros timestamp idx url_base rest st epg_data programs' Hua Ha Hp.
    rewrite for_endpoints_step by assumption. rewrite Ha. cbv zeta.
    cbn [programs record_request]. rewrite Hp. reflexivity.
  - exact Hstep.
  - intros timestamp windows st epg_data e Hua Ha Hp.
    split; [apply (Hwin _ _ _ _ _ Hua Ha Hp)|].
    apply parse_failure_handled. eapply process_epg_response_raises. exact Hp.
  - intros timestamp windows epg_data e Ha Hp.
    unfold fetch_epg.
    rewrite (Hwin timestamp windows initial_state epg_data e); [| | exact Ha | exact Hp].
    + cbn [snd]. f_equal. apply parse_failure_handled.
      eapply process_epg_response_raises. exact Hp.
    + cbv. lia.
Qed.

Lemma missing_field_defaults_or_aborts_witness :
  _parse_program_data (mkProgramData None (Some 1700000000) (Some 1700003600)
                         None None None None None None None) "2.1"
  = inr (ProgramInfo.mk "" 1700000000 1700003600 "2.1"
           None None None None None (Some []) None)
  /\ (exists programs',
         process_epg_response lineup_2_1
           [ mkChannelGuide (Some "2.1")
               (Some [ entry "News" (Some 1700000000) (Some 1700003600) ]) ] []
         = inr programs')
  /\ (exists e,
         parse_failure e
         /\ process_epg_response lineup_2_1
              ([] ++ mkChannelGuide (Some "2.1")
                       (Some [ entry "News" (Some 1700000000) (Some 1700003600);
                               entry "Weather" None (Some 1700007200) ]) :: []) []
            = inl e)
  /\ for_endpoints net_reversed_entry lineup_2_1 "auth" 1700000000 0
       (api_endpoints "auth") initial_state
     = (window_succeeded
          [ ProgramInfo.mk "News" 1700003600 1700000000 "2.1"
                           None None None None None (Some []) None ]
          (record_request
             (request_of (nth 0 (api_endpoints "auth") "") 1700000000 initial_state)
             initial_state),
        Completed true)
  /\ for_endpoints net_entry_without_start lineup_2_1 "auth" 1700000000 0
       (api_endpoints "auth") initial_state
     = (record_request
          (request_of (nth 0 (api_endpoints "auth") "") 1700000000 initial_state)
          initial_state,
        Raised (KeyError "StartTime"))
  /\ (while_windows net_entry_without_start lineup_2_1 "auth"
        [1700000000; 1700010800] initial_state
      = (record_request
           (request_of (nth 0 (api_endpoints "auth") "") 1700000000 initial_state)
           initial_state,
         inl (KeyError "StartTime"))
      /\ epg_handlers (KeyError "StartTime") = UnexpectedErrorEPG)
  /\ snd (fetch_epg net_entry_without_start lineup_2_1 "auth" [1700000000; 1700010800])
     = inl UnexpectedErrorEPG.
Proof.
  pose proof (missing_field_defaults_or_aborts net_entry_without_start lineup_2_1 "auth")
    as (Ha & Hb & Hc & _ & He & Hf & Hg).
  pose proof (missing_field_defaults_or_aborts net_reversed_entry lineup_2_1 "auth")
    as (_ & _ & _ & Hd & _).
  assert (Hua : valid_ua initial_state) by (cbv; lia).
  assert (Hnews : well_timed (entry "News" (Some 1700000000) (Some 1700003600))).
  { split; [eexists; split; reflexivity|].
    split; [eexists; split; reflexivity | discriminate]. }
  split; [|split; [|split; [|split; [|split; [|split]]]]].
  - apply (Ha (mkProgramData None (Some 1700000000) (Some 1700003600)
                 None None None None None None None)); try reflexivity.
    discriminate.
  - apply Hb. constructor; [|constructor]. cbn [get cg_Guide].
    constructor; [exact Hnews | constructor].
  - apply (Hc [] [] _ [entry "News" (Some 1700000000) (Some 1700003600)] []
              (entry "Weather" None (Some 1700007200))).
    + constructor.
    + reflexivity.
    + reflexivity.
    + constructor; [exact Hnews | constructor].
    + left. reflexivity.
  - apply (Hd 1700000000 0%nat _ _ initial_state
              [ mkChannelGuide (Some "2.1")
                  (Some [ entry "News" (Some 1700003600) (Some 1700000000) ]) ]);
      [exact Hua | reflexivity | reflexivity].
  - apply (He 1700000000 0%nat _ _ initial_state
              [ mkChannelGuide (Some "2.1")
                  (Some [ entry "News" (Some 1700000000) (Some 1700003600);
                          entry "Weather" None (Some 1700007200) ]) ]);
      [exact Hua | reflexivity | reflexivity].
  - apply (Hf 1700000000 [1700010800] initial_state
              [ mkChannelGuide (Some "2.1")
                  (Some [ entry "News" (Some 1700000000) (Some 1700003600);
                          entry "Weather" None (Some 1700007200) ]) ]);
      [exact Hua | reflexivity | reflexivity].
  - apply (Hg 1700000000 [1700010800]
              [ mkChannelGuide (Some "2.1")
                  (Some [ entry "News" (Some 1700000000) (Some 1700003600);
                          entry "Weather" None (Some 1700007200) ]) ]
              (KeyError "StartTime")); reflexivity.
Defined.

(** C7 as stated fails: one entry without a [StartTime] makes the fetch
    raise; the entry before it is not returned. *)
Lemma one_entry_without_start_aborts_fetch :
  snd (get_epg_data net_entry_without_start lineup_2_1 "auth" 1700000000 7 3)
  = inl UnexpectedErrorEPG.
Proof. vm_compute. reflexivity. Qed.

(** ** Deduplication over a reordered stream *)

(** C5, as amended.  Deduplication, the duplicate test of [get_epg_data]
    run over a stream of records, is idempotent and leaves no two records
    with one key.  Reordering the stream leaves the set of keys of the
    result unchanged, and hence its length; the record kept for a key is
    the first one met; where no two different records of the stream share a
    key, the results are permutations of each other. *)
Theorem dedup_idempotent_keys_order_invariant (s1 s2 : list ProgramInfo.t) :
  Permutation s1 s2 ->
  dedup (dedup s1) = dedup s1
  /\ NoDup (map dedup_key (dedup s1))
  /\ Permutation (map dedup_key (dedup s1)) (map dedup_key (dedup s2))
  /\ List.length (dedup s1) = List.length (dedup s2)
  /\ (forall before q after,
      s1 = before ++ q :: after ->
      ~ In (dedup_key q) (map dedup_key before) ->
      In q (dedup s1))
  /\ ((forall p q, In p s1 -> In q s1 -> dedup_key p = dedup_key q -> p = q) ->
      Permutation (dedup s1) (dedup s2)).
Proof.
  intros H. split; [|split; [|split; [|split; [|split]]]].
  - apply dedup_idempotent.
  - apply dedup_NoDup_keys.
  - apply dedup_keys_Permutation, H.
  - rewrite <- (length_map dedup_key (dedup s1)), <- (length_map dedup_key (dedup s2)).
    apply Permutation_length, dedup_keys_Permutation, H.
  - intros before q after -> Hq. apply dedup_keeps_first, Hq.
  - apply dedup_Permutation_of_distinct, H.
Qed.

Lemma dedup_idempotent_keys_order_invariant_witness :
  dedup (dedup [news_short; news_long; news_short])
  = dedup [news_short; news_long; news_short]
  /\ NoDup (map dedup_key (dedup [news_short; news_long; news_short]))
  /\ Permutation (map dedup_key (dedup [news_short; news_long; news_short]))
                 (map dedup_key (dedup [news_long; news_short; news_short]))
  /\ List.length (dedup [news_short; news_long; news_short])
     = List.length (dedup [news_long; news_short; news_short])
  /\ In news_short (dedup [news_short; news_long; news_short])
  /\ Permutation (dedup [news_short; news_short]) (dedup [news_short; news_short]).
Proof.
  destruct (dedup_idempotent_keys_order_invariant
              [news_short; news_long; news_short] [news_long; news_short; news_short]
              (perm_swap _ _ _)) as (H1 & H0 & H2 & H3 & H5 & _).
  destruct (dedup_idempotent_keys_order_invariant
              [news_short; news_short] [news_short; news_short]
              (Permutation_refl _)) as (_ & _ & _ & _ & _ & H4).
  split; [exact H1|]. split; [exact H0|]. split; [exact H2|]. split; [exact H3|].
  split; [apply (H5 [] news_short [news_long; news_short]); [reflexivity | intros []]|].
  apply H4. intros p q [<-|[<-|[]]] [<-|[<-|[]]] _; reflexivity.
Defined.

(** C5 as stated fails: of two records of one broadcast the first met is
    kept, so swapping them changes the result. *)
Lemma dedup_depends_on_order :
  Permutation [news_short; news_long] [news_long; news_short]
  /\ dedup [news_short; news_long] = [news_short]
  /\ dedup [news_long; news_short] = [news_long]
  /\ ~ Permutation (dedup [news_short; news_long]) (dedup [news_long; news_short]).
Proof.
  split; [apply perm_swap|]. split; [reflexivity|]. split; [reflexivity|].
  intros H. apply Permutation_length_1 in H. discriminate H.
Qed.

(** ** Device discovery *)

Lemma filter_filter_comm {A : Type} (f g : A -> bool) (l : list A) :
  filter f (filter g l) = filter g (filter f l).
Proof.
  induction l as [|x l IH]; simpl; [reflexivity|].
  destruct (f x) eqn:Ef, (g x) eqn:Eg; simpl; rewrite ?Ef, ?Eg, IH; reflexivity.
Qed.

Lemma filter_absorb {A : Type} (f g : A -> bool) (l : list A) :
  (forall x, f x = true -> g x = true) ->
  filter f (filter g l) = filter f l.
Proof.
  intros H. induction l as [|x l IH]; simpl; [reflexivity|].
  destruct (g x) eqn:Eg; simpl.
  - rewrite IH. reflexivity.
  - destruct (f x) eqn:Ef; [|exact IH].
    apply H in Ef. congruence.
Qed.

Lemma first_seen_filter (f : string -> bool) (tokens : list string) :
  first_seen (filter f tokens) = filter f (first_seen tokens).
Proof.
  induction tokens as [|t tokens IH]; simpl; [reflexivity|].
  destruct (f t) eqn:Ef; simpl; rewrite ?Ef, IH.
  - f_equal. apply filter_filter_comm.
  - symmetry. apply filter_absorb.
    intros u Hu. destruct (String.eqb_spec u t); [congruence|reflexivity].
Qed.

Lemma first_seen_In (tokens : list string) (t : string) :
  In t (first_seen tokens) <-> In t tokens.
Proof.
  induction tokens as [|u tokens IH]; simpl; [tauto|].
  rewrite filter_In, IH.
  destruct (String.eqb_spec t u); intuition congruence.
Qed.

Lemma first_seen_NoDup (tokens : list string) : NoDup (first_seen tokens).
Proof.
  induction tokens as [|u tokens IH]; simpl; constructor.
  - rewrite filter_In, String.eqb_refl. intros [_ H]. discriminate H.
  - apply NoDup_filter, IH.
Qed.

(** Appending the new tokens one by one builds the first-seen list. *)
Lemma fold_set_add_first_seen (tokens acc : list string) :
  fold_left set_add tokens acc
  = acc ++ first_seen (filter (fun t => negb (set_mem t acc)) tokens).
Proof.
  revert acc.
  induction tokens as [|t tokens IH]; intros acc; simpl.
  - symmetry. apply app_nil_r.
  - unfold set_add at 2. destruct (set_mem t acc) eqn:E; simpl.
    + apply IH.
    + rewrite IH, <- app_assoc. simpl. do 2 f_equal.
      rewrite <- first_seen_filter. f_equal.
      clear IH. induction tokens as [|u tokens IH]; simpl; [reflexivity|].
      unfold set_mem at 1. rewrite existsb_app. fold (set_mem u acc). simpl.
      rewrite orb_false_r, negb_orb.
      destruct (set_mem u acc); simpl; [exact IH|].
      destruct (negb (u =? t)%string); rewrite IH; reflexivity.
Qed.

Lemma fold_probe_host (l : lan) (hosts : list string) :
  forall auths devices,
  fst (fold_left (probe_host l) hosts (auths, devices))
  = fold_left set_add (returned_tokens l hosts) auths.
Proof.
  induction hosts as [|h hosts IH]; intros auths devices; simpl; [reflexivity|].
  unfold returned_tokens in *. simpl. rewrite fold_left_app.
  destruct (_discover_single_device l h) as [a|]; simpl; [|apply IH].
  destruct (truthy a); simpl; [|apply IH].
  unfold set_add at 2.
  destruct (set_mem a auths); simpl; apply IH.
Qed.

Lemma all_device_auths_first_seen (l : lan) (hosts : list string) :
  fst (fold_left (probe_host l) hosts ([], []))
  = first_seen (returned_tokens l hosts).
Proof.
  rewrite fold_probe_host, fold_set_add_first_seen. simpl.
  f_equal. induction (returned_tokens l hosts); simpl; congruence.
Qed.

Lemma returned_tokens_In (l : lan) (hosts : list string) (h token : string) :
  In h hosts -> _discover_single_device l h = Some token -> token <> "" ->
  In token (returned_tokens l hosts).
Proof.
  intros Hh Hd Ht. unfold returned_tokens. apply in_flat_map.
  exists h. split; [assumption|]. rewrite Hd.
  unfold truthy. destruct (String.eqb_spec token ""); [contradiction|].
  simpl. auto.
Qed.

(** C8.  When two hosts return the same token, discovery succeeds, the
    token list holds that token exactly once, it is the list of the
    distinct returned tokens in first-seen order, and the credential is its
    concatenation. *)
Theorem identical_tokens_contribute_once (l : lan) (self : HDHomeRunClient)
    (h1 h2 token : string) :
  let hosts := set_iteration l (device_hosts l (host self)) in
  h1 <> h2 -> In h1 hosts -> In h2 hosts ->
  _discover_single_device l h1 = Some token ->
  _discover_single_device l h2 = Some token ->
  token <> "" ->
  exists self',
    discover_all_devices l self
    = (self', inr (join (first_seen (returned_tokens l hosts))))
    /\ all_device_auths self' = first_seen (returned_tokens l hosts)
    /\ device_auth self' = Some (join (all_device_auths self'))
    /\ NoDup (all_device_auths self')
    /\ count_occ string_dec (all_device_auths self') token = 1%nat.
Proof.
  intros hosts Hne H1 H2 Hd1 Hd2 Ht.
  pose proof (all_device_auths_first_seen l hosts) as Hfs.
  assert (Hin : In token (first_seen (returned_tokens l hosts))).
  { apply first_seen_In. eapply returned_tokens_In; eassumption. }
  unfold discover_all_devices. fold hosts.
  destruct (fold_left (probe_host l) hosts ([], [])) as [auths devices].
  simpl in Hfs. subst auths.
  destruct (first_seen (returned_tokens l hosts)) as [|t ts] eqn:E; [destruct Hin|].
  eexists. split; [reflexivity|]. cbn [all_device_auths device_auth].
  split; [reflexivity|]. split; [reflexivity|].
  assert (Hnd : NoDup (t :: ts)) by (rewrite <- E; apply first_seen_NoDup).
  split; [assumption|].
  apply NoDup_count_occ'; assumption.
Qed.

Lemma identical_tokens_contribute_once_witness :
  exists self',
    discover_all_devices two_tuners_one_token (fresh_client "192.168.1.20")
    = (self', inr (join (first_seen
                           (returned_tokens two_tuners_one_token
                              (set_iteration two_tuners_one_token
                                 (device_hosts two_tuners_one_token
                                    (host (fresh_client "192.168.1.20"))))))))
    /\ all_device_auths self'
       = first_seen (returned_tokens two_tuners_one_token
                       (set_iteration two_tuners_one_token
                          (device_hosts two_tuners_one_token
                             (host (fresh_client "192.168.1.20")))))
    /\ device_auth self' = Some (join (all_device_auths self'))
    /\ NoDup (all_device_auths self')
    /\ count_occ string_dec (all_device_auths self') "AbCd1234" = 1%nat.
Proof.
  apply (identical_tokens_contribute_once two_tuners_one_token
           (fresh_client "192.168.1.20") "192.168.1.20" "192.168.1.21" "AbCd1234").
  - discriminate.
  - cbv. tauto.
  - cbv. tauto.
  - reflexivity.
  - reflexivity.
  - discriminate.
Defined.

(** Two tuners with one token and a third tuner: the credential holds the
    shared token once. *)
Example two_tuners_credential :
  snd (discover_all_devices two_tuners_one_token (fresh_client "192.168.1.20"))
  = inr "XyZw9876AbCd1234".
Proof. reflexivity. Qed.

(** ** The channel lineup *)

Lemma fetch_lineup_failure (answer : lineup_result) (self : HDHomeRunClient)
    (a : api_error) :
  snd (fetch_lineup answer self) = inl (HDHomeRunAPIError a) ->
  (answer = LineupURLError /\ a = FailedToGetLineup)
  \/ (answer = LineupNotJSON /\ a = InvalidJSONFromLineup).
Proof.
  destruct answer; cbn; intros H; inversion H; auto.
Qed.

Lemma discover_failure (l : lan) (self self' : HDHomeRunClient) (e : exn) :
  discover_all_devices l self = (self', inl e) ->
  e = HDHomeRunAPIError NoDevicesDiscovered.
Proof.
  unfold discover_all_devices.
  destruct (fold_left _ _ _) as [[|a auths] devices]; intros H; inversion H.
  reflexivity.
Qed.



(** A lineup whose channel objects lack fields, parsed. *)
Example sparse_lineup_channels :
  snd (get_channels two_tuners_one_token (Lineup sparse_lineup) discovered_client)
  = inr [ ChannelInfo.mk "" "Unknown" "" None;
          ChannelInfo.mk "2.1" "Unknown" "http://192.168.1.20:5004/auto/v2.1" None;
          ChannelInfo.mk "4.1" "KRON" "" (Some "http://img/kron.png") ].
Proof. reflexivity. Qed.

(** * The converter *)

(** ** What the building blocks add *)

Lemma add_children_nil (e : Element) : add_children e [] = e.
Proof. destruct e. unfold add_children. cbn. rewrite app_nil_r. reflexivity. Qed.

Lemma add_children_app (e : Element) (cs1 cs2 : list Element) :
  add_children (add_children e cs1) cs2 = add_children e (cs1 ++ cs2).
Proof. unfold add_children. cbn. rewrite app_assoc. reflexivity. Qed.

Lemma Emits_ret : Emits (ret tt) [] [].
Proof. intros b. unfold ret. rewrite add_children_nil, app_nil_r. destruct b; reflexivity. Qed.

Lemma Emits_bind (m1 m2 : M unit) cs1 ls1 cs2 ls2 :
  Emits m1 cs1 ls1 -> Emits m2 cs2 ls2 ->
  Emits (bind m1 (fun _ => m2)) (cs1 ++ cs2) (ls1 ++ ls2).
Proof.
  intros H1 H2 b. unfold bind. rewrite H1, H2. cbn [elem log].
  rewrite add_children_app, app_assoc. reflexivity.
Qed.

Lemma Emits_when (c : bool) (m : M unit) cs ls :
  Emits m cs ls ->
  Emits (when c m) (if c then cs else []) (if c then ls else []).
Proof. intros H. destruct c; [exact H | exact Emits_ret]. Qed.

Lemma Emits_for_each {A : Type} (xs : list A) (body : A -> M unit)
    (g : A -> list Element) :
  (forall x, Emits (body x) (g x) []) ->
  Emits (for_each xs body) (flat_map g xs) [].
Proof.
  intros H. induction xs as [|x xs IH]; cbn [for_each flat_map].
  - exact Emits_ret.
  - change (@nil log_record) with (@nil log_record ++ []).
    apply Emits_bind; [apply H | exact IH].
Qed.

Lemma Emits_SubElement (tag : string) (attrib : list (string * string))
    (body : M unit) kids ls :
  Emits body kids ls ->
  Emits (SubElement tag attrib body) [mkElement tag attrib None kids] ls.
Proof.
  intros H b. unfold SubElement. rewrite H. reflexivity.
Qed.

Lemma Emits_leaf_text (tag : string) (attrib : list (string * string)) (s : string) :
  Emits (SubElement tag attrib (set_text s)) [mkElement tag attrib (Some s) []] [].
Proof. intros b. unfold SubElement, set_text. cbn. rewrite app_nil_r. reflexivity. Qed.

Lemma Emits_leaf (tag : string) (attrib : list (string * string)) :
  Emits (SubElement tag attrib (ret tt)) [mkElement tag attrib None []] [].
Proof. intros b. unfold SubElement, ret. cbn. rewrite app_nil_r. reflexivity. Qed.

Lemma Emits_logger (l : level) (message : string) :
  Emits (logger l message) [] [mkLog l message].
Proof. intros b. unfold logger. rewrite add_children_nil. reflexivity. Qed.

Lemma Emits_try_except (body : M unit) catches handler cs ls :
  Emits body cs ls -> Emits (try_except body catches handler) cs ls.
Proof. intros H b. unfold try_except. rewrite H. reflexivity. Qed.

(** A value that is there is handed on; an exception leaves the method
    with nothing added. *)
Lemma Emits_lift_bind {A : Type} (r : exn + A) (a : A) (k : A -> M unit) cs ls :
  r = inr a -> Emits (k a) cs ls -> Emits (bind (lift r) k) cs ls.
Proof. intros -> H b. unfold bind, lift. apply H. Qed.

Lemma Raises_lift_bind {A : Type} (r : exn + A) (e : exn) (k : A -> M unit) :
  r = inl e -> Raises (bind (lift r) k) [] [] e.
Proof.
  intros -> b. unfold bind, lift. rewrite add_children_nil, app_nil_r.
  destruct b; reflexivity.
Qed.

Lemma Raises_lift_bind_next {A B : Type} (r : exn + A) (a : A) (k : A -> M B)
    cs ls (e : exn) :
  r = inr a -> Raises (k a) cs ls e -> Raises (bind (lift r) k) cs ls e.
Proof. intros -> H b. unfold bind, lift. apply H. Qed.

(** An exception of a class of the clause is handled. *)
Lemma Emits_try_except_caught (body : M unit) catches handler cs ls e cs' ls' :
  Raises body cs ls e -> catches e = true -> Emits (handler e) cs' ls' ->
  Emits (try_except body catches handler) (cs ++ cs') (ls ++ ls').
Proof.
  intros Hb Hc Hh b. unfold try_except. rewrite Hb, Hc, Hh. cbn [elem log].
  rewrite add_children_app, app_assoc. reflexivity.
Qed.

(** ** Conversion between zones *)

Lemma astimezone_returns (tz : ZoneInfo) (t : Z) (d : datetime) :
  astimezone tz t = inr d ->
  d = mkDatetime (t + utcoffset tz t) (utcoffset tz t)
  /\ in_datetime_range (t + utcoffset tz t) = true.
Proof.
  unfold astimezone. cbv zeta.
  destruct (in_datetime_range (t + utcoffset tz t)); intros H; inversion H.
  split; reflexivity.
Qed.

Lemma astimezone_raises (tz : ZoneInfo) (t : Z) (e : exn) :
  astimezone tz t = inl e ->
  e = OverflowError /\ in_datetime_range (t + utcoffset tz t) = false.
Proof.
  unfold astimezone. cbv zeta.
  destruct (in_datetime_range (t + utcoffset tz t)); intros H; inversion H.
  split; reflexivity.
Qed.

(** ** New and repeat markers *)

Lemma replace_midnight_eqb (d1 d2 : datetime) :
  (replace_midnight d1 =? replace_midnight d2) = true
  <-> calendar_day d1 = calendar_day d2.
Proof.
  unfold replace_midnight, calendar_day. rewrite Z.eqb_eq. lia.
Qed.

Lemma is_True_false (x : option bool) : x <> Some true -> is_True x = false.
Proof. destruct x as [[|]|]; [congruence | reflexivity | reflexivity]. Qed.

Lemma Emits_previously_shown_at (start : string) :
  Emits (SubElement "previously-shown" [] (set_attribute "start" start))
        [previously_shown_at start] [].
Proof.
  intros b. unfold SubElement, set_attribute. cbn. rewrite app_nil_r. reflexivity.
Qed.

Lemma episode_status_same_day (self : XMLTVConverter) (program : ProgramInfo.t)
    (airdate : Z) (start_time air_date : datetime) :
  ProgramInfo.first program <> Some true ->
  ProgramInfo.original_airdate program = Some airdate ->
  astimezone (timezone self) (ProgramInfo.start_time program) = inr start_time ->
  astimezone (timezone self) airdate = inr air_date ->
  calendar_day start_time = calendar_day air_date ->
  Emits (_add_episode_status self program)
        (if is_False (ProgramInfo.first program) then [previously_shown_element] else [])
        [].
Proof.
  intros Hf Ha Hs Hair Hd. unfold _add_episode_status.
  rewrite (is_True_false _ Hf).
  rewrite Ha. cbn [present get].
  apply Emits_try_except.
  eapply Emits_lift_bind; [exact Hs|].
  eapply Emits_lift_bind; [exact Hair|].
  replace (replace_midnight air_date =? replace_midnight start_time)
    with true by (symmetry; apply replace_midnight_eqb; symmetry; exact Hd).
  cbn [negb].
  destruct (is_False (ProgramInfo.first program)); [apply Emits_leaf | apply Emits_ret].
Qed.

Lemma episode_status_other_day (self : XMLTVConverter) (program : ProgramInfo.t)
    (airdate : Z) (start_time air_date : datetime) :
  ProgramInfo.first program <> Some true ->
  ProgramInfo.original_airdate program = Some airdate ->
  astimezone (timezone self) (ProgramInfo.start_time program) = inr start_time ->
  astimezone (timezone self) airdate = inr air_date ->
  calendar_day start_time <> calendar_day air_date ->
  Emits (_add_episode_status self program)
        [previously_shown_at (strftime_compact air_date)] [].
Proof.
  intros Hf Ha Hs Hair Hd. unfold _add_episode_status.
  rewrite (is_True_false _ Hf).
  rewrite Ha. cbn [present get].
  apply Emits_try_except.
  eapply Emits_lift_bind; [exact Hs|].
  eapply Emits_lift_bind; [exact Hair|].
  replace (replace_midnight air_date =? replace_midnight start_time) with false.
  - cbn [negb]. apply Emits_previously_shown_at.
  - symmetry. apply not_true_is_false. rewrite replace_midnight_eqb.
    intros E. apply Hd. symmetry. exact E.
Qed.

(** A time that the zone's clock cannot show leaves no marker and one
    warning. *)
Lemma episode_status_overflow (self : XMLTVConverter) (program : ProgramInfo.t)
    (airdate : Z) (e : exn) :
  ProgramInfo.first program <> Some true ->
  ProgramInfo.original_airdate program = Some airdate ->
  astimezone (timezone self) (ProgramInfo.start_time program) = inl e
  \/ ((exists start_time,
          astimezone (timezone self) (ProgramInfo.start_time program) = inr start_time)
      /\ astimezone (timezone self) airdate = inl e) ->
  Emits (_add_episode_status self program) [] [status_warning program e].
Proof.
  intros Hf Ha H. unfold _add_episode_status.
  rewrite (is_True_false _ Hf).
  rewrite Ha. cbn [present get].
  change (@nil Element) with (@nil Element ++ []).
  change [status_warning program e] with ([] ++ [status_warning program e]).
  apply Emits_try_except_caught with (e := e);
    [|reflexivity|apply Emits_logger].
  destruct H as [Hs | [(start_time & Hs) Hair]].
  - apply Raises_lift_bind. exact Hs.
  - eapply Raises_lift_bind_next; [exact Hs|].
    apply Raises_lift_bind. exact Hair.
Qed.

Lemma episode_status_no_airdate (self : XMLTVConverter) (program : ProgramInfo.t) :
  ProgramInfo.first program <> Some true ->
  ProgramInfo.original_airdate program = None ->
  Emits (_add_episode_status self program)
        (if is_False (ProgramInfo.first program) then [previously_shown_element] else [])
        [].
Proof.
  intros Hf Ha. unfold _add_episode_status.
  rewrite (is_True_false _ Hf).
  rewrite Ha. cbn [present]. apply Emits_try_except.
  destruct (is_False (ProgramInfo.first program)); [apply Emits_leaf | apply Emits_ret].
Qed.

Lemma episode_status_new (self : XMLTVConverter) (program : ProgramInfo.t) :
  ProgramInfo.first program = Some true ->
  Emits (_add_episode_status self program) [new_element] [].
Proof.
  intros H. unfold _add_episode_status. rewrite H. cbn [is_True].
  apply Emits_try_except, Emits_leaf.
Qed.

(** Whatever the record, the method returns normally with one marker at
    most; it logs nothing, or it adds no marker and logs the warning of a
    conversion that failed. *)
Lemma episode_status_emits (self : XMLTVConverter) (program : ProgramInfo.t) :
  exists marker ls,
    Emits (_add_episode_status self program) marker ls
    /\ (marker = [] \/ marker = [new_element] \/ marker = [previously_shown_element]
        \/ exists start, marker = [previously_shown_at start])
    /\ (ls = []
        \/ exists airdate,
             ProgramInfo.original_airdate program = Some airdate
             /\ marker = [] /\ ls = [status_warning program OverflowError]
             /\ (astimezone (timezone self) (ProgramInfo.start_time program)
                 = inl OverflowError
                 \/ astimezone (timezone self) airdate = inl OverflowError)).
Proof.
  destruct (ProgramInfo.first program) as [[|]|] eqn:Ef.
  1: { do 2 eexists. split; [apply episode_status_new; exact Ef|]. auto. }
  all: destruct (ProgramInfo.original_airdate program) as [airdate|] eqn:Ea.
  2, 4: do 2 eexists; (split; [apply episode_status_no_airdate; [congruence|exact Ea]|]);
        rewrite Ef; cbn; auto.
  all: destruct (astimezone (timezone self) (ProgramInfo.start_time program))
         as [e|start_time] eqn:Es.
  1, 3: destruct (astimezone_raises _ _ _ Es) as [-> _];
        do 2 eexists;
        (split; [eapply episode_status_overflow; [congruence | exact Ea | left; exact Es]|]);
        split; [auto | right; exists airdate; auto].
  all: destruct (astimezone (timezone self) airdate) as [e|air_date] eqn:Eair.
  1, 3: destruct (astimezone_raises _ _ _ Eair) as [-> _];
        do 2 eexists;
        (split; [eapply episode_status_overflow;
                 [congruence | exact Ea | right; split; [eexists; exact Es | exact Eair]]|]);
        split; [auto | right; exists airdate; auto].
  all: destruct (Z.eq_dec (calendar_day start_time) (calendar_day air_date)) as [E|E].
  1, 3: do 2 eexists;
        (split; [eapply episode_status_same_day;
                 [congruence | exact Ea | exact Es | exact Eair | exact E]|]);
        rewrite Ef; cbn; auto.
  all: do 2 eexists;
       (split; [eapply episode_status_other_day;
                [congruence | exact Ea | exact Es | exact Eair | exact E]|]);
       split; [right; right; right; eexists; reflexivity | auto].
Qed.

(** C2, as amended.  [_add_episode_status] returns normally for every
    record, with at most one marker and at most one warning.  With [first]
    true it adds "new".  Otherwise, with an original airdate, it converts
    the start time and the airdate to the converter's zone and compares
    their calendar days there: different days give "previously-shown" with
    the airdate's timestamp, without offset, as its "start"; equal days give
    a bare "previously-shown" when [first] is false and nothing when [first]
    is unknown; when one of the two times cannot be shown on the zone's
    clock (it would leave the years 1 to 9999), no marker is added and a
    warning is logged.  Without an airdate, [first] false gives a bare
    "previously-shown" and [first] unknown gives nothing. *)
Theorem episode_status_decision (self : XMLTVConverter) (program : ProgramInfo.t) :
  (exists marker ls,
      Emits (_add_episode_status self program) marker ls
      /\ (List.length marker <= 1)%nat
      /\ (List.length ls <= 1)%nat)
  /\ (ProgramInfo.first program = Some true ->
      Emits (_add_episode_status self program) [new_element] [])
  /\ (forall airdate start_time air_date,
      ProgramInfo.first program <> Some true ->
      ProgramInfo.original_airdate program = Some airdate ->
      astimezone (timezone self) (ProgramInfo.start_time program) = inr start_time ->
      astimezone (timezone self) airdate = inr air_date ->
      (calendar_day start_time <> calendar_day air_date ->
       Emits (_add_episode_status self program)
             [previously_shown_at (strftime_compact air_date)] [])
      /\ (calendar_day start_time = calendar_day air_date ->
          ProgramInfo.first program = Some false ->
          Emits (_add_episode_status self program) [previously_shown_element] [])
      /\ (calendar_day start_time = calendar_day air_date ->
          ProgramInfo.first program = None ->
          Emits (_add_episode_status self program) [] []))
  /\ (forall airdate e,
      ProgramInfo.first program <> Some true ->
      ProgramInfo.original_airdate program = Some airdate ->
      astimezone (timezone self) (ProgramInfo.start_time program) = inl e
      \/ ((exists start_time,
              astimezone (timezone self) (ProgramInfo.start_time program)
              = inr start_time)
          /\ astimezone (timezone self) airdate = inl e) ->
      Emits (_add_episode_status self program) [] [status_warning program e])
  /\ (ProgramInfo.first program = Some false ->
      ProgramInfo.original_airdate program = None ->
      Emits (_add_episode_status self program) [previously_shown_element] [])
  /\ (ProgramInfo.first program = None ->
      ProgramInfo.original_airdate program = None ->
      Emits (_add_episode_status self program) [] []).
Proof.
  split; [|split; [|split; [|split; [|split]]]].
  - destruct (episode_status_emits self program) as (marker & ls & H & Hm & Hl).
    exists marker, ls. split; [exact H|]. split.
    + destruct Hm as [-> | [-> | [-> | [start ->]]]]; cbn; lia.
    + destruct Hl as [-> | (a & _ & _ & -> & _)]; cbn; lia.
  - apply episode_status_new.
  - intros airdate start_time air_date Hf Ha Hs Hair.
    split; [|split].
    + apply (episode_status_other_day self program airdate); assumption.
    + intros Hd Hfalse.
      pose proof (episode_status_same_day self program airdate start_time air_date
                    Hf Ha Hs Hair Hd) as H.
      rewrite Hfalse in H. exact H.
    + intros Hd Hnone.
      pose proof (episode_status_same_day self program airdate start_time air_date
                    Hf Ha Hs Hair Hd) as H.
      rewrite Hnone in H. exact H.
  - apply episode_status_overflow.
  - intros Hf Ha. pose proof (episode_status_no_airdate self program) as H.
    rewrite Hf in H. apply H; [discriminate|assumption].
  - intros Hf Ha. pose proof (episode_status_no_airdate self program) as H.
    rewrite Hf in H. apply H; [discriminate|assumption].
Qed.

Lemma episode_status_decision_witness :
  Emits (_add_episode_status pacific (broadcast (Some true) (Some years_before)))
        [new_element] []
  /\ Emits (_add_episode_status pacific (broadcast None (Some years_before)))
            [previously_shown_at
               (strftime_compact (mkDatetime (years_before - 28800) (-28800)))] []
  /\ Emits (_add_episode_status pacific (broadcast (Some false) (Some same_evening)))
            [previously_shown_element] []
  /\ Emits (_add_episode_status pacific (broadcast None (Some same_evening))) [] []
  /\ Emits (_add_episode_status one_hour_ahead (broadcast None (Some last_half_hour)))
           [] [status_warning (broadcast None (Some last_half_hour)) OverflowError]
  /\ Emits (_add_episode_status pacific (broadcast (Some false) None))
            [previously_shown_element] []
  /\ Emits (_add_episode_status pacific (broadcast None None)) [] [].
Proof.
  split; [|split; [|split; [|split; [|split; [|split]]]]].
  - apply (episode_status_decision pacific (broadcast (Some true) (Some years_before))).
    reflexivity.
  - apply (proj1 (proj2 (proj2 (episode_status_decision pacific
                                  (broadcast None (Some years_before)))))
             years_before (mkDatetime (1700000000 - 28800) (-28800))
             (mkDatetime (years_before - 28800) (-28800)));
      [discriminate | reflexivity | reflexivity | reflexivity |].
    vm_compute. discriminate.
  - apply (proj1 (proj2 (proj2 (episode_status_decision pacific
                                  (broadcast (Some false) (Some same_evening)))))
             same_evening (mkDatetime (1700000000 - 28800) (-28800))
             (mkDatetime (same_evening - 28800) (-28800)));
      [discriminate | reflexivity | reflexivity | reflexivity | reflexivity | reflexivity].
  - apply (proj1 (proj2 (proj2 (episode_status_decision pacific
                                  (broadcast None (Some same_evening)))))
             same_evening (mkDatetime (1700000000 - 28800) (-28800))
             (mkDatetime (same_evening - 28800) (-28800)));
      [discriminate | reflexivity | reflexivity | reflexivity | reflexivity | reflexivity].
  - apply (proj1 (proj2 (proj2 (proj2 (episode_status_decision one_hour_ahead
                                         (broadcast None (Some last_half_hour))))))
             last_half_hour OverflowError);
      [discriminate | reflexivity |].
    right. split; [eexists; reflexivity | reflexivity].
  - apply (episode_status_decision pacific (broadcast (Some false) None)); reflexivity.
  - apply (episode_status_decision pacific (broadcast None None)); reflexivity.
Defined.

(** C2 as stated fails: for a record that is no first run, with an
    original airdate half an hour before the end of the year 9999, a
    converter one hour ahead of UTC adds no marker; it logs a warning. *)
Lemma unshowable_airdate_gives_no_marker :
  ProgramInfo.first (broadcast (Some false) (Some last_half_hour)) = Some false
  /\ ProgramInfo.original_airdate (broadcast (Some false) (Some last_half_hour))
     = Some last_half_hour
  /\ in_datetime_range last_half_hour = true
  /\ _add_episode_status one_hour_ahead (broadcast (Some false) (Some last_half_hour))
       (mkBuilder (mkElement "programme" [] None []) [])
     = (mkBuilder (mkElement "programme" [] None [])
          [ mkLog WARNING
              "Error processing episode status for 'News': date value out of range" ],
        inr tt).
Proof. repeat split. Qed.

(** The markers of six records, written out; the second carries the
    airdate on the converter's clock. *)
Example episode_status_markers :
  map (fun program =>
         children (elem (fst (_add_episode_status pacific program
                                (mkBuilder (mkElement "programme" [] None []) [])))))
      [ broadcast (Some true) (Some years_before);
        broadcast None (Some years_before);
        broadcast (Some false) (Some same_evening);
        broadcast None (Some same_evening);
        broadcast (Some false) None;
        broadcast None None ]
  = [ [mkElement "new" [] None []];
      [mkElement "previously-shown" [("start", "20200913042640")] None []];
      [mkElement "previously-shown" [] None []];
      [];
      [mkElement "previously-shown" [] None []];
      [] ].
Proof. vm_compute. reflexivity. Qed.

(** ** Decimal numerals and [int] *)

(** The value of [Dk d] from the value of [d]. *)
Lemma of_uint_cons (d : Decimal.uint) :
  let V := fun d => Z.of_N (Pos.of_uint d) in
  let P := 10 ^ Z.of_N (DecimalPos.Unsigned.usize d) in
  V (Decimal.D0 d) = V d
  /\ V (Decimal.D1 d) = 1 * P + V d /\ V (Decimal.D2 d) = 2 * P + V d
  /\ V (Decimal.D3 d) = 3 * P + V d /\ V (Decimal.D4 d) = 4 * P + V d
  /\ V (Decimal.D5 d) = 5 * P + V d /\ V (Decimal.D6 d) = 6 * P + V d
  /\ V (Decimal.D7 d) = 7 * P + V d /\ V (Decimal.D8 d) = 8 * P + V d
  /\ V (Decimal.D9 d) = 9 * P + V d.
Proof.
  intros V P. subst V P. cbv beta.
  rewrite !DecimalPos.Unsigned.of_uint_alt.
  unfold Decimal.rev. cbn [Decimal.revapp].
  rewrite !DecimalPos.Unsigned.of_lu_revapp.
  fold (Decimal.rev d). cbn [DecimalPos.Unsigned.of_lu].
  rewrite !N2Z.inj_add, !N2Z.inj_mul, !N2Z.inj_pow. cbn [Z.of_N].
  repeat split; lia.
Qed.

Lemma int_digits_uint (d : Decimal.uint) :
  forall acc prev,
  d <> Decimal.Nil \/ prev = AfterDigit ->
  int_digits (DecimalString.NilEmpty.string_of_uint d) acc prev
  = Some (acc * 10 ^ Z.of_N (DecimalPos.Unsigned.usize d) + Z.of_N (Pos.of_uint d)).
Proof.
  induction d; intros acc prev H;
    try (cbn [DecimalString.NilEmpty.string_of_uint int_digits];
         change (is_digit _) with true; cbv iota;
         rewrite IHd by (right; reflexivity);
         f_equal;
         destruct (of_uint_cons d) as (E0 & E1 & E2 & E3 & E4 & E5 & E6 & E7 & E8 & E9);
         cbv zeta beta in *;
         rewrite ?E0, ?E1, ?E2, ?E3, ?E4, ?E5, ?E6, ?E7, ?E8, ?E9;
         cbn [DecimalPos.Unsigned.usize];
         rewrite N2Z.inj_succ, Z.pow_succ_r by apply N2Z.is_nonneg;
         unfold digit_value;
         match goal with
         | |- context [Z.of_nat ?n] =>
           let v := eval vm_compute in (Z.of_nat n) in change (Z.of_nat n) with v
         end;
         lia).
  destruct H as [H|H]; [congruence|]. subst prev. cbn. f_equal. lia.
Qed.

Lemma usize_nb_digits (d : Decimal.uint) :
  Z.of_N (DecimalPos.Unsigned.usize d) = Z.of_nat (Decimal.nb_digits d).
Proof. induction d; cbn [DecimalPos.Unsigned.usize Decimal.nb_digits]; lia. Qed.

Lemma unorm_to_uint (p : positive) : Decimal.unorm (Pos.to_uint p) = Pos.to_uint p.
Proof.
  rewrite <- DecimalPos.Unsigned.to_of, DecimalPos.Unsigned.of_to. reflexivity.
Qed.

(** The digits of a positive number begin with a digit that is not zero,
    so the number is at least the power of ten of their count less one. *)
Lemma to_uint_lower_bound (p : positive) :
  10 ^ (Z.of_nat (Decimal.nb_digits (Pos.to_uint p)) - 1) <= Z.pos p.
Proof.
  pose proof (unorm_to_uint p) as Hun.
  pose proof (DecimalPos.Unsigned.to_uint_nonnil p) as Hnn.
  pose proof (DecimalPos.Unsigned.to_uint_nonzero p) as Hnz.
  pose proof (DecimalPos.Unsigned.of_to p) as Hof.
  destruct (Pos.to_uint p) as [|d|d|d|d|d|d|d|d|d|d] eqn:E; [congruence| |..].
  1: { exfalso. destruct (Decimal.uint_eq_dec d Decimal.Nil) as [->|Hd]; [congruence|].
       pose proof (DecimalFacts.nb_digits_unorm d Hd) as Hle.
       change (Decimal.unorm (Decimal.D0 d)) with (Decimal.unorm d) in Hun.
       rewrite Hun in Hle. cbn [Decimal.nb_digits] in Hle. lia. }
  all: pose proof (of_uint_cons d) as Hc; cbv zeta in Hc;
    destruct Hc as (H0 & H1 & H2 & H3 & H4 & H5 & H6 & H7 & H8 & H9);
    rewrite Hof, usize_nb_digits in *;
    cbn [Decimal.nb_digits];
    replace (Z.of_nat (S (Decimal.nb_digits d)) - 1)
      with (Z.of_nat (Decimal.nb_digits d)) by lia;
    pose proof (Z.pow_pos_nonneg 10 (Z.of_nat (Decimal.nb_digits d))
                  ltac:(lia) ltac:(lia));
    pose proof (N2Z.is_nonneg (Pos.of_uint d));
    cbn [Z.of_N] in *; lia.
Qed.

Lemma string_of_uint_length (d : Decimal.uint) :
  String.length (DecimalString.NilEmpty.string_of_uint d) = Decimal.nb_digits d.
Proof. induction d; cbn; congruence. Qed.

Lemma string_of_uint_digits (d : Decimal.uint) :
  all_chars is_digit (DecimalString.NilEmpty.string_of_uint d) = true.
Proof. induction d; cbn [DecimalString.NilEmpty.string_of_uint all_chars]; auto. Qed.

Lemma str_digits (w : nat) (z : Z) :
  (1 <= w)%nat -> 0 <= z < 10 ^ Z.of_nat w ->
  (String.length (str z) <= w)%nat /\ all_chars is_digit (str z) = true.
Proof.
  intros Hw [Hz Hlt]. destruct z as [|p|p]; [split; [cbn; lia | reflexivity]| |lia].
  unfold str. cbn [Z.to_int DecimalString.NilZero.string_of_int].
  pose proof (DecimalPos.Unsigned.to_uint_nonnil p) as Hnn.
  pose proof (to_uint_lower_bound p) as Hlow.
  assert (Hs : DecimalString.NilZero.string_of_uint (Pos.to_uint p)
               = DecimalString.NilEmpty.string_of_uint (Pos.to_uint p)).
  { unfold DecimalString.NilZero.string_of_uint.
    destruct (Pos.to_uint p); [congruence | reflexivity..]. }
  rewrite Hs, string_of_uint_length. split; [|apply string_of_uint_digits].
  assert (Z.of_nat (Decimal.nb_digits (Pos.to_uint p)) - 1 < Z.of_nat w); [|lia].
  apply (Z.pow_lt_mono_r_iff 10); lia.
Qed.

(** The number that a run of digits denotes is below the power of ten of
    their count. *)
Lemma of_uint_upper_bound (d : Decimal.uint) :
  Z.of_N (Pos.of_uint d) < 10 ^ Z.of_nat (Decimal.nb_digits d).
Proof.
  induction d;
    try (pose proof (of_uint_cons d) as Hc; cbv zeta in Hc;
         destruct Hc as (H0 & H1 & H2 & H3 & H4 & H5 & H6 & H7 & H8 & H9);
         rewrite usize_nb_digits in *;
         rewrite ?H0, ?H1, ?H2, ?H3, ?H4, ?H5, ?H6, ?H7, ?H8, ?H9;
         cbn [Decimal.nb_digits];
         rewrite Nat2Z.inj_succ, Z.pow_succ_r by lia;
         pose proof (Z.pow_pos_nonneg 10 (Z.of_nat (Decimal.nb_digits d))
                       ltac:(lia) ltac:(lia));
         lia).
  cbn. lia.
Qed.

(** A positive number is written with as many digits as the least power
    of ten above it has zeros. *)
Lemma str_length (w : nat) (z : Z) :
  10 ^ (Z.of_nat w - 1) <= z < 10 ^ Z.of_nat w -> (1 <= w)%nat ->
  String.length (str z) = w.
Proof.
  intros [Hlow Hup] Hw.
  assert (Hpos : 0 < z).
  { pose proof (Z.pow_pos_nonneg 10 (Z.of_nat w - 1) ltac:(lia) ltac:(lia)). lia. }
  destruct z as [|p|p]; [lia| |lia].
  unfold str. cbn [Z.to_int DecimalString.NilZero.string_of_int].
  pose proof (DecimalPos.Unsigned.to_uint_nonnil p) as Hnn.
  pose proof (to_uint_lower_bound p) as Hl.
  pose proof (of_uint_upper_bound (Pos.to_uint p)) as Hu.
  rewrite DecimalPos.Unsigned.of_to in Hu. cbn [Z.of_N] in Hu.
  assert (Hs : DecimalString.NilZero.string_of_uint (Pos.to_uint p)
               = DecimalString.NilEmpty.string_of_uint (Pos.to_uint p)).
  { unfold DecimalString.NilZero.string_of_uint.
    destruct (Pos.to_uint p); [congruence | reflexivity..]. }
  rewrite Hs, string_of_uint_length.
  assert (Z.of_nat (Decimal.nb_digits (Pos.to_uint p)) - 1 < Z.of_nat w).
  { apply (Z.pow_lt_mono_r_iff 10); lia. }
  assert (Z.of_nat w - 1 < Z.of_nat (Decimal.nb_digits (Pos.to_uint p))).
  { apply (Z.pow_lt_mono_r_iff 10); lia. }
  lia.
Qed.

(** ** The whitespace and the digit limit of [int] *)

Lemma lstrip_by_uint (d : Decimal.uint) :
  lstrip_by is_int_space (DecimalString.NilEmpty.string_of_uint d)
  = DecimalString.NilEmpty.string_of_uint d.
Proof. destruct d; reflexivity. Qed.

Lemma rstrip_by_uint (d : Decimal.uint) :
  rstrip_by is_int_space (DecimalString.NilEmpty.string_of_uint d)
  = DecimalString.NilEmpty.string_of_uint d.
Proof.
  induction d; cbn [DecimalString.NilEmpty.string_of_uint rstrip_by];
    try reflexivity; rewrite IHd;
    destruct (DecimalString.NilEmpty.string_of_uint d); reflexivity.
Qed.

Lemma count_digits_uint (d : Decimal.uint) :
  count_digits (DecimalString.NilEmpty.string_of_uint d) = Decimal.nb_digits d.
Proof.
  induction d; cbn [DecimalString.NilEmpty.string_of_uint count_digits Decimal.nb_digits];
    try reflexivity;
    match goal with
    | |- context [is_digit ?c] => change (is_digit c) with true
    end; cbv iota; rewrite IHd; reflexivity.
Qed.

(** [int] reads a run of at most 4300 decimal digits as the number it
    denotes. *)
Lemma int_uint (d : Decimal.uint) :
  d <> Decimal.Nil ->
  (Decimal.nb_digits d <= int_max_str_digits)%nat ->
  int (DecimalString.NilEmpty.string_of_uint d) = inr (Z.of_uint d).
Proof.
  intros H Hlen. unfold int. rewrite lstrip_by_uint, rstrip_by_uint, count_digits_uint.
  replace (int_max_str_digits <? Decimal.nb_digits d)%nat with false
    by (symmetry; apply Nat.ltb_ge; exact Hlen).
  cbv zeta.
  assert (E : int_digits (DecimalString.NilEmpty.string_of_uint d) 0 AtStart
              = Some (Z.of_uint d)).
  { rewrite int_digits_uint by (left; exact H). reflexivity. }
  destruct d; try congruence;
    cbn [DecimalString.NilEmpty.string_of_uint] in *;
    match goal with
    | |- context [Ascii.eqb ?c "-"] => change (Ascii.eqb c "-") with false
    end;
    match goal with
    | |- context [Ascii.eqb ?c "+"] => change (Ascii.eqb c "+") with false
    end;
    cbv iota; rewrite E; reflexivity.
Qed.

(** It refuses a longer run. *)
Lemma int_uint_too_long (d : Decimal.uint) :
  (int_max_str_digits < Decimal.nb_digits d)%nat ->
  int (DecimalString.NilEmpty.string_of_uint d) = inl ValueError.
Proof.
  intros Hlen. unfold int. rewrite lstrip_by_uint, rstrip_by_uint, count_digits_uint.
  replace (int_max_str_digits <? Decimal.nb_digits d)%nat with true
    by (symmetry; apply Nat.ltb_lt; exact Hlen).
  reflexivity.
Qed.

Lemma int_raises_ValueError (s : string) (e : exn) : int s = inl e -> e = ValueError.
Proof.
  unfold int. cbv zeta.
  destruct (int_max_str_digits <? _)%nat; [intros H; inversion H; reflexivity|].
  match goal with |- context [match ?b with Some _ => _ | None => _ end] => destruct b end;
    intros H; inversion H; reflexivity.
Qed.

Lemma format_int_writes (z : Z) :
  (String.length (str (Z.abs z)) <= int_max_str_digits)%nat ->
  format_int z = inr (str z).
Proof.
  intros H. unfold format_int.
  replace (int_max_str_digits <? String.length (str (Z.abs z)))%nat with false
    by (symmetry; apply Nat.ltb_ge; exact H).
  reflexivity.
Qed.

Lemma format_int_raises (z : Z) (e : exn) :
  format_int z = inl e ->
  e = ValueError /\ (int_max_str_digits < String.length (str (Z.abs z)))%nat.
Proof.
  unfold format_int.
  destruct (Nat.ltb_spec int_max_str_digits (String.length (str (Z.abs z))));
    intros E; inversion E. split; [reflexivity | assumption].
Qed.

(** One less than the number of a run of at most 4300 digits can be
    written. *)
Lemma format_int_pred_uint (d : Decimal.uint) :
  (Decimal.nb_digits d <= int_max_str_digits)%nat ->
  format_int (Z.of_uint d - 1) = inr (str (Z.of_uint d - 1)).
Proof.
  intros Hlen. apply format_int_writes.
  pose proof (of_uint_upper_bound d) as Hu.
  pose proof (N2Z.is_nonneg (Pos.of_uint d)) as Hn.
  change (Z.of_uint d) with (Z.of_N (Pos.of_uint d)).
  destruct (Z.eq_dec (Z.of_N (Pos.of_uint d)) 0) as [E|E].
  - rewrite E. cbn. unfold int_max_str_digits. lia.
  - destruct (Decimal.nb_digits d) as [|w] eqn:Ew.
    + cbn in Hu. lia.
    + rewrite Z.abs_eq by lia.
      destruct (str_digits (S w) (Z.of_N (Pos.of_uint d) - 1)) as [Hl _]; lia.
Qed.

(** ** Finding the letters *)

Lemma contains_index (c : ascii) (s : string) :
  contains c s = true -> exists i, index c s = inr i.
Proof.
  induction s as [|c' s IH]; cbn; [discriminate|].
  destruct (Ascii.eqb c' c); cbn.
  - eexists. reflexivity.
  - intros H. destruct (IH H) as [i ->]. eexists. reflexivity.
Qed.

Lemma index_after_digits (d : Decimal.uint) (rest : string) :
  index "E" (DecimalString.NilEmpty.string_of_uint d ++ String "E" rest)
  = inr (String.length (DecimalString.NilEmpty.string_of_uint d)).
Proof.
  induction d; cbn [DecimalString.NilEmpty.string_of_uint String.append index String.length];
    try reflexivity;
    match goal with
    | |- context [Ascii.eqb ?c "E"] => change (Ascii.eqb c "E") with false
    end;
    cbv iota; rewrite IHd; reflexivity.
Qed.

Lemma contains_append (c : ascii) (a b : string) :
  contains c (a ++ b) = contains c a || contains c b.
Proof.
  induction a as [|c' a IH]; cbn; [reflexivity|].
  rewrite IH, orb_assoc. reflexivity.
Qed.

Lemma append_empty (a : string) : (a ++ "")%string = a.
Proof. induction a as [|c a IH]; cbn; [reflexivity|]. rewrite IH. reflexivity. Qed.

Lemma append_assoc (a b c : string) : ((a ++ b) ++ c = a ++ (b ++ c))%string.
Proof. induction a as [|x a IH]; cbn; [reflexivity|]. rewrite IH. reflexivity. Qed.

Lemma substring_prefix (a b : string) :
  substring 0 (String.length a) (a ++ b) = a.
Proof.
  induction a as [|c a IH]; cbn.
  - destruct b; reflexivity.
  - rewrite IH. reflexivity.
Qed.

Lemma substring_suffix (a b : string) :
  substring (String.length a) (String.length b) (a ++ b) = b.
Proof.
  induction a as [|c a IH]; cbn.
  - pose proof (substring_prefix b "") as H.
    rewrite append_empty in H.
    exact H.
  - exact IH.
Qed.

Lemma length_append (a b : string) :
  String.length (a ++ b) = (String.length a + String.length b)%nat.
Proof. induction a as [|c a IH]; cbn; [reflexivity|]. rewrite IH. reflexivity. Qed.

Lemma SnEm_parts (dn dm : Decimal.uint) :
  contains "S" (SnEm dn dm) = true
  /\ contains "E" (SnEm dn dm) = true
  /\ series_part (SnEm dn dm) = DecimalString.NilEmpty.string_of_uint dn
  /\ episode_part (SnEm dn dm) = DecimalString.NilEmpty.string_of_uint dm.
Proof.
  unfold SnEm.
  set (sn := DecimalString.NilEmpty.string_of_uint dn).
  set (sm := DecimalString.NilEmpty.string_of_uint dm).
  assert (HE : index "E" ("S" ++ sn ++ "E" ++ sm)%string = inr (S (String.length sn))).
  { cbn. unfold sn. rewrite index_after_digits. reflexivity. }
  split; [reflexivity|].
  split.
  { cbn. rewrite contains_append. cbn. apply orb_true_r. }
  split.
  - unfold series_part. rewrite HE. cbn [index String.append].
    change (Ascii.eqb "S" "S") with true. cbv iota.
    unfold slice. cbn [Nat.add Nat.sub substring].
    rewrite Nat.sub_0_r. apply substring_prefix.
  - unfold episode_part. rewrite HE. unfold slice_from.
    replace ("S" ++ sn ++ "E" ++ sm)%string with (("S" ++ sn ++ "E") ++ sm)%string
      by (cbn; rewrite append_assoc; reflexivity).
    replace (S (String.length sn) + 1)%nat with (String.length ("S" ++ sn ++ "E")%string)
      by (cbn; rewrite length_append; cbn; lia).
    rewrite (length_append ("S" ++ sn ++ "E") sm), Nat.add_comm, Nat.add_sub.
    apply substring_suffix.
Qed.

(** ** Episode numbering *)

Lemma numbering_without_letters (episode_number : string) :
  contains "S" episode_number && contains "E" episode_number = false ->
  Emits (_add_episode_numbering episode_number) [onscreen_element episode_number] [].
Proof.
  intros H. unfold _add_episode_numbering. rewrite H.
  apply Emits_try_except.
  change [onscreen_element episode_number]
    with ([onscreen_element episode_number] ++ []).
  change (@nil log_record) with (@nil log_record ++ []).
  apply Emits_bind; [apply Emits_leaf_text | apply Emits_ret].
Qed.

(** The part of the method after the onscreen element, for a string with
    both letters. *)
Lemma numbering_with_letters (episode_number : string) cs ls :
  contains "S" episode_number = true ->
  contains "E" episode_number = true ->
  (forall b,
      try_except
        (bind (lift (int (series_part episode_number))) (fun n =>
         bind (lift (int (episode_part episode_number))) (fun m =>
         SubElement "episode-num" [("system", "xmltv_ns")]
           (bind (lift (format_int (n - 1))) (fun series_text =>
            bind (lift (format_int (m - 1))) (fun episode_text =>
            set_text (series_text ++ "." ++ episode_text ++ ".0/0")%string))))))
        value_or_index_error
        (fun _ => logger WARNING
                    ("Could not parse episode number: " ++ episode_number)%string) b
      = (mkBuilder (add_children (elem b) cs) (log b ++ ls), inr tt)) ->
  Emits (_add_episode_numbering episode_number)
        (onscreen_element episode_number :: cs) ls.
Proof.
  intros HS HE H. unfold _add_episode_numbering. rewrite HS, HE. cbn [andb when].
  apply Emits_try_except.
  change (onscreen_element episode_number :: cs)
    with ([onscreen_element episode_number] ++ cs).
  change ls with ([] ++ ls).
  apply Emits_bind; [apply Emits_leaf_text|].
  destruct (contains_index _ _ HS) as [s Hs].
  destruct (contains_index _ _ HE) as [e He].
  intros b. specialize (H b).
  unfold series_part, episode_part in H. rewrite Hs, He in H.
  unfold bind at 1 2 3. unfold lift at 1 2 3. rewrite Hs, He.
  exact H.
Qed.

Lemma numbering_parsed (episode_number : string) (n m : Z) :
  contains "S" episode_number = true ->
  contains "E" episode_number = true ->
  int (series_part episode_number) = inr n ->
  int (episode_part episode_number) = inr m ->
  format_int (n - 1) = inr (str (n - 1)) ->
  format_int (m - 1) = inr (str (m - 1)) ->
  Emits (_add_episode_numbering episode_number)
        [onscreen_element episode_number; xmltv_ns_element (n - 1) (m - 1)] [].
Proof.
  intros HS HE Hn Hm Fn Fm. apply numbering_with_letters; try assumption.
  intros b. unfold try_except, bind, lift. rewrite Hn, Hm.
  unfold SubElement, bind, lift. rewrite Fn, Fm. unfold set_text.
  cbn. rewrite app_nil_r. reflexivity.
Qed.

Lemma numbering_not_parsed (episode_number : string) :
  contains "S" episode_number = true ->
  contains "E" episode_number = true ->
  (forall n, int (series_part episode_number) <> inr n)
  \/ (forall m, int (episode_part episode_number) <> inr m) ->
  Emits (_add_episode_numbering episode_number)
        [onscreen_element episode_number] [parse_warning episode_number].
Proof.
  intros HS HE H. apply numbering_with_letters; try assumption.
  intros b. unfold try_except, bind, lift.
  destruct (int (series_part episode_number)) as [e1|n] eqn:E1.
  - apply int_raises_ValueError in E1. subst e1. cbn.
    unfold logger. cbn. rewrite add_children_nil. reflexivity.
  - destruct (int (episode_part episode_number)) as [e2|m] eqn:E2.
    + apply int_raises_ValueError in E2. subst e2. cbn.
      unfold logger. cbn. rewrite add_children_nil. reflexivity.
    + exfalso. destruct H as [H|H]; [apply (H n) | apply (H m)]; reflexivity.
Qed.

(** Both numbers are read, but one of them less one has more than 4300
    digits: the element is there already when its text is refused. *)
Lemma numbering_not_written (episode_number : string) (n m : Z) :
  contains "S" episode_number = true ->
  contains "E" episode_number = true ->
  int (series_part episode_number) = inr n ->
  int (episode_part episode_number) = inr m ->
  (exists e, format_int (n - 1) = inl e) \/ (exists e, format_int (m - 1) = inl e) ->
  Emits (_add_episode_numbering episode_number)
        [onscreen_element episode_number;
         mkElement "episode-num" [("system", "xmltv_ns")] None []]
        [parse_warning episode_number].
Proof.
  intros HS HE Hn Hm H. apply numbering_with_letters; try assumption.
  intros b. unfold try_except, bind, lift. rewrite Hn, Hm.
  unfold SubElement, bind, lift.
  destruct (format_int (n - 1)) as [e1|a] eqn:F1.
  - destruct (format_int_raises _ _ F1) as [-> _]. cbn.
    unfold logger. cbn. reflexivity.
  - destruct (format_int (m - 1)) as [e2|c] eqn:F2.
    + destruct (format_int_raises _ _ F2) as [-> _]. cbn.
      unfold logger. cbn. reflexivity.
    + exfalso. destruct H as [[e H]|[e H]]; discriminate H.
Qed.

Lemma format_int_cases (z : Z) :
  format_int z = inr (str z) \/ exists e, format_int z = inl e.
Proof.
  unfold format_int. destruct (_ <? _)%nat; [right; eexists; reflexivity | left; reflexivity].
Qed.

(** Whatever the string, the method returns normally and the onscreen
    element comes first; it logs nothing, or the one warning of a number it
    could not translate. *)
Lemma numbering_emits (episode_number : string) :
  exists extra ls,
    Emits (_add_episode_numbering episode_number)
          (onscreen_element episode_number :: extra) ls
    /\ (List.length extra <= 1)%nat
    /\ Forall (fun c => tag c = "episode-num") extra
    /\ (ls = []
        \/ (ls = [parse_warning episode_number]
            /\ contains "S" episode_number = true
            /\ contains "E" episode_number = true)).
Proof.
  destruct (contains "S" episode_number) eqn:HS;
    [destruct (contains "E" episode_number) eqn:HE|].
  - destruct (int (series_part episode_number)) as [e1|n] eqn:E1;
      [|destruct (int (episode_part episode_number)) as [e2|m] eqn:E2].
    + do 2 eexists. split; [apply numbering_not_parsed; try assumption;
                            left; intros n; congruence|].
      cbn. auto 6.
    + do 2 eexists. split; [apply numbering_not_parsed; try assumption;
                            right; intros m; congruence|].
      cbn. auto 6.
    + destruct (format_int_cases (n - 1)) as [Fn|Fn];
        [destruct (format_int_cases (m - 1)) as [Fm|Fm]|].
      * do 2 eexists. split; [eapply numbering_parsed; eassumption|].
        cbn. repeat split; auto.
      * do 2 eexists. split; [eapply numbering_not_written; eauto|].
        cbn. split; [lia|]. split; [repeat constructor | auto].
      * do 2 eexists. split; [eapply numbering_not_written; eauto|].
        cbn. split; [lia|]. split; [repeat constructor | auto].
  - do 2 eexists. split; [apply numbering_without_letters; rewrite HS, HE; reflexivity|].
    cbn. auto.
  - do 2 eexists. split; [apply numbering_without_letters; rewrite HS; reflexivity|].
    cbn. auto.
Qed.

(** ** Programmes and channels *)

(** For a record whose start and end the zone's clock can show,
    [_add_program] returns normally and adds one programme element; the
    onscreen numbering is among its children when the record has an episode
    number. *)
Lemma add_program_emits (self : XMLTVConverter) (program : ProgramInfo.t)
    (start_time end_time : datetime) :
  astimezone (timezone self) (ProgramInfo.start_time program) = inr start_time ->
  astimezone (timezone self) (ProgramInfo.end_time program) = inr end_time ->
  exists kids ls,
    Emits (_add_program self program)
          [mkElement "programme"
             [ ("start", strftime_with_offset start_time);
               ("stop", strftime_with_offset end_time);
               ("channel", ProgramInfo.guide_number program) ]
             None kids] ls
    /\ (forall episode_number,
           ProgramInfo.episode_number program = Some episode_number ->
           episode_number <> "" ->
           In (onscreen_element episode_number) kids).
Proof.
  intros Hs He.
  destruct (numbering_emits (get (ProgramInfo.episode_number program) ""))
    as (extra & ls1 & Hnum & _).
  destruct (episode_status_emits self program) as (marker & ls2 & Hstat & _).
  do 2 eexists. split.
  - unfold _add_program. apply Emits_try_except.
    eapply Emits_lift_bind; [exact Hs|].
    eapply Emits_lift_bind; [exact He|].
    apply Emits_SubElement.
    eapply Emits_bind; [apply Emits_leaf_text|].
    eapply Emits_bind; [apply Emits_when, Emits_leaf_text|].
    eapply Emits_bind; [apply Emits_when, Emits_leaf_text|].
    eapply Emits_bind;
      [apply Emits_when, Emits_for_each
       with (g := fun filter_name => [mkElement "category" lang_en (Some filter_name) []]);
       intros x; apply Emits_leaf_text|].
    eapply Emits_bind; [apply Emits_when, Emits_leaf|].
    eapply Emits_bind; [apply Emits_when, Hnum|].
    exact Hstat.
  - intros episode_number Hep Hne.
    rewrite Hep. cbn [truthy_opt get].
    replace (truthy episode_number) with true.
    + do 5 (apply in_or_app; right). apply in_or_app. left. left. reflexivity.
    + unfold truthy. destruct (String.eqb_spec episode_number ""); [contradiction|reflexivity].
Qed.

Lemma converts_true (self : XMLTVConverter) (program : ProgramInfo.t) :
  converts self program = true ->
  exists start_time end_time,
    astimezone (timezone self) (ProgramInfo.start_time program) = inr start_time
    /\ astimezone (timezone self) (ProgramInfo.end_time program) = inr end_time.
Proof.
  unfold converts.
  destruct (astimezone (timezone self) (ProgramInfo.start_time program)) as [e|s];
    [discriminate|].
  destruct (astimezone (timezone self) (ProgramInfo.end_time program)) as [e|t];
    [discriminate|].
  intros _. exists s, t. split; reflexivity.
Qed.

(** For a record whose start or end the zone's clock cannot show, it
    returns normally as well, adds nothing and logs an error. *)
Lemma add_program_overflow (self : XMLTVConverter) (program : ProgramInfo.t) :
  converts self program = false ->
  Emits (_add_program self program) [] [adding_error program OverflowError].
Proof.
  intros H. unfold _add_program.
  change (@nil Element) with (@nil Element ++ []).
  change [adding_error program OverflowError]
    with ([] ++ [adding_error program OverflowError]).
  apply Emits_try_except_caught with (e := OverflowError);
    [|reflexivity|apply Emits_logger].
  unfold converts in H.
  destruct (astimezone (timezone self) (ProgramInfo.start_time program))
    as [e|s] eqn:Es.
  - destruct (astimezone_raises _ _ _ Es) as [-> _].
    apply Raises_lift_bind. reflexivity.
  - destruct (astimezone (timezone self) (ProgramInfo.end_time program))
      as [e|t] eqn:Ee; [|discriminate].
    destruct (astimezone_raises _ _ _ Ee) as [-> _].
    eapply Raises_lift_bind_next; [reflexivity|].
    apply Raises_lift_bind. reflexivity.
Qed.

Lemma add_channel_emits (channel : ChannelInfo.t) :
  exists kids,
    Emits (_add_channel channel)
          [mkElement "channel" [("id", ChannelInfo.guide_number channel)] None kids] [].
Proof.
  exists (mkElement "display-name" lang_en (Some (ChannelInfo.guide_name channel)) []
          :: if truthy_opt (ChannelInfo.image_url channel)
             then [mkElement "icon" [("src", get (ChannelInfo.image_url channel) "")] None []]
             else []).
  intros b. unfold _add_channel, SubElement, bind, when, set_text, ret.
  destruct (truthy_opt (ChannelInfo.image_url channel)); cbn;
    rewrite app_nil_r; reflexivity.
Qed.

Lemma Emits_for_each_one {A : Type} (xs : list A) (body : A -> M unit)
    (P : A -> Element -> Prop) :
  (forall x, exists e ls, Emits (body x) [e] ls /\ P x e) ->
  exists es ls, Emits (for_each xs body) es ls /\ Forall2 P xs es.
Proof.
  intros H. induction xs as [|x xs IH]; cbn [for_each].
  - exists [], []. split; [exact Emits_ret | constructor].
  - destruct (H x) as (e & ls1 & He & HP).
    destruct IH as (es & ls2 & Hes & HF).
    exists ([e] ++ es), (ls1 ++ ls2). split.
    + apply Emits_bind; assumption.
    + constructor; assumption.
Qed.

(** A loop whose body adds one element for the items it keeps and none
    for the others adds the elements of the items kept, in their order. *)
Lemma Emits_for_each_kept {A : Type} (xs : list A) (body : A -> M unit)
    (keep : A -> bool) (P : A -> Element -> Prop) :
  (forall x, keep x = true -> exists e ls, Emits (body x) [e] ls /\ P x e) ->
  (forall x, keep x = false -> exists ls, Emits (body x) [] ls) ->
  exists es ls, Emits (for_each xs body) es ls /\ Forall2 P (filter keep xs) es.
Proof.
  intros Hk Hd. induction xs as [|x xs IH]; cbn [for_each filter].
  - exists [], []. split; [exact Emits_ret | constructor].
  - destruct IH as (es & ls2 & Hes & HF).
    destruct (keep x) eqn:E.
    + destruct (Hk x E) as (e & ls1 & He & HP).
      exists ([e] ++ es), (ls1 ++ ls2). split.
      * apply Emits_bind; assumption.
      * constructor; assumption.
    + destruct (Hd x E) as (ls1 & He).
      exists ([] ++ es), (ls1 ++ ls2). split.
      * apply Emits_bind; assumption.
      * exact HF.
Qed.

(** [str] of a positive number is its run of digits, which [int] reads
    back. *)
Lemma str_positive (n : Z) :
  1 <= n ->
  exists d, d <> Decimal.Nil
            /\ str n = DecimalString.NilEmpty.string_of_uint d
            /\ Z.of_uint d = n.
Proof.
  intros H. destruct n as [|p|p]; try lia.
  exists (Pos.to_uint p).
  pose proof (DecimalPos.Unsigned.to_uint_nonnil p) as Hnn.
  split; [exact Hnn|]. split.
  - unfold str. cbn [Z.to_int DecimalString.NilZero.string_of_int].
    unfold DecimalString.NilZero.string_of_uint.
    destruct (Pos.to_uint p); [congruence|reflexivity..].
  - unfold Z.of_uint. rewrite DecimalPos.Unsigned.of_to. reflexivity.
Qed.

Lemma numbering_SnEm (dn dm : Decimal.uint) :
  dn <> Decimal.Nil -> dm <> Decimal.Nil ->
  (Decimal.nb_digits dn <= int_max_str_digits)%nat ->
  (Decimal.nb_digits dm <= int_max_str_digits)%nat ->
  Emits (_add_episode_numbering (SnEm dn dm))
        [ onscreen_element (SnEm dn dm);
          xmltv_ns_element (Z.of_uint dn - 1) (Z.of_uint dm - 1) ] [].
Proof.
  intros Hn Hm Ln Lm.
  destruct (SnEm_parts dn dm) as (HS & HE & Hs & He).
  apply numbering_parsed; try assumption.
  - rewrite Hs. apply int_uint; assumption.
  - rewrite He. apply int_uint; assumption.
  - apply format_int_pred_uint, Ln.
  - apply format_int_pred_uint, Lm.
Qed.

(** A run of more than 4300 digits in either place is not read. *)
Lemma numbering_SnEm_too_long (dn dm : Decimal.uint) :
  (int_max_str_digits < Decimal.nb_digits dn)%nat
  \/ (int_max_str_digits < Decimal.nb_digits dm)%nat ->
  Emits (_add_episode_numbering (SnEm dn dm))
        [ onscreen_element (SnEm dn dm) ] [ parse_warning (SnEm dn dm) ].
Proof.
  intros H.
  destruct (SnEm_parts dn dm) as (HS & HE & Hs & He).
  apply numbering_not_parsed; try assumption.
  destruct H as [H|H]; [left; intros n; rewrite Hs | right; intros m; rewrite He];
    rewrite (int_uint_too_long _ H); discriminate.
Qed.

Lemma long_series_digits_length :
  Decimal.nb_digits long_series_digits = 4301%nat.
Proof.
  unfold long_series_digits. cbn [Decimal.nb_digits].
  rewrite DecimalFacts.nb_digits_iter_D0. reflexivity.
Qed.

Lemma of_uint_zeros (k : nat) :
  Z.of_N (Pos.of_uint (Nat.iter k Decimal.D0 Decimal.Nil)) = 0
  /\ Z.of_N (DecimalPos.Unsigned.usize (Nat.iter k Decimal.D0 Decimal.Nil)) = Z.of_nat k.
Proof.
  induction k as [|k [IH1 IH2]]; [split; reflexivity|].
  rewrite Nat.iter_succ.
  destruct (of_uint_cons (Nat.iter k Decimal.D0 Decimal.Nil)) as (E0 & _).
  cbv zeta beta in E0. rewrite E0, IH1.
  cbn [DecimalPos.Unsigned.usize]. rewrite N2Z.inj_succ, IH2. split; lia.
Qed.

Lemma long_series_digits_value :
  Z.of_uint long_series_digits = 10 ^ 4300.
Proof.
  unfold long_series_digits, Z.of_uint.
  destruct (of_uint_cons (Nat.iter 4300 Decimal.D0 Decimal.Nil)) as (_ & E1 & _).
  cbv zeta beta in E1. rewrite E1.
  destruct (of_uint_zeros 4300) as [-> ->].
  rewrite Z.mul_1_l, Z.add_0_r. f_equal.
Qed.

(** C3, as amended.  [_add_episode_numbering] always returns normally and
    adds the raw string as the onscreen element first, and [_add_program]
    adds it for every record with an episode number that is not empty whose
    start and end the zone's clock can show.  For "S<n>E<m>", with <n> and
    <m> runs of at most 4300 decimal digits each, and in particular the
    decimal writing of n, m >= 1 of at most 4300 digits, it also adds the
    xmltv_ns element with text "{n-1}.{m-1}.0/0" and logs nothing.  For
    "S<n>E<m>" with a run of more than 4300 digits, and for every string
    with both letters one of whose two parts [int] does not read, it adds
    only the onscreen element and logs one warning.  When both parts are
    read but one of the numbers less one has more than 4300 digits, the
    xmltv_ns element is added without text and the warning is logged. *)
Theorem episode_numbering_translation (episode_number : string) :
  (exists extra ls,
      Emits (_add_episode_numbering episode_number)
            (onscreen_element episode_number :: extra) ls
      /\ (ls = [] \/ ls = [parse_warning episode_number]))
  /\ (forall self program start_time end_time,
      ProgramInfo.episode_number program = Some episode_number ->
      episode_number <> "" ->
      astimezone (timezone self) (ProgramInfo.start_time program) = inr start_time ->
      astimezone (timezone self) (ProgramInfo.end_time program) = inr end_time ->
      exists e ls,
        Emits (_add_program self program) [e] ls
        /\ tag e = "programme"
        /\ In (onscreen_element episode_number) (children e))
  /\ (forall dn dm,
      dn <> Decimal.Nil -> dm <> Decimal.Nil ->
      (Decimal.nb_digits dn <= int_max_str_digits)%nat ->
      (Decimal.nb_digits dm <= int_max_str_digits)%nat ->
      episode_number = SnEm dn dm ->
      Emits (_add_episode_numbering episode_number)
            [ onscreen_element episode_number;
              xmltv_ns_element (Z.of_uint dn - 1) (Z.of_uint dm - 1) ] [])
  /\ (forall n m,
      1 <= n -> 1 <= m ->
      (String.length (str n) <= int_max_str_digits)%nat ->
      (String.length (str m) <= int_max_str_digits)%nat ->
      episode_number = ("S" ++ str n ++ "E" ++ str m)%string ->
      Emits (_add_episode_numbering episode_number)
            [ onscreen_element episode_number; xmltv_ns_element (n - 1) (m - 1) ] [])
  /\ (forall dn dm,
      (int_max_str_digits < Decimal.nb_digits dn)%nat
      \/ (int_max_str_digits < Decimal.nb_digits dm)%nat ->
      episode_number = SnEm dn dm ->
      Emits (_add_episode_numbering episode_number)
            [ onscreen_element episode_number ] [ parse_warning episode_number ])
  /\ (contains "S" episode_number = true ->
      contains "E" episode_number = true ->
      (forall n, int (series_part episode_number) <> inr n)
      \/ (forall m, int (episode_part episode_number) <> inr m) ->
      Emits (_add_episode_numbering episode_number)
            [ onscreen_element episode_number ]
            [ mkLog WARNING ("Could not parse episode number: " ++ episode_number)%string ])
  /\ (forall n m,
      contains "S" episode_number = true ->
      contains "E" episode_number = true ->
      int (series_part episode_number) = inr n ->
      int (episode_part episode_number) = inr m ->
      (int_max_str_digits < String.length (str (Z.abs (n - 1))))%nat
      \/ (int_max_str_digits < String.length (str (Z.abs (m - 1))))%nat ->
      Emits (_add_episode_numbering episode_number)
            [ onscreen_element episode_number;
              mkElement "episode-num" [("system", "xmltv_ns")] None [] ]
            [ parse_warning episode_number ]).
Proof.
  split; [|split; [|split; [|split; [|split; [|split]]]]].
  - destruct (numbering_emits episode_number) as (extra & ls & H & _ & _ & Hl).
    exists extra, ls. split; [exact H|].
    destruct Hl as [Hl | [Hl _]]; auto.
  - intros self program start_time end_time Hep Hne Hs Hend.
    destruct (add_program_emits self program start_time end_time Hs Hend)
      as (kids & ls & He & Hin).
    do 2 eexists. split; [exact He|]. split; [reflexivity|].
    cbn [children]. apply Hin; assumption.
  - intros dn dm Hn Hm Ln Lm ->. apply numbering_SnEm; assumption.
  - intros n m Hn Hm Ln Lm ->.
    destruct (str_positive n Hn) as (dn & Hdn & En & <-).
    destruct (str_positive m Hm) as (dm & Hdm & Em & <-).
    rewrite En, Em in *. rewrite string_of_uint_length in Ln, Lm.
    apply (numbering_SnEm dn dm); assumption.
  - intros dn dm H ->. apply numbering_SnEm_too_long, H.
  - apply numbering_not_parsed.
  - intros n m HS HE Hn Hm H.
    apply (numbering_not_written episode_number n m); try assumption.
    unfold format_int.
    destruct H as [H|H]; [left|right]; exists ValueError;
      apply Nat.ltb_lt in H; rewrite H; reflexivity.
Qed.

Lemma episode_numbering_translation_witness :
  (exists e ls,
      Emits (_add_program pacific
               (ProgramInfo.mk "News" 1700000000 1700003600 "2.1" None None
                               (Some "S01E05") None None (Some []) None)) [e] ls
      /\ tag e = "programme"
      /\ In (onscreen_element "S01E05") (children e))
  /\ Emits (_add_episode_numbering "S01E05")
           [ onscreen_element "S01E05";
             xmltv_ns_element
               (Z.of_uint (Decimal.D0 (Decimal.D1 Decimal.Nil)) - 1)
               (Z.of_uint (Decimal.D0 (Decimal.D5 Decimal.Nil)) - 1) ] []
  /\ Emits (_add_episode_numbering "S12E3")
           [ onscreen_element "S12E3"; xmltv_ns_element (12 - 1) (3 - 1) ] []
  /\ Emits (_add_episode_numbering long_episode_number)
           [ onscreen_element long_episode_number ]
           [ parse_warning long_episode_number ]
  /\ Emits (_add_episode_numbering "S1Ex")
           [ onscreen_element "S1Ex" ]
           [ mkLog WARNING "Could not parse episode number: S1Ex" ].
Proof.
  split; [|split; [|split; [|split]]].
  - apply (proj1 (proj2 (episode_numbering_translation "S01E05")) pacific
             (ProgramInfo.mk "News" 1700000000 1700003600 "2.1" None None
                             (Some "S01E05") None None (Some []) None)
             (mkDatetime (1700000000 - 28800) (-28800))
             (mkDatetime (1700003600 - 28800) (-28800)));
      [reflexivity | discriminate | reflexivity | reflexivity].
  - apply (proj1 (proj2 (proj2 (episode_numbering_translation "S01E05")))
             (Decimal.D0 (Decimal.D1 Decimal.Nil)) (Decimal.D0 (Decimal.D5 Decimal.Nil)));
      [discriminate | discriminate | | | reflexivity];
      unfold int_max_str_digits; cbn; lia.
  - apply (proj1 (proj2 (proj2 (proj2 (episode_numbering_translation "S12E3")))) 12 3);
      [lia | lia | | | reflexivity];
      unfold int_max_str_digits; cbn; lia.
  - apply (proj1 (proj2 (proj2 (proj2 (proj2
             (episode_numbering_translation long_episode_number)))))
             long_series_digits (Decimal.D1 Decimal.Nil));
      [|reflexivity].
    left. rewrite long_series_digits_length. unfold int_max_str_digits. lia.
  - apply (proj1 (proj2 (proj2 (proj2 (proj2 (proj2
             (episode_numbering_translation "S1Ex")))))));
      [reflexivity | reflexivity |].
    right. intros m. vm_compute. discriminate.
Defined.

(** C3 as stated fails: "S1", 4300 zeros, "E1" is of the form "S<n>E<m>"
    with n = 10^4300 and m = 1, and the method adds the onscreen element
    only, with a warning. *)
Lemma long_series_number_gets_no_xmltv_ns :
  long_episode_number = SnEm long_series_digits (Decimal.D1 Decimal.Nil)
  /\ Z.of_uint long_series_digits = 10 ^ 4300
  /\ Z.of_uint (Decimal.D1 Decimal.Nil) = 1
  /\ _add_episode_numbering long_episode_number
       (mkBuilder (mkElement "programme" [] None []) [])
     = (mkBuilder
          (mkElement "programme" [] None
             [mkElement "episode-num" [("system", "onscreen")]
                (Some long_episode_number) []])
          [mkLog WARNING
             ("Could not parse episode number: " ++ long_episode_number)%string],
        inr tt).
Proof.
  split; [reflexivity|]. split; [exact long_series_digits_value|].
  split; [reflexivity|].
  assert (H : Emits (_add_episode_numbering long_episode_number)
                    [ onscreen_element long_episode_number ]
                    [ parse_warning long_episode_number ]).
  { apply numbering_SnEm_too_long. left.
    rewrite long_series_digits_length. unfold int_max_str_digits. lia. }
  rewrite H. reflexivity.
Qed.

(** The elements and warnings for four strings, written out. *)
Example episode_numbering_examples :
  map (fun episode_number =>
         let b := fst (_add_episode_numbering episode_number
                         (mkBuilder (mkElement "programme" [] None []) [])) in
         (children (elem b), log b))
      [ "S01E05"; "S12E3"; "S1Ex"; "Pilot" ]
  = [ ([ mkElement "episode-num" [("system", "onscreen")] (Some "S01E05") [];
         mkElement "episode-num" [("system", "xmltv_ns")] (Some "0.4.0/0") [] ], []);
      ([ mkElement "episode-num" [("system", "onscreen")] (Some "S12E3") [];
         mkElement "episode-num" [("system", "xmltv_ns")] (Some "11.2.0/0") [] ], []);
      ([ mkElement "episode-num" [("system", "onscreen")] (Some "S1Ex") [] ],
       [ mkLog WARNING "Could not parse episode number: S1Ex" ]);
      ([ mkElement "episode-num" [("system", "onscreen")] (Some "Pilot") [] ], []) ].
Proof. vm_compute. reflexivity. Qed.

(** C9.  [convert_to_xmltv] returns the root element.  Its children are
    the channel elements, one per channel in the order of the channel list,
    followed by the programme elements, in the order of the program list:
    one for each record whose start and end the converter's clock can show
    (the others are left out, with an error logged), carrying the record's
    channel and its start on that clock. *)
Theorem channels_precede_programmes (self : XMLTVConverter)
    (channels : list ChannelInfo.t) (programs : list ProgramInfo.t)
    (generator_name generator_url : string) :
  exists channel_elems programme_elems ls,
    convert_to_xmltv self channels programs generator_name generator_url
    = (ls, inr (mkElement "tv"
                  [ ("source-info-name", "HDHomeRun");
                    ("generator-info-name", generator_name);
                    ("generator-info-url", generator_url) ]
                  None (channel_elems ++ programme_elems)))
    /\ Forall2 (fun channel e =>
                  tag e = "channel"
                  /\ attribute "id" (attrib e) = Some (ChannelInfo.guide_number channel))
               channels channel_elems
    /\ Forall2 (fun program e =>
                  tag e = "programme"
                  /\ attribute "channel" (attrib e)
                     = Some (ProgramInfo.guide_number program)
                  /\ exists start_time,
                       astimezone (timezone self) (ProgramInfo.start_time program)
                       = inr start_time
                       /\ attribute "start" (attrib e)
                          = Some (strftime_with_offset start_time))
               (filter (converts self) programs) programme_elems.
Proof.
  destruct (Emits_for_each_one channels _add_channel
              (fun channel e =>
                 tag e = "channel"
                 /\ attribute "id" (attrib e) = Some (ChannelInfo.guide_number channel)))
    as (cs & ls1 & Hcs & HFc).
  { intros c. destruct (add_channel_emits c) as (kids & H).
    do 2 eexists. split; [exact H|]. cbn. auto. }
  destruct (Emits_for_each_kept programs (_add_program self) (converts self)
              (fun program e =>
                 tag e = "programme"
                 /\ attribute "channel" (attrib e)
                    = Some (ProgramInfo.guide_number program)
                 /\ exists start_time,
                      astimezone (timezone self) (ProgramInfo.start_time program)
                      = inr start_time
                      /\ attribute "start" (attrib e)
                         = Some (strftime_with_offset start_time)))
    as (ps & ls2 & Hps & HFp).
  { intros p Hp. destruct (converts_true self p Hp) as (s & t & Hs & Ht).
    destruct (add_program_emits self p s t Hs Ht) as (kids & ls & H & _).
    do 2 eexists. split; [exact H|]. cbn. split; [reflexivity|].
    split; [reflexivity|]. exists s. split; [exact Hs | reflexivity]. }
  { intros p Hp. eexists. apply add_program_overflow, Hp. }
  exists cs, ps, (ls1 ++ ls2).
  split; [|split; assumption].
  unfold convert_to_xmltv.
  rewrite (Emits_bind _ _ _ _ _ _ Hcs Hps). reflexivity.
Qed.

(** Two channels and two programs, converted. *)
Example two_channels_two_programs :
  let root :=
    snd (convert_to_xmltv pacific
           [ ChannelInfo.mk "2.1" "KTVU" "http://hdhr/auto/v2.1" None;
             ChannelInfo.mk "4.1" "KRON" "http://hdhr/auto/v4.1" (Some "http://img/kron.png") ]
           [ broadcast (Some true) None;
             ProgramInfo.mk "Movie" 1700003600 1700010800 "4.1" None None None None None
                            (Some []) (Some true) ]
           "HDHomeRun-XMLTV-Converter" "https://github.com/user/hdhr-xml-converter") in
  match root with
  | inr tv => map (fun e => (tag e, attribute "id" (attrib e),
                             attribute "channel" (attrib e), map tag (children e)))
                  (children tv)
  | inl _ => []
  end
  = [ ("channel", Some "2.1", None, ["display-name"]);
      ("channel", Some "4.1", None, ["display-name"; "icon"]);
      ("programme", None, Some "2.1", ["title"; "new"]);
      ("programme", None, Some "4.1", ["title"; "new"]) ].
Proof. vm_compute. reflexivity. Qed.

(** A record in the last half hour of the year 9999, on a clock one hour
    ahead: the record is left out and an error is logged; the one after it
    is there. *)
Example record_beyond_the_calendar_is_left_out :
  let result :=
    convert_to_xmltv one_hour_ahead
      [ ChannelInfo.mk "4.1" "KRON" "http://hdhr/auto/v4.1" None ]
      [ last_broadcast; broadcast (Some true) None ]
      "HDHomeRun-XMLTV-Converter" "https://github.com/user/hdhr-xml-converter" in
  fst result = [ mkLog ERROR "Error adding program 'Finale': date value out of range" ]
  /\ match snd result with
     | inr tv => map (fun e => (tag e, attribute "start" (attrib e))) (children tv)
     | inl _ => []
     end
     = [ ("channel", None); ("programme", Some "20231114231320 +0100") ].
Proof. vm_compute. split; reflexivity. Qed.

(** * Further properties *)

(** ** What a fetch returns *)

Lemma records_of_guide_In (guide_number : string) (guide : list program_data)
    (p : ProgramInfo.t) :
  In p (records_of_guide guide_number guide) ->
  exists pd, In pd guide /\ _parse_program_data pd guide_number = inr p.
Proof.
  unfold records_of_guide. rewrite in_flat_map.
  intros (pd & Hpd & H). exists pd. split; [exact Hpd|].
  destruct (_parse_program_data pd guide_number) as [e|q]; [destruct H|].
  destruct H as [->|[]]. reflexivity.
Qed.

Lemma parse_guide_number (pd : program_data) (guide_number : string)
    (p : ProgramInfo.t) :
  _parse_program_data pd guide_number = inr p ->
  ProgramInfo.guide_number p = guide_number.
Proof.
  intros H. apply parse_returns in H. apply H.
Qed.

Lemma records_of_response_In (channels : list ChannelInfo.t)
    (epg_data : list channel_guide) (p : ProgramInfo.t) :
  In p (records_of_response channels epg_data) ->
  exists channel_data pd,
    In channel_data epg_data
    /\ in_lineup channels (get (cg_GuideNumber channel_data) "") = true
    /\ In pd (get (cg_Guide channel_data) [])
    /\ _parse_program_data pd (get (cg_GuideNumber channel_data) "") = inr p.
Proof.
  unfold records_of_response. rewrite in_flat_map.
  intros (cg & Hcg & H). cbv zeta in H.
  destruct (in_lineup channels (get (cg_GuideNumber cg) "")) eqn:E; [|destruct H].
  apply records_of_guide_In in H. destruct H as (pd & Hpd & Hp).
  exists cg, pd. auto.
Qed.

(** X1.  What [get_epg_data] returns is the deduplication of the records
    received, in the order received. *)
Theorem fetch_returns_deduplicated_stream (net : network)
    (channels : list ChannelInfo.t) (device_auth : string)
    (now days hours_increment : Z) (st : fetch_state) (result : list ProgramInfo.t) :
  get_epg_data net channels device_auth now days hours_increment = (st, inr result) ->
  result = dedup (fetched_stream net channels st).
Proof. apply fetch_epg_is_dedup. Qed.

Lemma fetch_returns_deduplicated_stream_witness :
  [ ProgramInfo.mk "News" 1700000000 1700003600 "2.1" None None None None None (Some []) None;
    ProgramInfo.mk "Weather" 1700003600 1700007200 "2.1" None None None None None (Some []) None ]
  = dedup (fetched_stream net_same_guide lineup_2_1
             (fst (get_epg_data net_same_guide lineup_2_1 "auth" 1700000000 1 3))).
Proof.
  apply (fetch_returns_deduplicated_stream net_same_guide lineup_2_1 "auth"
           1700000000 1 3).
  vm_compute. reflexivity.
Defined.

(** X2.  No two records that [get_epg_data] returns have the same start
    time, title and guide number. *)
Theorem fetch_result_has_distinct_keys (net : network)
    (channels : list ChannelInfo.t) (device_auth : string)
    (now days hours_increment : Z) (st : fetch_state) (result : list ProgramInfo.t) :
  get_epg_data net channels device_auth now days hours_increment = (st, inr result) ->
  NoDup (map dedup_key result).
Proof.
  intros H. apply fetch_epg_is_dedup in H. subst result. apply dedup_NoDup_keys.
Qed.

Lemma fetch_result_has_distinct_keys_witness :
  NoDup (map dedup_key
           [ ProgramInfo.mk "News" 1700000000 1700003600 "2.1"
                            None None None None None (Some []) None;
             ProgramInfo.mk "Weather" 1700003600 1700007200 "2.1"
                            None None None None None (Some []) None ]).
Proof.
  apply (fetch_result_has_distinct_keys net_same_guide lineup_2_1 "auth"
           1700000000 1 3
           (fst (get_epg_data net_same_guide lineup_2_1 "auth" 1700000000 1 3))).
  vm_compute. reflexivity.
Defined.

(** X3.  Every record that [get_epg_data] returns is the parse of an entry
    of a received response, listed there under a channel of the lineup, and
    carries that channel's guide number; with an empty lineup nothing is
    returned. *)
Theorem fetch_result_only_lineup_channels (net : network)
    (channels : list ChannelInfo.t) (device_auth : string)
    (now days hours_increment : Z) (st : fetch_state) (result : list ProgramInfo.t) :
  get_epg_data net channels device_auth now days hours_increment = (st, inr result) ->
  (forall p,
      In p result ->
      in_lineup channels (ProgramInfo.guide_number p) = true
      /\ exists epg_data channel_data pd,
           In epg_data (responses_from net 0 (sent st))
           /\ In channel_data epg_data
           /\ In pd (get (cg_Guide channel_data) [])
           /\ _parse_program_data pd (get (cg_GuideNumber channel_data) "") = inr p)
  /\ (channels = [] -> result = []).
Proof.
  intros H. apply fetch_epg_is_dedup in H.
  assert (Hall : forall p,
             In p result ->
             in_lineup channels (ProgramInfo.guide_number p) = true
             /\ exists epg_data channel_data pd,
                  In epg_data (responses_from net 0 (sent st))
                  /\ In channel_data epg_data
                  /\ In pd (get (cg_Guide channel_data) [])
                  /\ _parse_program_data pd (get (cg_GuideNumber channel_data) "") = inr p).
  { intros p Hp. subst result. apply dedup_incl in Hp.
    unfold fetched_stream in Hp. apply in_flat_map in Hp.
    destruct Hp as (epg & Hepg & Hp).
    apply records_of_response_In in Hp.
    destruct Hp as (cg & pd & Hcg & Hin & Hpd & Hparse).
    split.
    - rewrite (parse_guide_number _ _ _ Hparse). exact Hin.
    - exists epg, cg, pd. auto. }
  split; [exact Hall|].
  intros ->. destruct result as [|p result']; [reflexivity|].
  destruct (Hall p (or_introl eq_refl)) as [Hin _]. discriminate Hin.
Qed.

Lemma fetch_result_only_lineup_channels_witness :
  (forall p,
      In p [ ProgramInfo.mk "News" 1700000000 1700003600 "2.1"
                            None None None None None (Some []) None;
             ProgramInfo.mk "Weather" 1700003600 1700007200 "2.1"
                            None None None None None (Some []) None ] ->
      in_lineup lineup_2_1 (ProgramInfo.guide_number p) = true
      /\ exists epg_data channel_data pd,
           In epg_data
              (responses_from net_same_guide 0
                 (sent (fst (get_epg_data net_same_guide lineup_2_1 "auth"
                               1700000000 1 3))))
           /\ In channel_data epg_data
           /\ In pd (get (cg_Guide channel_data) [])
           /\ _parse_program_data pd (get (cg_GuideNumber channel_data) "") = inr p)
  /\ @nil ProgramInfo.t = [].
Proof.
  split.
  - apply (fetch_result_only_lineup_channels net_same_guide lineup_2_1 "auth"
             1700000000 1 3).
    vm_compute. reflexivity.
  - apply (fetch_result_only_lineup_channels net_same_guide [] "auth"
             1700000000 1 3
             (fst (get_epg_data net_same_guide [] "auth" 1700000000 1 3)) []).
    + vm_compute. reflexivity.
    + reflexivity.
Defined.

(** ** The requests of a run *)

(** What one window adds to the requests sent, when it starts with the
    first user agent. *)
Lemma for_endpoints_requests (net : network) (channels : list ChannelInfo.t)
    (device_auth : string) (rest : list string) :
  forall (timestamp : Z) (idx : nat) (st st' : fetch_state) (r : for_result),
  (idx + List.length rest = List.length (api_endpoints device_auth))%nat ->
  current_ua_index st = 0%nat ->
  for_endpoints net channels device_auth timestamp idx rest st = (st', r) ->
  exists new,
    sent st' = sent st ++ new
    /\ Forall (fun req => req_user_agent req = first_user_agent
                          /\ req_start req = timestamp) new
    /\ (List.length new <= List.length rest)%nat
    /\ (r = Completed true ->
        (1 <= List.length new)%nat /\ current_ua_index st' = 0%nat).
Proof.
  induction rest as [|url_base rest IH]; intros timestamp idx st st' r Hidx Hua H.
  - cbn in H. inversion H; subst. exists []. rewrite app_nil_r.
    repeat split; try constructor; try discriminate.
  - assert (Hv : valid_ua st) by (unfold valid_ua; rewrite Hua; cbn; lia).
    rewrite for_endpoints_step in H by assumption. cbv zeta in H.
    set (req := request_of url_base timestamp st) in *.
    assert (Hreq : req_user_agent req = first_user_agent /\ req_start req = timestamp).
    { unfold req, request_of, first_user_agent. rewrite Hua. split; reflexivity. }
    assert (Hone : forall st2 r2,
               sent st2 = sent st ++ [req] ->
               (r2 = Completed true -> current_ua_index st2 = 0%nat) ->
               exists new,
                 sent st2 = sent st ++ new
                 /\ Forall (fun req => req_user_agent req = first_user_agent
                                       /\ req_start req = timestamp) new
                 /\ (List.length new <= List.length (url_base :: rest))%nat
                 /\ (r2 = Completed true ->
                     (1 <= List.length new)%nat /\ current_ua_index st2 = 0%nat)).
    { intros st2 r2 Hs Hc. exists [req]. split; [exact Hs|].
      split; [constructor; [exact Hreq | constructor]|].
      split; [cbn; lia|]. intros E. split; [cbn; lia | apply Hc, E]. }
    assert (Hmore : forall st1,
               sent st1 = sent st ++ [req] ->
               current_ua_index st1 = 0%nat ->
               (S idx + List.length rest = List.length (api_endpoints device_auth))%nat ->
               for_endpoints net channels device_auth timestamp (S idx) rest st1 = (st', r) ->
               exists new,
                 sent st' = sent st ++ new
                 /\ Forall (fun req => req_user_agent req = first_user_agent
                                       /\ req_start req = timestamp) new
                 /\ (List.length new <= List.length (url_base :: rest))%nat
                 /\ (r = Completed true ->
                     (1 <= List.length new)%nat /\ current_ua_index st' = 0%nat)).
    { intros st1 Hs Hu Hi Hf.
      destruct (IH _ _ _ _ _ Hi Hu Hf) as (new & Hn1 & Hn2 & Hn3 & Hn4).
      exists (req :: new). split; [rewrite Hn1, Hs, <- app_assoc; reflexivity|].
      split; [constructor; assumption|].
      split; [cbn; lia|]. intros E. destruct (Hn4 E). split; [cbn; lia | assumption]. }
    cbn [List.length] in Hidx.
    destruct (answer_of net url_base timestamp st) as [epg|code| | |].
    + destruct (process_epg_response channels epg _) as [e|ps]; inversion H; subst.
      * apply Hone; [reflexivity | discriminate].
      * apply Hone; [reflexivity | intros _; exact Hua].
    + destruct (code =? 403).
      * destruct (Nat.eqb_spec idx (List.length (api_endpoints device_auth) - 1)) as [E|E].
        -- assert (rest = []) by (destruct rest; [reflexivity | cbn [List.length] in Hidx; lia]).
           subst rest.
           destruct (Nat.leb _ _); [inversion H; subst; apply Hone;
                                    [reflexivity | discriminate]|].
           cbn in H. inversion H; subst.
           apply Hone; [reflexivity | discriminate].
        -- apply (Hmore (count_403 (record_request req st))); try assumption;
             [reflexivity | lia].
      * inversion H; subst. apply Hone; [reflexivity | discriminate].
    + destruct (Nat.eqb_spec idx (List.length (api_endpoints device_auth) - 1)) as [E|E].
      * inversion H; subst. apply Hone; [reflexivity | discriminate].
      * apply (Hmore (record_request req st)); try assumption; [reflexivity | lia].
    + inversion H; subst. apply Hone; [reflexivity | discriminate].
    + inversion H; subst. apply Hone; [reflexivity | discriminate].
Qed.

Lemma while_windows_requests (net : network) (channels : list ChannelInfo.t)
    (device_auth : string) (windows : list Z) :
  forall (st st' : fetch_state) (r : exn + list ProgramInfo.t),
  current_ua_index st = 0%nat ->
  while_windows net channels device_auth windows st = (st', r) ->
  exists new,
    sent st' = sent st ++ new
    /\ Forall (fun req => req_user_agent req = first_user_agent
                          /\ In (req_start req) windows) new
    /\ (List.length new
        <= List.length (api_endpoints device_auth) * List.length windows)%nat
    /\ ((exists result, r = inr result) ->
        (List.length windows <= List.length new)%nat).
Proof.
  induction windows as [|timestamp windows IH]; intros st st' r Hua H.
  - cbn in H. inversion H; subst. exists []. rewrite app_nil_r.
    repeat split; try constructor; cbn; lia.
  - cbn [while_windows] in H. unfold fetch_window in H.
    destruct (for_endpoints net channels device_auth timestamp 0
                (api_endpoints device_auth) st) as [st1 r1] eqn:E.
    apply for_endpoints_requests in E; [|reflexivity|exact Hua].
    destruct E as (new1 & Hs1 & Hf1 & Hl1 & Hc1).
    assert (Hf1' : Forall (fun req => req_user_agent req = first_user_agent
                                      /\ In (req_start req) (timestamp :: windows)) new1).
    { eapply Forall_impl; [|exact Hf1]. intros req [Ha Hb]. split; [exact Ha|].
      left. symmetry. exact Hb. }
    assert (Hstop : forall (e : exn),
               (st', r) = (st1, inl e) ->
               exists new,
                 sent st' = sent st ++ new
                 /\ Forall (fun req => req_user_agent req = first_user_agent
                                       /\ In (req_start req) (timestamp :: windows)) new
                 /\ (List.length new
                     <= List.length (api_endpoints device_auth)
                        * List.length (timestamp :: windows))%nat
                 /\ ((exists result, r = inr result) ->
                     (List.length (timestamp :: windows) <= List.length new)%nat)).
    { intros e He. inversion He; subst. exists new1.
      split; [exact Hs1|]. split; [exact Hf1'|].
      split; [cbn [List.length] in *; nia|].
      intros [result Hr]. discriminate Hr. }
    destruct r1 as [[|]|e].
    + destruct (Hc1 eq_refl) as [Hge Hua1].
      destruct (IH _ _ _ Hua1 H) as (new2 & Hs2 & Hf2 & Hl2 & Hc2).
      exists (new1 ++ new2).
      split; [rewrite Hs2, Hs1, app_assoc; reflexivity|].
      split.
      { apply Forall_app. split; [exact Hf1'|].
        eapply Forall_impl; [|exact Hf2]. intros req [Ha Hb]. split; [exact Ha|].
        right. exact Hb. }
      rewrite length_app. cbn [List.length] in *.
      split; [nia|]. intros Hr. specialize (Hc2 Hr). lia.
    + apply (Hstop (HDHomeRunAPIError FailedFromAnyEndpoint)). symmetry. exact H.
    + apply (Hstop e). symmetry. exact H.
Qed.

Lemma requests_per_window_bound (net : network)
    (channels : list ChannelInfo.t) (device_auth : string)
    (now days hours_increment : Z) :
  (List.length (sent (fst (get_epg_data net channels device_auth
                             now days hours_increment)))
   <= 2 * List.length (window_starts now days hours_increment))%nat.
Proof.
  unfold get_epg_data, fetch_epg.
  destruct (while_windows net channels device_auth
              (window_starts now days hours_increment) initial_state)
    as [st r] eqn:E.
  apply while_windows_requests in E; [|reflexivity].
  destruct E as (new & Hs & _ & Hl & _).
  assert (Hsent : sent st = new) by (rewrite Hs; reflexivity).
  destruct r; cbn [fst]; rewrite Hsent; exact Hl.
Qed.

(** X4.  Every request that [get_epg_data] sends, in every run, carries
    the first user agent of the list. *)
Theorem every_request_uses_first_user_agent (net : network)
    (channels : list ChannelInfo.t) (device_auth : string)
    (now days hours_increment : Z) :
  Forall (fun req => req_user_agent req = nth 0 user_agents "")
         (sent (fst (get_epg_data net channels device_auth now days hours_increment))).
Proof.
  unfold get_epg_data, fetch_epg.
  destruct (while_windows net channels device_auth
              (window_starts now days hours_increment) initial_state)
    as [st r] eqn:E.
  apply while_windows_requests in E; [|reflexivity].
  destruct E as (new & Hs & Hf & _).
  assert (Hsent : sent st = new) by (rewrite Hs; reflexivity).
  destruct r; cbn [fst]; rewrite Hsent;
    (eapply Forall_impl; [|exact Hf]); intros req [Ha _]; exact Ha.
Qed.

(** X5.  With a step of at least one hour and the times of the run
    within the years 1 to 9999, a run sends at most two requests for each
    window, each with the start of one of its windows; a run that returns
    has sent at least one request for each window. *)
Theorem requests_per_window (net : network)
    (channels : list ChannelInfo.t) (device_auth : string)
    (now days hours_increment : Z) :
  0 < hours_increment ->
  within_calendar now days hours_increment = true ->
  let windows := window_starts now days hours_increment in
  let run := get_epg_data net channels device_auth now days hours_increment in
  (List.length (sent (fst run)) <= 2 * List.length windows)%nat
  /\ Forall (fun req => In (req_start req) windows) (sent (fst run))
  /\ (forall result, snd run = inr result ->
      (List.length windows <= List.length (sent (fst run)))%nat).
Proof.
  intros _ _ windows run. unfold run, get_epg_data, fetch_epg. fold windows.
  destruct (while_windows net channels device_auth windows initial_state)
    as [st r] eqn:E.
  apply while_windows_requests in E; [|reflexivity].
  destruct E as (new & Hs & Hf & Hl & Hc).
  assert (Hsent : sent st = new) by (rewrite Hs; reflexivity).
  assert (Hgoal : (List.length (sent st) <= 2 * List.length windows)%nat
                  /\ Forall (fun req => In (req_start req) windows) (sent st)).
  { rewrite Hsent. split; [exact Hl|].
    eapply Forall_impl; [|exact Hf]. intros req [_ Hb]; exact Hb. }
  destruct r as [e|result]; cbn [fst snd].
  - destruct Hgoal. split; [assumption|]. split; [assumption|]. discriminate.
  - destruct Hgoal. split; [assumption|]. split; [assumption|].
    intros result' _. rewrite Hsent. apply Hc. eexists. reflexivity.
Qed.

Lemma requests_per_window_witness :
  (List.length (sent (fst (get_epg_data net_first_endpoint_403 lineup_2_1 "auth"
                              1700000000 1 3)))
   <= 2 * List.length (window_starts 1700000000 1 3))%nat
  /\ Forall (fun req => In (req_start req) (window_starts 1700000000 1 3))
            (sent (fst (get_epg_data net_first_endpoint_403 lineup_2_1 "auth"
                          1700000000 1 3)))
  /\ (List.length (window_starts 1700000000 1 3)
      <= List.length (sent (fst (get_epg_data net_first_endpoint_403 lineup_2_1 "auth"
                                   1700000000 1 3))))%nat.
Proof.
  destruct (requests_per_window net_first_endpoint_403 lineup_2_1 "auth" 1700000000 1 3)
    as (H1 & H2 & H3); [lia | reflexivity |].
  split; [exact H1|]. split; [exact H2|].
  apply (H3 []). vm_compute. reflexivity.
Defined.

(** The run above: eight windows, sixteen requests, nothing to return. *)
Example first_endpoint_403_run :
  List.length (window_starts 1700000000 1 3) = 8%nat
  /\ List.length (sent (fst (get_epg_data net_first_endpoint_403 lineup_2_1 "auth"
                               1700000000 1 3))) = 16%nat
  /\ snd (get_epg_data net_first_endpoint_403 lineup_2_1 "auth" 1700000000 1 3) = inr [].
Proof. vm_compute. auto. Qed.

(** ** The horizon *)

Lemma window_starts_length (now days hours_increment : Z) :
  0 < days ->
  List.length (window_starts now days hours_increment)
  = Z.to_nat ((86400 * days + 3600 * hours_increment - 1) / (3600 * hours_increment)).
Proof.
  intros Hd. unfold window_starts. cbv zeta.
  destruct (Z.leb_spec (86400 * days) 0); [lia|].
  rewrite length_map, length_seq. reflexivity.
Qed.

Lemma window_starts_no_days (now days hours_increment : Z) :
  days <= 0 -> window_starts now days hours_increment = [].
Proof.
  intros Hd. unfold window_starts. cbv zeta.
  destruct (Z.leb_spec (86400 * days) 0); [reflexivity | lia].
Qed.



(** X7.  Within the bounds that the settings put on the horizon, 1 to 14
    days in steps of 1 to 24 hours, a run has between 1 and 336 windows and
    sends at most 672 requests. *)
Theorem configured_horizon_bounds (net : network)
    (channels : list ChannelInfo.t) (device_auth : string)
    (now days hours_increment : Z) :
  1 <= days <= 14 -> 1 <= hours_increment <= 24 ->
  (1 <= List.length (window_starts now days hours_increment) <= 336)%nat
  /\ (List.length (sent (fst (get_epg_data net channels device_auth
                                now days hours_increment))) <= 672)%nat.
Proof.
  intros Hd Hh.
  assert (Hw : (1 <= List.length (window_starts now days hours_increment) <= 336)%nat).
  { rewrite window_starts_length by lia.
    set (q := (86400 * days + 3600 * hours_increment - 1) / (3600 * hours_increment)).
    assert (1 <= q) by (apply Z.div_le_lower_bound; lia).
    assert (q < 337) by (apply Z.div_lt_upper_bound; lia).
    lia. }
  split; [exact Hw|].
  pose proof (requests_per_window_bound net channels device_auth now days hours_increment).
  lia.
Qed.

Lemma configured_horizon_bounds_witness :
  (1 <= List.length (window_starts 1700000000 7 3) <= 336)%nat
  /\ (List.length (sent (fst (get_epg_data net_first_endpoint_403 lineup_2_1 "auth"
                                1700000000 7 3))) <= 672)%nat.
Proof.
  apply (configured_horizon_bounds net_first_endpoint_403 lineup_2_1 "auth"
           1700000000 7 3); lia.
Defined.

(** ** Runs in which the first endpoint answers *)

Lemma while_windows_all_answered (net : network) (channels : list ChannelInfo.t)
    (device_auth : string) (windows : list Z) :
  (forall n req, exists epg_data,
        net n req = Response epg_data /\ complete_response epg_data) ->
  forall st,
  current_ua_index st = 0%nat ->
  exists st' result,
    while_windows net channels device_auth windows st = (st', inr result)
    /\ sent st'
       = sent st
         ++ map (fun timestamp =>
                   mkRequest (first_endpoint device_auth) timestamp first_user_agent)
                windows.
Proof.
  intros Hnet.
  induction windows as [|timestamp windows IH]; intros st Hua.
  - do 2 eexists. cbn. rewrite app_nil_r. split; reflexivity.
  - assert (Hv : valid_ua st) by (unfold valid_ua; rewrite Hua; cbn; lia).
    cbn [while_windows]. unfold fetch_window.
    change (api_endpoints device_auth)
      with (first_endpoint device_auth :: tl (api_endpoints device_auth)).
    rewrite for_endpoints_step by assumption. cbv zeta.
    unfold answer_of.
    destruct (Hnet (List.length (sent st))
                (request_of (first_endpoint device_auth) timestamp st))
      as (epg & -> & Hcomplete).
    destruct (process_epg_response_complete channels epg
                (programs (record_request
                             (request_of (first_endpoint device_auth) timestamp st) st))
                Hcomplete) as [programs' ->].
    destruct (IH (window_succeeded programs'
                    (record_request
                       (request_of (first_endpoint device_auth) timestamp st) st)))
      as (st' & result & Hrun & Hsent); [exact Hua|].
    exists st', result. split; [exact Hrun|].
    rewrite Hsent. cbn [sent window_succeeded record_request map].
    rewrite <- app_assoc. cbn [app]. do 2 f_equal.
    unfold request_of, first_user_agent. rewrite Hua. reflexivity.
Qed.

(** X8.  With a step of at least one hour and the times of the run
    within the years 1 to 9999: when every request is answered with a guide
    all of whose entries carry both timestamps, these and the original
    airdates within the years 1 to 9999, the run returns, and it has sent
    exactly one request for each window, in order, to the first endpoint:
    the second endpoint is not contacted. *)
Theorem answered_run_uses_first_endpoint_only (net : network)
    (channels : list ChannelInfo.t) (device_auth : string)
    (now days hours_increment : Z) :
  0 < hours_increment ->
  within_calendar now days hours_increment = true ->
  (forall n req, exists epg_data,
        net n req = Response epg_data /\ complete_response epg_data) ->
  exists st result,
    get_epg_data net channels device_auth now days hours_increment = (st, inr result)
    /\ sent st
       = map (fun timestamp =>
                mkRequest (first_endpoint device_auth) timestamp first_user_agent)
             (window_starts now days hours_increment).
Proof.
  intros _ _ Hnet. unfold get_epg_data, fetch_epg.
  destruct (while_windows_all_answered net channels device_auth
              (window_starts now days hours_increment) Hnet initial_state eq_refl)
    as (st & result & -> & Hsent).
  exists st, result. split; [reflexivity | exact Hsent].
Qed.

Lemma answered_run_uses_first_endpoint_only_witness :
  exists st result,
    get_epg_data net_same_guide lineup_2_1 "auth" 1700000000 1 3 = (st, inr result)
    /\ sent st
       = map (fun timestamp =>
                mkRequest (first_endpoint "auth") timestamp first_user_agent)
             (window_starts 1700000000 1 3).
Proof.
  apply (answered_run_uses_first_endpoint_only net_same_guide lineup_2_1 "auth"
           1700000000 1 3); [lia | reflexivity |].
  intros n req. eexists. split; [reflexivity|].
  unfold complete_response.
  repeat (apply Forall_cons || apply Forall_nil); cbn [get cg_Guide];
    repeat (apply Forall_cons || apply Forall_nil);
    (split; [eexists; split; reflexivity|]);
    (split; [eexists; split; reflexivity | discriminate]).
Defined.

(** X9.  A 403 from the first endpoint makes the window go on to the
    second endpoint with the same user agent; when that one answers with a
    guide that is processed, the window succeeds with the programs of that
    guide, two requests sent, and the count of 403 answers back at zero. *)
Theorem rejected_first_endpoint_falls_back (net : network)
    (channels : list ChannelInfo.t) (device_auth : string)
    (timestamp : Z) (st : fetch_state) (epg_data : list channel_guide)
    (programs' : list ProgramInfo.t) :
  valid_ua st ->
  answer_of net (first_endpoint device_auth) timestamp st = HTTPError 403 ->
  answer_of net (second_endpoint device_auth) timestamp
            (record_request (request_of (first_endpoint device_auth) timestamp st) st)
  = Response epg_data ->
  process_epg_response channels epg_data (programs st) = inr programs' ->
  fetch_window net channels device_auth timestamp st
  = (mkFetchState programs' (current_ua_index st) 0
       (sent st ++ [ request_of (first_endpoint device_auth) timestamp st;
                     request_of (second_endpoint device_auth) timestamp st ]),
     Completed true).
Proof.
  intros Hv H1 H2 Hp. unfold fetch_window.
  change (api_endpoints device_auth)
    with [first_endpoint device_auth; second_endpoint device_auth].
  rewrite for_endpoints_step by assumption. rewrite H1. cbv zeta.
  replace (403 =? 403) with true by reflexivity.
  replace (Nat.eqb 0 (List.length (api_endpoints device_auth) - 1))
    with false by reflexivity.
  rewrite for_endpoints_step by exact Hv.
  unfold answer_of in *. cbn [sent count_403 record_request current_ua_index] in *.
  change (request_of (second_endpoint device_auth) timestamp
            (count_403 (record_request
                          (request_of (first_endpoint device_auth) timestamp st) st)))
    with (request_of (second_endpoint device_auth) timestamp
            (record_request (request_of (first_endpoint device_auth) timestamp st) st)).
  rewrite H2. cbv zeta. cbn [programs count_403 record_request]. rewrite Hp.
  unfold window_succeeded. cbn [programs current_ua_index sent count_403 record_request].
  rewrite <- app_assoc. reflexivity.
Qed.

Lemma rejected_first_endpoint_falls_back_witness :
  fetch_window net_first_endpoint_403 lineup_2_1 "auth" 1700000000 initial_state
  = (mkFetchState [] (current_ua_index initial_state) 0
       (sent initial_state
        ++ [ request_of (first_endpoint "auth") 1700000000 initial_state;
             request_of (second_endpoint "auth") 1700000000 initial_state ]),
     Completed true).
Proof.
  apply (rejected_first_endpoint_falls_back net_first_endpoint_403 lineup_2_1 "auth"
           1700000000 initial_state []).
  - cbv. lia.
  - reflexivity.
  - reflexivity.
  - reflexivity.
Defined.

(** * Discovery *)

(** The device list and the token list grow together: each listed device is
    one of the probed hosts and returned the token at the same position. *)
Lemma fold_probe_host_aligned (l : lan) (all_hosts hosts : list string) :
  incl hosts all_hosts ->
  forall auths devices,
  Forall2 (fun h token => In h all_hosts
                          /\ _discover_single_device l h = Some token
                          /\ token <> "") devices auths ->
  Forall2 (fun h token => In h all_hosts
                          /\ _discover_single_device l h = Some token
                          /\ token <> "")
          (snd (fold_left (probe_host l) hosts (auths, devices)))
          (fst (fold_left (probe_host l) hosts (auths, devices))).
Proof.
  induction hosts as [|h hosts IH]; intros Hincl auths devices Hal; [exact Hal|].
  cbn [fold_left].
  assert (Hh : In h all_hosts) by (apply Hincl; left; reflexivity).
  assert (Hrest : incl hosts all_hosts)
    by (intros x Hx; apply Hincl; right; exact Hx).
  unfold probe_host at 2 4.
  destruct (_discover_single_device l h) as [a|] eqn:Ed; [|apply IH; assumption].
  destruct (truthy a) eqn:Et; cbn [andb]; [|apply IH; assumption].
  destruct (set_mem a auths); cbn [negb]; [apply IH; assumption|].
  apply IH; [assumption|].
  apply Forall2_app; [exact Hal|].
  constructor; [|constructor].
  split; [exact Hh|]. split; [exact Ed|].
  unfold truthy in Et. intros ->. discriminate Et.
Qed.

Lemma returned_tokens_nil (l : lan) (hosts : list string) :
  returned_tokens l hosts = []
  <-> forall h, In h hosts ->
        _discover_single_device l h = None
        \/ _discover_single_device l h = Some "".
Proof.
  unfold returned_tokens. induction hosts as [|h hosts IH]; cbn [flat_map].
  - split; [intros _ h []|reflexivity].
  - split.
    + intros H. apply app_eq_nil in H. destruct H as [Hh Hrest].
      intros h' [<-|Hin]; [|apply IH; assumption].
      destruct (_discover_single_device l h) as [a|]; [|left; reflexivity].
      right. unfold truthy in Hh.
      destruct (String.eqb_spec a ""); [congruence|discriminate Hh].
    + intros H.
      assert (Hrest : flat_map
                (fun host =>
                   match _discover_single_device l host with
                   | Some device_auth =>
                     if truthy device_auth then [device_auth] else []
                   | None => []
                   end) hosts = [])
        by (apply IH; intros h' Hin; apply H; right; exact Hin).
      rewrite Hrest, app_nil_r.
      destruct (H h (or_introl eq_refl)) as [E | E]; rewrite E; reflexivity.
Qed.

(** X10.  Discovery raises exactly when no probed host returns a token that
    is not empty; it then leaves the credential of the client as it was and
    both lists empty.  Whenever it raises, the failure is the one for no
    device discovered. *)
Theorem discovery_fails_iff_no_token (l : lan) (self : HDHomeRunClient) :
  let hosts := set_iteration l (device_hosts l (host self)) in
  ((forall h, In h hosts ->
        _discover_single_device l h = None
        \/ _discover_single_device l h = Some "")
   <-> discover_all_devices l self
       = (mkClient (host self) (device_auth self) [] [] (_channels self),
          inl (HDHomeRunAPIError NoDevicesDiscovered)))
  /\ (forall self' e,
        discover_all_devices l self = (self', inl e) ->
        forall h, In h hosts ->
          _discover_single_device l h = None
          \/ _discover_single_device l h = Some "").
Proof.
  intros hosts.
  pose proof (all_device_auths_first_seen l hosts) as Hfs.
  pose proof (fold_probe_host_aligned l hosts hosts (incl_refl _) [] []
                (Forall2_nil _)) as Hal.
  unfold discover_all_devices. fold hosts.
  destruct (fold_left (probe_host l) hosts ([], [])) as [auths devices].
  cbn [fst snd] in Hfs, Hal.
  assert (Hnil : auths = [] <-> returned_tokens l hosts = []).
  { rewrite Hfs. split; [|intros ->; reflexivity].
    destruct (returned_tokens l hosts); [reflexivity|discriminate]. }
  rewrite <- returned_tokens_nil, <- Hnil.
  split; [split|].
  - intros ->. inversion Hal. reflexivity.
  - intros H. destruct auths; [reflexivity | inversion H].
  - intros self' e H. apply returned_tokens_nil, Hnil.
    destruct auths; [reflexivity | inversion H].
Qed.

(** X11.  After discovery the device list and the token list have the same
    length, and the device at each position is a probed host that returned
    the token at that position; on success the credential is the
    concatenation of these tokens, none of them empty. *)
Theorem discovered_devices_match_tokens (l : lan) (self self' : HDHomeRunClient)
    (r : exn + string) :
  discover_all_devices l self = (self', r) ->
  Forall2 (fun h token =>
             In h (set_iteration l (device_hosts l (host self)))
             /\ _discover_single_device l h = Some token
             /\ token <> "")
          (discovered_devices self') (all_device_auths self')
  /\ List.length (discovered_devices self') = List.length (all_device_auths self')
  /\ (forall credential, r = inr credential ->
        credential = join (all_device_auths self')
        /\ device_auth self' = Some credential
        /\ all_device_auths self' <> []).
Proof.
  set (hosts := set_iteration l (device_hosts l (host self))).
  pose proof (fold_probe_host_aligned l hosts hosts (incl_refl _) [] []
                (Forall2_nil _)) as Hal.
  unfold discover_all_devices. fold hosts.
  destruct (fold_left (probe_host l) hosts ([], [])) as [auths devices].
  cbn [fst snd] in Hal.
  intros H.
  assert (Hself : discovered_devices self' = devices /\ all_device_auths self' = auths).
  { destruct auths; inversion H; split; reflexivity. }
  destruct Hself as [Hd Ha]. rewrite Hd, Ha.
  split; [exact Hal|]. split; [eapply Forall2_length; exact Hal|].
  intros credential ->.
  destruct auths as [|a auths]; inversion H; subst.
  cbn [device_auth]. repeat split. discriminate.
Qed.

Lemma discovered_devices_match_tokens_witness :
  Forall2 (fun h token =>
             In h (set_iteration two_tuners_one_token
                     (device_hosts two_tuners_one_token
                        (host (fresh_client "192.168.1.20"))))
             /\ _discover_single_device two_tuners_one_token h = Some token
             /\ token <> "")
          (discovered_devices
             (fst (discover_all_devices two_tuners_one_token
                     (fresh_client "192.168.1.20"))))
          (all_device_auths
             (fst (discover_all_devices two_tuners_one_token
                     (fresh_client "192.168.1.20"))))
  /\ List.length (discovered_devices
                    (fst (discover_all_devices two_tuners_one_token
                            (fresh_client "192.168.1.20"))))
     = List.length (all_device_auths
                      (fst (discover_all_devices two_tuners_one_token
                              (fresh_client "192.168.1.20"))))
  /\ (forall credential,
        snd (discover_all_devices two_tuners_one_token (fresh_client "192.168.1.20"))
        = inr credential ->
        credential
        = join (all_device_auths
                  (fst (discover_all_devices two_tuners_one_token
                          (fresh_client "192.168.1.20"))))
        /\ device_auth (fst (discover_all_devices two_tuners_one_token
                               (fresh_client "192.168.1.20")))
           = Some credential
        /\ all_device_auths
             (fst (discover_all_devices two_tuners_one_token
                     (fresh_client "192.168.1.20"))) <> []).
Proof.
  apply (discovered_devices_match_tokens two_tuners_one_token
           (fresh_client "192.168.1.20")).
  apply surjective_pairing.
Defined.

Lemma fold_set_add_In (xs acc : list string) (x : string) :
  In x (fold_left set_add xs acc) <-> In x acc \/ In x xs.
Proof.
  rewrite fold_set_add_first_seen, in_app_iff, first_seen_In, filter_In.
  split.
  - intros [H|[H _]]; auto.
  - intros [H|H]; [left; exact H|].
    destruct (set_mem x acc) eqn:E.
    + left. unfold set_mem in E. apply existsb_exists in E.
      destruct E as (y & Hy & Exy). apply String.eqb_eq in Exy. subst. exact Hy.
    + right. split; [exact H|reflexivity].
Qed.

Lemma fold_set_add_NoDup (xs acc : list string) :
  NoDup acc -> NoDup (fold_left set_add xs acc).
Proof.
  intros Hacc. rewrite fold_set_add_first_seen.
  apply NoDup_app; [exact Hacc | apply first_seen_NoDup |].
  intros x Hx Hin. apply first_seen_In, filter_In in Hin.
  destruct Hin as [_ Hmem].
  assert (set_mem x acc = true).
  { unfold set_mem. apply existsb_exists. exists x. split; [exact Hx|].
    apply String.eqb_refl. }
  rewrite H in Hmem. discriminate Hmem.
Qed.

(** X12.  The hosts to probe are the configured host, the senders of the
    broadcast replies and the two common names, each of them once: a tuner
    that answers the broadcast several times, or whose address is the
    configured host, is not listed twice. *)
Theorem device_hosts_are_distinct (l : lan) (configured : string) :
  NoDup (device_hosts l configured)
  /\ forall h,
       In h (device_hosts l configured)
       <-> h = configured \/ In h (broadcast_replies l)
           \/ h = "hdhomerun.local" \/ h = "hdhomerun".
Proof.
  unfold device_hosts, _discover_via_broadcast. split.
  - repeat apply fold_set_add_NoDup. repeat constructor. intros [].
  - intros h. rewrite !fold_set_add_In. cbn [In]. intuition congruence.
Qed.

(** * The converter *)

(** ** The children of a programme element *)

Lemma flat_map_singleton {A B : Type} (h : A -> B) (xs : list A) :
  flat_map (fun x => [h x]) xs = map h xs.
Proof. induction xs as [|x xs IH]; cbn; congruence. Qed.

(** The programme element of a record whose start and end the clock can
    show: the children that depend on its fields, then the numbering, then
    the marker; the log holds the warning of the numbering, if any, then
    the warning of the status, if any. *)
Lemma add_program_shape (self : XMLTVConverter) (program : ProgramInfo.t)
    (start_time end_time : datetime) :
  astimezone (timezone self) (ProgramInfo.start_time program) = inr start_time ->
  astimezone (timezone self) (ProgramInfo.end_time program) = inr end_time ->
  exists numbering marker ls1 ls2,
    Emits (_add_program self program)
          [mkElement "programme" (programme_attrib start_time end_time program) None
             (programme_head program ++ numbering ++ marker)] (ls1 ++ ls2)
    /\ (if truthy_opt (ProgramInfo.episode_number program)
        then exists extra,
               numbering
               = onscreen_element (get (ProgramInfo.episode_number program) "") :: extra
               /\ (List.length extra <= 1)%nat
               /\ Forall (fun e => tag e = "episode-num") extra
               /\ (ls1 = []
                   \/ (ls1 = [parse_warning
                                (get (ProgramInfo.episode_number program) "")]
                       /\ contains "S" (get (ProgramInfo.episode_number program) "")
                          = true
                       /\ contains "E" (get (ProgramInfo.episode_number program) "")
                          = true))
        else numbering = [] /\ ls1 = [])
    /\ (marker = [] \/ marker = [new_element] \/ marker = [previously_shown_element]
        \/ exists start, marker = [previously_shown_at start])
    /\ (ls2 = []
        \/ exists airdate,
             ProgramInfo.original_airdate program = Some airdate
             /\ astimezone (timezone self) airdate = inl OverflowError
             /\ ls2 = [status_warning program OverflowError]).
Proof.
  intros Hs He.
  destruct (numbering_emits (get (ProgramInfo.episode_number program) ""))
    as (extra & ls1 & Hnum & Hlen & Htags & Hcases).
  destruct (episode_status_emits self program) as (marker & ls2 & Hstat & Hmarker & Hlog).
  exists (if truthy_opt (ProgramInfo.episode_number program)
          then onscreen_element (get (ProgramInfo.episode_number program) "") :: extra
          else []),
         marker,
         (if truthy_opt (ProgramInfo.episode_number program) then ls1 else []),
         ls2.
  split; [|split; [|split; [exact Hmarker|]]].
  - assert (H : exists kids ls,
               Emits (_add_program self program)
                     [mkElement "programme" (programme_attrib start_time end_time program)
                        None kids] ls
               /\ kids
                  = programme_head program
                    ++ (if truthy_opt (ProgramInfo.episode_number program)
                        then onscreen_element
                               (get (ProgramInfo.episode_number program) "") :: extra
                        else [])
                    ++ marker
               /\ ls = (if truthy_opt (ProgramInfo.episode_number program)
                        then ls1 else []) ++ ls2).
    { do 2 eexists. split; [|split].
      - unfold _add_program. apply Emits_try_except.
        eapply Emits_lift_bind; [exact Hs|].
        eapply Emits_lift_bind; [exact He|].
        apply Emits_SubElement.
        eapply Emits_bind; [apply Emits_leaf_text|].
        eapply Emits_bind; [apply Emits_when, Emits_leaf_text|].
        eapply Emits_bind; [apply Emits_when, Emits_leaf_text|].
        eapply Emits_bind;
          [apply Emits_when, Emits_for_each
           with (g := fun filter_name =>
                        [mkElement "category" lang_en (Some filter_name) []]);
           intros x; apply Emits_leaf_text|].
        eapply Emits_bind; [apply Emits_when, Emits_leaf|].
        eapply Emits_bind; [apply Emits_when, Hnum|].
        exact Hstat.
      - unfold programme_head. rewrite <- !app_assoc.
        rewrite flat_map_singleton.
        destruct (ProgramInfo.filters program) as [[|f fs]|]; reflexivity.
      - destruct (truthy_opt (ProgramInfo.episode_title program)),
                 (truthy_opt (ProgramInfo.synopsis program)),
                 (nonempty (ProgramInfo.filters program)),
                 (truthy_opt (ProgramInfo.image_url program));
          cbn [app]; rewrite ?app_nil_r; reflexivity. }
    destruct H as (kids & ls & Hem & -> & ->). exact Hem.
  - destruct (truthy_opt (ProgramInfo.episode_number program)).
    + exists extra. auto.
    + split; reflexivity.
  - destruct Hlog as [-> | (airdate & Ha & _ & -> & [Hbad | Hbad])]; [left; reflexivity | |].
    + congruence.
    + right. exists airdate. auto.
Qed.

(** X13.  For a record whose start and end the converter's clock can
    show, [_add_program] returns normally and adds one programme element
    whose children come in a fixed order: the title, the sub-title, the
    description (cleaned), one category for each filter and the icon, each
    only when the record has it, then the episode numbers (none without an
    episode number, else the onscreen one followed by at most one more),
    then at most one "new" or "previously-shown" marker.  For any other
    record it returns normally as well, adds no element and logs one
    error. *)
Theorem programme_children_in_order (self : XMLTVConverter) (program : ProgramInfo.t) :
  (forall start_time end_time,
      astimezone (timezone self) (ProgramInfo.start_time program) = inr start_time ->
      astimezone (timezone self) (ProgramInfo.end_time program) = inr end_time ->
      exists numbering marker ls,
        Emits (_add_program self program)
              [mkElement "programme" (programme_attrib start_time end_time program) None
                 (programme_head program ++ numbering ++ marker)] ls
        /\ Forall (fun e => tag e = "episode-num") numbering
        /\ (numbering = [] <-> truthy_opt (ProgramInfo.episode_number program) = false)
        /\ (forall e, nth_error numbering 0 = Some e ->
              e = onscreen_element (get (ProgramInfo.episode_number program) ""))
        /\ (List.length numbering <= 2)%nat
        /\ Forall (fun e => tag e = "new" \/ tag e = "previously-shown") marker
        /\ (List.length marker <= 1)%nat)
  /\ (converts self program = false ->
      Emits (_add_program self program) [] [adding_error program OverflowError]).
Proof.
  split; [|apply add_program_overflow].
  intros start_time end_time Hs He.
  destruct (add_program_shape self program start_time end_time Hs He)
    as (numbering & marker & ls1 & ls2 & Hem & Hnum & Hmarker & _).
  exists numbering, marker, (ls1 ++ ls2). split; [exact Hem|].
  assert (Hm : Forall (fun e => tag e = "new" \/ tag e = "previously-shown") marker
               /\ (List.length marker <= 1)%nat).
  { destruct Hmarker as [-> | [-> | [-> | [start ->]]]]; cbn;
      (split; [repeat (apply Forall_cons || apply Forall_nil); auto | lia]). }
  destruct (truthy_opt (ProgramInfo.episode_number program)).
  - destruct Hnum as (extra & -> & Hlen & Htags & _).
    split; [constructor; [reflexivity | exact Htags]|].
    split; [split; discriminate|].
    split; [intros e E; cbn in E; congruence|].
    split; [cbn [List.length]; lia | exact Hm].
  - destruct Hnum as [-> _].
    split; [constructor|]. split; [split; reflexivity|].
    split; [intros e E; discriminate E|].
    split; [cbn; lia | exact Hm].
Qed.

(** The programme elements of a record with every optional field, and of
    one that the clock cannot show. *)
Example programme_children_examples :
  let full :=
    ProgramInfo.mk "News" 1700000000 1700003600 "2.1" (Some "Headlines [CC]")
                   (Some "At six") (Some "S02E07") (Some "http://img/news.png")
                   (Some years_before) (Some ["News"; "Local"]) (Some false) in
  map (fun program =>
         let b := fst (_add_program one_hour_ahead program
                         (mkBuilder (mkElement "tv" [] None []) [])) in
         (map (fun e => map tag (children e)) (children (elem b)), log b))
      [ full; last_broadcast ]
  = [ ([ [ "title"; "sub-title"; "desc"; "category"; "category"; "icon";
           "episode-num"; "episode-num"; "previously-shown" ] ], []);
      ([], [ mkLog ERROR "Error adding program 'Finale': date value out of range" ]) ].
Proof. vm_compute. reflexivity. Qed.

(** ** The log of a conversion *)

Lemma Emits_for_each_logs {A : Type} (xs : list A) (body : A -> M unit)
    (w : A -> nat) (Q : A -> log_record -> Prop) :
  (forall x, exists es ls,
        Emits (body x) es ls /\ (List.length ls <= w x)%nat /\ Forall (Q x) ls) ->
  exists es ls,
    Emits (for_each xs body) es ls
    /\ (List.length ls <= list_sum (map w xs))%nat
    /\ Forall (fun r => exists x, In x xs /\ Q x r) ls.
Proof.
  intros H. induction xs as [|x xs IH].
  - exists [], []. split; [exact Emits_ret|]. split; [cbn; lia | constructor].
  - destruct (H x) as (es1 & ls1 & H1 & Hlen1 & HQ1).
    destruct IH as (es2 & ls2 & H2 & Hlen2 & HQ2).
    exists (es1 ++ es2), (ls1 ++ ls2).
    split; [cbn [for_each]; apply Emits_bind; assumption|].
    split; [rewrite length_app;
            change (list_sum (map w (x :: xs))) with (w x + list_sum (map w xs))%nat;
            lia|].
    apply Forall_app. split.
    + eapply Forall_impl; [|exact HQ1]. intros r Hr. exists x. split; [left; reflexivity|exact Hr].
    + eapply Forall_impl; [|exact HQ2]. intros r (y & Hy & Hr).
      exists y. split; [right; exact Hy | exact Hr].
Qed.

(** What [_add_program] logs for one record. *)
Lemma add_program_log (self : XMLTVConverter) (program : ProgramInfo.t) :
  exists es ls,
    Emits (_add_program self program) es ls
    /\ (List.length ls <= if shows self program then 1 else 2)%nat
    /\ Forall (logged_for self program) ls.
Proof.
  unfold logged_for, shows.
  destruct (converts self program) eqn:Hc.
  2: { do 2 eexists. split; [apply add_program_overflow, Hc|].
       cbn [andb]. split; [cbn; lia|].
       constructor; [|constructor]. left. split; reflexivity. }
  destruct (converts_true self program Hc) as (s & t & Hs & Ht).
  destruct (add_program_shape self program s t Hs Ht)
    as (numbering & marker & ls1 & ls2 & Hem & Hnum & _ & Hstat).
  do 2 eexists. split; [exact Hem|].
  assert (H1 : (List.length ls1 <= 1)%nat
               /\ Forall (fun r =>
                    exists episode_number,
                      ProgramInfo.episode_number program = Some episode_number
                      /\ contains "S" episode_number = true
                      /\ contains "E" episode_number = true
                      /\ r = parse_warning episode_number) ls1).
  { destruct (ProgramInfo.episode_number program) as [ep|] eqn:Ep;
      cbn [truthy_opt get] in Hnum.
    - destruct (truthy ep).
      + destruct Hnum as (extra & _ & _ & _ & [-> | (-> & HS & HE)]);
          [split; [cbn; lia | constructor]|].
        split; [cbn; lia|]. constructor; [|constructor].
        exists ep. auto.
      + destruct Hnum as [_ ->]. split; [cbn; lia | constructor].
    - destruct Hnum as [_ ->]. split; [cbn; lia | constructor]. }
  destruct H1 as [Hlen1 HF1].
  cbn [andb].
  destruct Hstat as [-> | (airdate & Ha & Hbad & ->)].
  - rewrite app_nil_r. split.
    + destruct (match ProgramInfo.original_airdate program with
                | Some airdate =>
                  match astimezone (timezone self) airdate with
                  | inl _ => false
                  | inr _ => true
                  end
                | None => true
                end); lia.
    + eapply Forall_impl; [|exact HF1]. intros r Hr. right. left. auto.
  - rewrite Ha, Hbad. rewrite length_app. split; [cbn [List.length]; lia|].
    apply Forall_app. split.
    + eapply Forall_impl; [|exact HF1]. intros r Hr. right. left. auto.
    + constructor; [|constructor]. right. right.
      split; [reflexivity|]. exists airdate. auto.
Qed.

Lemma list_sum_bound {A : Type} (w : A -> nat) (k : nat) (xs : list A) :
  Forall (fun x => (w x <= k)%nat) xs ->
  (list_sum (map w xs) <= k * List.length xs)%nat.
Proof.
  induction 1 as [|x xs Hx _ IH]; [cbn; lia|].
  change (list_sum (map w (x :: xs))) with (w x + list_sum (map w xs))%nat.
  cbn [List.length]. lia.
Qed.

(** X14.  A conversion returns its root element for every list of
    channels and of records.  Every record of its log is, for one of the
    records converted, the error for a start or an end that the converter's
    clock cannot show, the warning for an episode number that holds an "S"
    and an "E", or the warning for an original airdate that the clock
    cannot show; there are at most two per record.  When the clock can show
    the start, the end and the original airdate of every record, no error
    is logged: every record of the log is the warning for an episode
    number, and there is one per record at most. *)
Theorem conversion_log_records (self : XMLTVConverter)
    (channels : list ChannelInfo.t) (programs : list ProgramInfo.t)
    (generator_name generator_url : string) :
  exists ls root,
    convert_to_xmltv self channels programs generator_name generator_url
    = (ls, inr root)
    /\ (List.length ls <= 2 * List.length programs)%nat
    /\ Forall (fun r => exists program,
                 In program programs /\ logged_for self program r) ls
    /\ (Forall (fun program => shows self program = true) programs ->
        (List.length ls <= List.length programs)%nat
        /\ Forall (fun r =>
                     log_level r = WARNING
                     /\ exists program episode_number,
                          In program programs
                          /\ ProgramInfo.episode_number program = Some episode_number
                          /\ contains "S" episode_number = true
                          /\ contains "E" episode_number = true
                          /\ r = parse_warning episode_number) ls).
Proof.
  destruct (Emits_for_each_logs channels _add_channel (fun _ => 0%nat) (fun _ _ => False))
    as (cs & ls1 & Hcs & _ & HF1).
  { intros c. destruct (add_channel_emits c) as (kids & H).
    do 2 eexists. split; [exact H|]. split; [cbn; lia | constructor]. }
  assert (ls1 = []) as ->.
  { destruct ls1 as [|r ls1]; [reflexivity|].
    inversion HF1 as [|? ? (x & _ & []) _]. }
  destruct (Emits_for_each_logs programs (_add_program self)
              (fun program => if shows self program then 1%nat else 2%nat)
              (logged_for self))
    as (ps & ls2 & Hps & Hlen & HF2).
  { apply add_program_log. }
  exists ([] ++ ls2), (add_children
                         (mkElement "tv"
                            [ ("source-info-name", "HDHomeRun");
                              ("generator-info-name", generator_name);
                              ("generator-info-url", generator_url) ] None [])
                         (cs ++ ps)).
  split; [|split; [|split]].
  - unfold convert_to_xmltv.
    rewrite (Emits_bind _ _ _ _ _ _ Hcs Hps). reflexivity.
  - cbn [app]. etransitivity; [exact Hlen|].
    apply list_sum_bound. apply Forall_forall. intros p _.
    destruct (shows self p); lia.
  - exact HF2.
  - intros Hall. cbn [app]. split.
    + etransitivity; [exact Hlen|].
      replace (List.length programs) with (1 * List.length programs)%nat by lia.
      apply list_sum_bound. eapply Forall_impl; [|exact Hall].
      intros p Hp. cbv beta in Hp. rewrite Hp. lia.
    + eapply Forall_impl; [|exact HF2].
      intros r (p & Hp & Hr).
      pose proof (proj1 (Forall_forall _ _) Hall p Hp) as Hshow. cbv beta in Hshow.
      unfold shows in Hshow. apply andb_true_iff in Hshow. destruct Hshow as [Hc Hair].
      destruct Hr as [[Hc' _] | [(_ & ep & Hep & HS & HE & ->) | (_ & a & Ha & Hbad & _)]].
      * congruence.
      * split; [reflexivity|]. exists p, ep. auto.
      * rewrite Ha, Hbad in Hair. discriminate Hair.
Qed.

(** The log of a conversion of four records: one that the clock cannot
    show, one with an episode number that is not translated, one whose
    original airdate the clock cannot show, and one that logs nothing. *)
Example conversion_log_of_four_records :
  fst (convert_to_xmltv one_hour_ahead []
         [ last_broadcast;
           ProgramInfo.mk "Quiz" 1700000000 1700003600 "2.1" None None (Some "S1Ex")
                          None None (Some []) None;
           broadcast (Some false) (Some last_half_hour);
           broadcast (Some true) None ]
         "HDHomeRun-XMLTV-Converter" "https://github.com/user/hdhr-xml-converter")
  = [ mkLog ERROR "Error adding program 'Finale': date value out of range";
      mkLog WARNING "Could not parse episode number: S1Ex";
      mkLog WARNING "Error processing episode status for 'News': date value out of range" ].
Proof. vm_compute. reflexivity. Qed.

(** ** [_clean_text] *)

Lemma Subsequence_refl (s : string) : Subsequence s s.
Proof. induction s; constructor; assumption. Qed.

Lemma Subsequence_trans (s t u : string) :
  Subsequence s t -> Subsequence t u -> Subsequence s u.
Proof.
  intros Hst Htu. revert s Hst.
  induction Htu as [|c t u Htu IH|c t u Htu IH]; intros s Hst.
  - exact Hst.
  - inversion Hst; subst.
    + apply Subsequence_keep, IH. assumption.
    + apply Subsequence_drop, IH. assumption.
  - apply Subsequence_drop, IH. exact Hst.
Qed.

Lemma Subsequence_length (s t : string) :
  Subsequence s t -> (String.length s <= String.length t)%nat.
Proof. induction 1; cbn; lia. Qed.

Lemma Subsequence_contains (s t : string) (c : ascii) :
  Subsequence s t -> contains c s = true -> contains c t = true.
Proof.
  induction 1 as [|a s t H IH|a s t H IH]; cbn; intros Hc.
  - exact Hc.
  - apply orb_true_iff in Hc. apply orb_true_iff.
    destruct Hc as [Hc|Hc]; [left; exact Hc | right; apply IH; exact Hc].
  - apply orb_true_iff. right. apply IH. exact Hc.
Qed.

Lemma filter_chars_Subsequence (f : ascii -> bool) (s : string) :
  Subsequence (filter_chars f s) s.
Proof.
  induction s as [|c s IH]; cbn; [constructor|].
  destruct (f c); constructor; exact IH.
Qed.

Lemma filter_chars_contains (f : ascii -> bool) (s : string) (c : ascii) :
  contains c (filter_chars f s) = true -> f c = true.
Proof.
  induction s as [|a s IH]; cbn; [discriminate|].
  destruct (f a) eqn:Ef; [|exact IH].
  cbn. intros H. apply orb_true_iff in H. destruct H as [H|H]; [|apply IH; exact H].
  apply Ascii.eqb_eq in H. subst. exact Ef.
Qed.

Lemma re_sub_from_Subsequence (match_at : string -> option nat) (s : string) :
  forall skip, Subsequence (re_sub_from match_at skip s) s.
Proof.
  induction s as [|c s IH]; intros skip; cbn; [constructor|].
  destruct skip as [|k]; [|apply Subsequence_drop, IH].
  destruct (match_at (String c s)) as [[|k]|];
    [apply Subsequence_keep, IH | apply Subsequence_drop, IH
     | apply Subsequence_keep, IH].
Qed.

Lemma lstrip_Subsequence (s : string) : Subsequence (lstrip s) s.
Proof.
  induction s as [|c s IH]; cbn; [constructor|].
  destruct (is_space c); [apply Subsequence_drop, IH | apply Subsequence_refl].
Qed.

Lemma rstrip_Subsequence (s : string) : Subsequence (rstrip s) s.
Proof.
  induction s as [|c s IH]; cbn; [constructor|].
  destruct (rstrip s) as [|a r].
  - destruct (is_space c); [apply Subsequence_drop, IH | apply Subsequence_keep, IH].
  - apply Subsequence_keep, IH.
Qed.

Lemma strip_Subsequence (s : string) : Subsequence (strip s) s.
Proof.
  unfold strip. eapply Subsequence_trans;
    [apply rstrip_Subsequence | apply lstrip_Subsequence].
Qed.

(** The text after the control characters are removed, of which the
    result is a part. *)
Lemma clean_text_of_filtered (text : string) :
  Subsequence (_clean_text text) (filter_chars keeps_char text).
Proof.
  unfold _clean_text. destruct (negb (truthy text)) eqn:E.
  - unfold truthy in E. apply negb_true_iff, negb_false_iff, String.eqb_eq in E.
    subst. constructor.
  - cbv zeta. eapply Subsequence_trans; [apply strip_Subsequence|].
    eapply Subsequence_trans; apply re_sub_from_Subsequence.
Qed.

(** X15.  [_clean_text] only deletes characters: its result is the text
    with some characters left out, in the same order, so it is not longer
    than the text, and every character of it is one that the filter of the
    method keeps: a character of code 32 or more (the delete character and
    the codes 128 to 159 among them), a tab, a line feed or a carriage
    return. *)
Theorem clean_text_only_deletes (text : string) :
  Subsequence (_clean_text text) text
  /\ (String.length (_clean_text text) <= String.length text)%nat
  /\ (forall c, contains c (_clean_text text) = true ->
        contains c text = true /\ keeps_char c = true).
Proof.
  assert (H : Subsequence (_clean_text text) text).
  { eapply Subsequence_trans;
      [apply clean_text_of_filtered | apply filter_chars_Subsequence]. }
  split; [exact H|]. split; [apply Subsequence_length, H|].
  intros c Hc. split; [eapply Subsequence_contains; eassumption|].
  apply (filter_chars_contains keeps_char text).
  eapply Subsequence_contains; [apply clean_text_of_filtered | exact Hc].
Qed.

Lemma lstrip_head (s : string) (c : ascii) (rest : string) :
  lstrip s = String c rest -> is_space c = false.
Proof.
  induction s as [|a s IH]; cbn; [discriminate|].
  destruct (is_space a) eqn:Ea; [exact IH|].
  intros H. inversion H; subst. exact Ea.
Qed.

Lemma rstrip_head (s : string) (c : ascii) (rest : string) :
  rstrip s = String c rest -> exists rest', s = String c rest'.
Proof.
  destruct s as [|a s]; cbn; [discriminate|].
  destruct (rstrip s); [destruct (is_space a)|]; intros H; inversion H; subst;
    eexists; reflexivity.
Qed.

Lemma rstrip_last (s : string) :
  forall front c, rstrip s = (front ++ String c "")%string -> is_space c = false.
Proof.
  induction s as [|a s IH]; intros front c; cbn.
  - destruct front; discriminate.
  - destruct (rstrip s) as [|b r] eqn:Er.
    + destruct (is_space a) eqn:Ea; [destruct front; discriminate|].
      destruct front as [|x front]; cbn; intros H; inversion H; subst.
      * exact Ea.
      * destruct front; discriminate.
    + destruct front as [|x front]; cbn; intros H; inversion H; subst.
      eapply IH. eassumption.
Qed.

(** X16.  The result of [_clean_text] neither begins nor ends with a
    whitespace character. *)
Theorem clean_text_is_stripped (text : string) :
  (forall c rest, _clean_text text = String c rest -> is_space c = false)
  /\ (forall front c,
        _clean_text text = (front ++ String c "")%string -> is_space c = false).
Proof.
  unfold _clean_text. destruct (negb (truthy text)).
  - split; [discriminate | intros [|x front] c; discriminate].
  - cbv zeta. unfold strip. split.
    + intros c rest H. apply rstrip_head in H. destruct H as [rest' H].
      eapply lstrip_head. exact H.
    + intros front c H. eapply rstrip_last. exact H.
Qed.

Lemma filter_chars_all (f : ascii -> bool) (s : string) :
  all_chars f s = true -> filter_chars f s = s.
Proof.
  induction s as [|c s IH]; cbn; [reflexivity|].
  intros H. apply andb_true_iff in H. destruct H as [-> H]. rewrite IH by exact H.
  reflexivity.
Qed.

(** A pattern that matches at no end of the subject deletes nothing. *)
Lemma re_sub_no_match (match_at : string -> option nat) (P : string -> Prop) :
  (forall c s, P (String c s) -> P s) ->
  (forall s, P s -> match_at s = None) ->
  forall s, P s -> re_sub match_at s = s.
Proof.
  intros Htail Hnone. unfold re_sub.
  induction s as [|c s IH]; intros HP; cbn; [reflexivity|].
  rewrite (Hnone _ HP). rewrite IH by (eapply Htail; exact HP). reflexivity.
Qed.

Lemma match_feature_tag_needs_bracket (s : string) :
  contains "[" s = false -> match_feature_tag s = None.
Proof.
  destruct s as [|c s]; [reflexivity|]. cbn [contains].
  intros H. apply orb_false_iff in H. destruct H as [H _].
  unfold match_feature_tag, one, is_char. cbn [and_then].
  rewrite Ascii.eqb_sym, H. reflexivity.
Qed.

Lemma contains_str_tail (p : string) (c : ascii) (s : string) :
  contains_str p (String c s) = false -> contains_str p s = false.
Proof.
  cbn [contains_str]. intros H. apply orb_false_iff in H. apply H.
Qed.

Lemma contains_str_head (p s : string) :
  contains_str p s = false -> String.prefix p s = false.
Proof.
  destruct s; cbn [contains_str]; intros H; apply orb_false_iff in H; apply H.
Qed.

Lemma optional_suffix (f : ascii -> bool) (p : cursor) :
  contains_str "Ep" (snd p) = false -> contains_str "Ep" (snd (optional f p)) = false.
Proof.
  destruct p as [n [|c s]]; cbn [optional snd]; intros H; [exact H|].
  destruct (f c); [|exact H]. eapply contains_str_tail. exact H.
Qed.

Lemma many_from_suffix (f : ascii -> bool) (s : string) :
  forall n, contains_str "Ep" s = false ->
            contains_str "Ep" (snd (many_from f n s)) = false.
Proof.
  induction s as [|c s IH]; intros n H; cbn [many_from]; [exact H|].
  destruct (f c); [|exact H]. apply IH. eapply contains_str_tail. exact H.
Qed.

Lemma many1_suffix (f : ascii -> bool) (p q : cursor) :
  contains_str "Ep" (snd p) = false -> many1 f p = Some q ->
  contains_str "Ep" (snd q) = false.
Proof.
  destruct p as [n [|c s]]; unfold many1, one; cbn [option_map]; [discriminate|].
  intros H. destruct (f c); cbn [option_map]; [|discriminate].
  intros E. inversion E; subst. unfold many. cbn [fst snd].
  apply many_from_suffix. eapply contains_str_tail. exact H.
Qed.

Lemma match_season_episode_needs_Ep (s : string) :
  contains_str "Ep" s = false -> match_season_episode s = None.
Proof.
  intros H. unfold match_season_episode.
  set (p0 := optional is_S_or_E (optional (is_char "(") (O, s))).
  assert (H0 : contains_str "Ep" (snd p0) = false)
    by (apply optional_suffix, optional_suffix; exact H).
  destruct (many1 is_digit p0) as [p1|] eqn:E1; [|reflexivity]. cbn [and_then].
  assert (H1 : contains_str "Ep" (snd (optional is_space p1)) = false)
    by (apply optional_suffix; eapply many1_suffix; eassumption).
  destruct (optional is_space p1) as [n [|c rest]]; [reflexivity|].
  cbn [snd] in H1. apply contains_str_head in H1.
  unfold one at 1, is_char.
  destruct (Ascii.eqb_spec "E" c) as [<-|]; [|reflexivity]. cbn [and_then].
  destruct rest as [|c' rest]; [reflexivity|].
  unfold one at 1, is_char.
  destruct (Ascii.eqb_spec "p" c') as [<-|]; [|reflexivity].
  destruct rest; cbv in H1; discriminate H1.
Qed.

(** X17.  A text without control characters, without "[" and without the
    letters "Ep" in a row is returned with its surrounding whitespace
    removed and is otherwise unchanged. *)
Theorem clean_text_plain (text : string) :
  all_chars keeps_char text = true ->
  contains "[" text = false ->
  contains_str "Ep" text = false ->
  _clean_text text = strip text.
Proof.
  intros Hall Hbr Hep. unfold _clean_text.
  destruct (negb (truthy text)) eqn:E.
  - unfold truthy in E. apply negb_true_iff, negb_false_iff, String.eqb_eq in E.
    subst. reflexivity.
  - cbv zeta. rewrite (filter_chars_all _ _ Hall).
    rewrite (re_sub_no_match match_feature_tag (fun s => contains "[" s = false)).
    + rewrite (re_sub_no_match match_season_episode
                 (fun s => contains_str "Ep" s = false)).
      * reflexivity.
      * intros c s. apply contains_str_tail.
      * apply match_season_episode_needs_Ep.
      * exact Hep.
    + intros c s H. cbn [contains] in H. apply orb_false_iff in H. apply H.
    + apply match_feature_tag_needs_bracket.
    + exact Hbr.
Qed.

Lemma clean_text_plain_witness :
  _clean_text "  Live from Studio 9 (repeat).  " = strip "  Live from Studio 9 (repeat).  ".
Proof.
  apply (clean_text_plain "  Live from Studio 9 (repeat).  "); reflexivity.
Defined.

(** Tags and episode marks are removed from a synopsis, and a removal can
    bring the two halves of a further tag together. *)
Example clean_text_removes_marks :
  _clean_text "[HD] Quiz night (S2 Ep 14/20) with guests." = "Quiz night  with guests."
  /\ _clean_text "[H[CC]D] Quiz" = "[HD] Quiz".
Proof. split; reflexivity. Qed.

(** ** Episode numbers whose "E" comes first *)

Lemma substring_zero (i : nat) (s : string) : substring i 0 s = "".
Proof.
  revert i. induction s as [|c s IH]; intros [|i]; cbn; try reflexivity. apply IH.
Qed.

(** X18.  When the first "E" of an episode number comes before its first
    "S" (as in "Episode S2"), the text handed to [int] for the series is
    empty: only the onscreen element is added and the warning is logged. *)
Theorem numbering_E_before_S (episode_number : string) (s e : nat) :
  index "S" episode_number = inr s ->
  index "E" episode_number = inr e ->
  (e < s)%nat ->
  Emits (_add_episode_numbering episode_number)
        [onscreen_element episode_number]
        [parse_warning episode_number].
Proof.
  intros Hs He Hlt.
  assert (HS : contains "S" episode_number = true).
  { destruct (contains "S" episode_number) eqn:E; [reflexivity|].
    clear - Hs E. exfalso. revert s Hs.
    induction episode_number as [|c r IH]; cbn in *; intros s Hs; [discriminate|].
    apply orb_false_iff in E. destruct E as [E1 E2]. rewrite E1 in Hs.
    destruct (index "S" r) as [x|i]; [discriminate|]. eapply IH; [exact E2|reflexivity]. }
  assert (HE : contains "E" episode_number = true).
  { destruct (contains "E" episode_number) eqn:E; [reflexivity|].
    clear - He E. exfalso. revert e He.
    induction episode_number as [|c r IH]; cbn in *; intros e He; [discriminate|].
    apply orb_false_iff in E. destruct E as [E1 E2]. rewrite E1 in He.
    destruct (index "E" r) as [x|i]; [discriminate|]. eapply IH; [exact E2|reflexivity]. }
  apply numbering_not_parsed; try assumption.
  left. intros n. unfold series_part. rewrite Hs, He. unfold slice.
  replace (e - (s + 1))%nat with 0%nat by lia.
  rewrite substring_zero. discriminate.
Qed.

Lemma numbering_E_before_S_witness :
  Emits (_add_episode_numbering "Episode S2")
        [onscreen_element "Episode S2"]
        [parse_warning "Episode S2"].
Proof.
  apply (numbering_E_before_S "Episode S2" 8 0); [reflexivity | reflexivity | lia].
Defined.

(** * The file manager *)

(** ** Verification of the written file *)

Lemma len_append (a b : string) : len (a ++ b) = len a + len b.
Proof. unfold len. rewrite length_append. lia. Qed.

Lemma len_replicate (n : nat) (c : ascii) : len (replicate n c) = Z.of_nat n.
Proof.
  unfold len. f_equal. induction n as [|n IH]; cbn; [reflexivity|]. rewrite IH. reflexivity.
Qed.

Lemma string_eqb_negb (a b : string) : negb (String.eqb a b) = false <-> a = b.
Proof. rewrite negb_false_iff. apply String.eqb_eq. Qed.

(** X19.  For an expected content of at most 1024 * 1024 characters the
    verification passes exactly when the text read back is the expected
    one; it fails when the file cannot be read, and with a size mismatch
    when the two lengths differ. *)
Theorem verify_small_file_exact (expected_content : string) :
  len expected_content <= 1024 * 1024 ->
  (forall actual_content,
      _verify_file (Content actual_content) expected_content = inr tt
      <-> actual_content = expected_content)
  /\ _verify_file ReadError expected_content = inl VerificationFailed
  /\ (forall actual_content,
        len actual_content <> len expected_content ->
        _verify_file (Content actual_content) expected_content
        = inl (SizeMismatch (len expected_content) (len actual_content))).
Proof.
  intros Hsmall. split; [|split].
  - intros actual_content. unfold _verify_file. split.
    + destruct (len actual_content =? len expected_content); cbn [negb];
        [|discriminate].
      destruct (len expected_content >? 1024 * 1024) eqn:E; [lia|].
      destruct (String.eqb_spec actual_content expected_content);
        [trivial | discriminate].
    + intros ->. rewrite Z.eqb_refl. cbn [negb].
      destruct (len expected_content >? 1024 * 1024) eqn:E; [lia|].
      rewrite String.eqb_refl. reflexivity.
  - reflexivity.
  - intros actual_content Hne. unfold _verify_file.
    destruct (Z.eqb_spec (len actual_content) (len expected_content));
      [contradiction | reflexivity].
Qed.

Lemma verify_small_file_exact_witness :
  (forall actual_content,
      _verify_file (Content actual_content) "<tv></tv>" = inr tt
      <-> actual_content = "<tv></tv>")
  /\ _verify_file ReadError "<tv></tv>" = inl VerificationFailed
  /\ (forall actual_content,
        len actual_content <> len "<tv></tv>" ->
        _verify_file (Content actual_content) "<tv></tv>"
        = inl (SizeMismatch (len "<tv></tv>") (len actual_content))).
Proof.
  apply (verify_small_file_exact "<tv></tv>"). vm_compute. discriminate.
Defined.

(** X20.  For an expected content of more than 1024 * 1024 characters
    only the first 1024 and the last 1024 characters are compared: a text
    of the same length that differs from the expected one between them
    passes the verification. *)
Theorem verify_large_file_checks_ends_only (front middle middle' back : string) :
  len front = 1024 ->
  len back = 1024 ->
  len middle' = len middle ->
  len (front ++ middle ++ back) > 1024 * 1024 ->
  _verify_file (Content (front ++ middle' ++ back)) (front ++ middle ++ back) = inr tt.
Proof.
  intros Hf Hb Hm Hlarge.
  assert (Hlen : len (front ++ middle' ++ back) = len (front ++ middle ++ back))
    by (rewrite !len_append; lia).
  unfold _verify_file. rewrite Hlen, Z.eqb_refl. cbn [negb].
  destruct (len (front ++ middle ++ back) >? 1024 * 1024) eqn:E; [|lia].
  cbv zeta.
  replace (Z.min 1024 (len (front ++ middle ++ back) / 4)) with 1024
    by (assert (1024 <= len (front ++ middle ++ back) / 4)
          by (apply Z.div_le_lower_bound; lia); lia).
  assert (Hfn : Z.to_nat 1024 = String.length front) by (unfold len in Hf; lia).
  assert (Hbn : Z.to_nat 1024 = String.length back) by (unfold len in Hb; lia).
  assert (Hmn : String.length middle' = String.length middle)
    by (unfold len in Hm; lia).
  assert (Hfront : forall m, slice_to (front ++ m ++ back) 1024 = front).
  { intros m. unfold slice_to. rewrite Hfn. apply substring_prefix. }
  assert (Hback : forall m, slice_last (front ++ m ++ back) 1024 = back).
  { intros m. unfold slice_last. change (1024 =? 0) with false. cbv iota.
    rewrite Hbn. rewrite <- append_assoc.
    rewrite (length_append (front ++ m) back), Nat.add_sub.
    apply substring_suffix. }
  rewrite !Hfront, !Hback, !String.eqb_refl. reflexivity.
Qed.

Lemma verify_large_file_checks_ends_only_witness :
  _verify_file
    (Content (replicate (Z.to_nat 1024) "a"
              ++ replicate (Z.to_nat 1048576) "x"
              ++ replicate (Z.to_nat 1024) "b"))
    (replicate (Z.to_nat 1024) "a"
     ++ replicate (Z.to_nat 1048576) "y"
     ++ replicate (Z.to_nat 1024) "b")
  = inr tt.
Proof.
  apply (verify_large_file_checks_ends_only
           (replicate (Z.to_nat 1024) "a") (replicate (Z.to_nat 1048576) "y")
           (replicate (Z.to_nat 1048576) "x") (replicate (Z.to_nat 1024) "b")).
  - rewrite len_replicate. apply Z2Nat.id. lia.
  - rewrite len_replicate. apply Z2Nat.id. lia.
  - rewrite !len_replicate. reflexivity.
  - rewrite !len_append, !len_replicate, !Z2Nat.id by lia. lia.
Defined.

(** ** Line ends *)

Lemma universal_newlines_no_CR (s : string) :
  contains CR s = false -> universal_newlines s = s.
Proof.
  induction s as [|c s IH]; cbn [contains universal_newlines]; [reflexivity|].
  intros H. apply orb_false_iff in H. destruct H as [Hc Hs].
  rewrite Hc, IH by exact Hs. reflexivity.
Qed.

Lemma universal_newlines_drops_CR (s : string) :
  contains CR (universal_newlines s) = false.
Proof.
  assert (H : forall n s, (String.length s <= n)%nat ->
                          contains CR (universal_newlines s) = false).
  { clear s. induction n as [|n IH]; intros [|c s] Hlen; cbn in Hlen;
      try reflexivity; [lia|].
    cbn [universal_newlines].
    destruct (Ascii.eqb c CR) eqn:Ec.
    - cbn [contains]. change (Ascii.eqb LF CR) with false. cbn [orb].
      destruct s as [|c' s]; [reflexivity|].
      destruct (Ascii.eqb c' LF); apply IH; cbn in *; lia.
    - cbn [contains]. rewrite Ec. cbn [orb]. apply IH. lia. }
  apply (H (String.length s)). lia.
Qed.

(** X24.  A content without a carriage return that was written in full
    passes the verification, whatever its size; a content of at most
    1024 * 1024 characters that holds a carriage return fails it although
    it was written in full, because the text read back has the line ends
    translated. *)
Theorem carriage_return_fails_verification (content : string) :
  (contains CR content = false -> _verify_file (read_back content) content = inr tt)
  /\ (len content <= 1024 * 1024 ->
      contains CR content = true ->
      _verify_file (read_back content) content
      = inl (SizeMismatch (len content) (len (universal_newlines content)))
      \/ _verify_file (read_back content) content = inl FullCheckFailed).
Proof.
  unfold read_back. split.
  - intros H. rewrite (universal_newlines_no_CR _ H).
    unfold _verify_file. rewrite Z.eqb_refl. cbn [negb].
    rewrite !String.eqb_refl. cbn [negb orb].
    destruct (len content >? 1024 * 1024); reflexivity.
  - intros Hsmall HCR. unfold _verify_file.
    destruct (Z.eqb_spec (len (universal_newlines content)) (len content));
      cbn [negb]; [right | left; reflexivity].
    destruct (len content >? 1024 * 1024) eqn:E; [lia|].
    destruct (String.eqb_spec (universal_newlines content) content) as [Heq|];
      [|reflexivity].
    pose proof (universal_newlines_drops_CR content) as Hno.
    rewrite Heq in Hno. congruence.
Qed.

(** A description with a line end of two characters, and one with a bare
    carriage return. *)
Example verification_of_line_ends :
  _verify_file (read_back ("<desc>one" ++ String CR (String LF "two</desc>")))
               ("<desc>one" ++ String CR (String LF "two</desc>"))
  = inl (SizeMismatch 21 20)
  /\ _verify_file (read_back ("<desc>one" ++ String CR "two</desc>"))
                  ("<desc>one" ++ String CR "two</desc>")
     = inl FullCheckFailed.
Proof. split; reflexivity. Qed.

(** ** Old backups *)

Lemma fnmatch_literal_prefix (lit pattern name : string) :
  all_chars is_literal lit = true ->
  fnmatch (lit ++ pattern) (lit ++ name) = fnmatch pattern name.
Proof.
  induction lit as [|c lit IH]; intros H; [reflexivity|].
  cbn [all_chars] in H. apply andb_true_iff in H. destruct H as [Hc Hlit].
  unfold is_literal in Hc. apply negb_true_iff in Hc.
  apply orb_false_iff in Hc. destruct Hc as [Hc _].
  apply orb_false_iff in Hc. destruct Hc as [Hstar Hq].
  cbn [String.append fnmatch]. rewrite Hstar, Hq, Ascii.eqb_refl. cbn [orb andb].
  apply IH. exact Hlit.
Qed.

Lemma fnmatch_literal (lit : string) :
  all_chars is_literal lit = true ->
  forall name, fnmatch lit name = true -> name = lit.
Proof.
  induction lit as [|c lit IH]; intros H name Hm.
  - destruct name; [reflexivity | discriminate Hm].
  - cbn [all_chars] in H. apply andb_true_iff in H. destruct H as [Hc Hlit].
    unfold is_literal in Hc. apply negb_true_iff in Hc.
    apply orb_false_iff in Hc. destruct Hc as [Hc _].
    apply orb_false_iff in Hc. destruct Hc as [Hstar Hq].
    cbn [fnmatch] in Hm. rewrite Hstar, Hq in Hm.
    destruct name as [|c' name]; [discriminate Hm|].
    cbn [orb] in Hm. apply andb_true_iff in Hm. destruct Hm as [Hcc Hrest].
    apply Ascii.eqb_eq in Hcc. subst c'. f_equal. apply IH; assumption.
Qed.

Lemma fnmatch_star (pattern name : string) :
  fnmatch (String "*" pattern) name = true ->
  exists skipped rest,
    name = (skipped ++ rest)%string /\ fnmatch pattern rest = true.
Proof.
  induction name as [|c name IH]; cbn [fnmatch]; rewrite Ascii.eqb_refl.
  - rewrite orb_false_r. intros H. exists "", "". split; [reflexivity | exact H].
  - intros H. apply orb_true_iff in H. destruct H as [H|H].
    + exists "", (String c name). split; [reflexivity | exact H].
    + destruct IH as (skipped & rest & -> & Hrest).
      { cbn [fnmatch]. rewrite Ascii.eqb_refl. exact H. }
      exists (String c skipped), rest. split; [reflexivity | exact Hrest].
Qed.

Lemma append_cancel_r (a b c : string) : (a ++ c = b ++ c)%string -> a = b.
Proof.
  revert b. induction a as [|x a IH]; intros [|y b] H; cbn in H.
  - reflexivity.
  - exfalso. apply (f_equal String.length) in H. cbn in H.
    rewrite length_append in H. lia.
  - exfalso. apply (f_equal String.length) in H. cbn in H.
    rewrite length_append in H. lia.
  - inversion H; subst. f_equal. apply IH. assumption.
Qed.

Lemma all_chars_append (f : ascii -> bool) (a b : string) :
  all_chars f (a ++ b) = all_chars f a && all_chars f b.
Proof.
  induction a as [|c a IH]; cbn; [reflexivity|]. rewrite IH. apply andb_assoc.
Qed.

(** The pattern has a dot of its own before the extension, which begins
    with a dot: no name made by [_create_backup] matches it. *)
Lemma backup_name_not_matched (stem suffix timestamp : string) :
  all_chars is_literal stem = true ->
  all_chars is_literal suffix = true ->
  all_chars is_timestamp_char timestamp = true ->
  fnmatch (backup_pattern stem suffix) (backup_name stem suffix timestamp) = false.
Proof.
  intros Hstem Hsuffix Hts.
  destruct (fnmatch (backup_pattern stem suffix) (backup_name stem suffix timestamp))
    eqn:E; [exfalso | reflexivity].
  unfold backup_pattern, backup_name in E.
  rewrite (fnmatch_literal_prefix stem) in E by exact Hstem.
  change (".*." ++ suffix ++ ".bak")%string
    with ("." ++ String "*" ("." ++ suffix ++ ".bak"))%string in E.
  rewrite (fnmatch_literal_prefix ".") in E by reflexivity.
  apply fnmatch_star in E. destruct E as (skipped & rest & Hname & Hrest).
  apply fnmatch_literal in Hrest.
  - subst rest.
    change ("." ++ suffix ++ ".bak")%string with ("." ++ (suffix ++ ".bak"))%string
      in Hname.
    rewrite <- (append_assoc skipped "." (suffix ++ ".bak")) in Hname.
    apply append_cancel_r in Hname. subst timestamp.
    rewrite all_chars_append in Hts. apply andb_true_iff in Hts.
    destruct Hts as [_ Hdot]. discriminate Hdot.
  - change ("." ++ suffix ++ ".bak")%string with ("." ++ (suffix ++ ".bak"))%string.
    rewrite !all_chars_append, Hsuffix. reflexivity.
Qed.

Lemma insert_newest_In (f g : string * Z) (sorted : list (string * Z)) :
  In g (insert_newest f sorted) -> g = f \/ In g sorted.
Proof.
  induction sorted as [|h sorted IH]; cbn [insert_newest].
  - intros [<-|[]]. left. reflexivity.
  - destruct (snd h <=? snd f).
    + intros [<-|H]; [left; reflexivity | right; exact H].
    + intros [<-|H]; [right; left; reflexivity|].
      destruct (IH H) as [->|H']; [left; reflexivity | right; right; exact H'].
Qed.

Lemma sort_newest_first_In (g : string * Z) (files : list (string * Z)) :
  In g (sort_newest_first files) -> In g files.
Proof.
  unfold sort_newest_first. induction files as [|f files IH]; cbn [fold_right].
  - intros [].
  - intros H. apply insert_newest_In in H.
    destruct H as [->|H]; [left; reflexivity | right; apply IH; exact H].
Qed.

Lemma skipn_In {A : Type} (k : nat) (xs : list A) (x : A) :
  In x (skipn k xs) -> In x xs.
Proof.
  revert xs. induction k as [|k IH]; intros [|y xs]; cbn; auto.
Qed.

Lemma cleanup_removes_matched (directory : list (string * Z))
    (base_name extension : string) (keep_count : nat) (name : string) :
  In name (cleanup_old_backups directory base_name extension keep_count) ->
  fnmatch (backup_pattern base_name extension) name = true.
Proof.
  unfold cleanup_old_backups.
  destruct (Nat.leb _ keep_count); [intros []|].
  intros H. apply in_map_iff in H. destruct H as (f & <- & Hf).
  apply skipn_In, sort_newest_first_In, filter_In in Hf. apply Hf.
Qed.

(** X21.  The pattern of [cleanup_old_backups] matches no name that
    [_create_backup] gives a copy, so the cleanup never unlinks one of
    these copies, however many there are and whatever else the directory
    holds. *)
Theorem cleanup_never_removes_own_backups (directory : list (string * Z))
    (stem suffix timestamp : string) (keep_count : nat) :
  all_chars is_literal stem = true ->
  all_chars is_literal suffix = true ->
  all_chars is_timestamp_char timestamp = true ->
  fnmatch (backup_pattern stem suffix) (backup_name stem suffix timestamp) = false
  /\ ~ In (backup_name stem suffix timestamp)
          (cleanup_old_backups directory stem suffix keep_count).
Proof.
  intros Hstem Hsuffix Hts.
  pose proof (backup_name_not_matched stem suffix timestamp Hstem Hsuffix Hts) as Hno.
  split; [exact Hno|].
  intros Hin. apply cleanup_removes_matched in Hin. congruence.
Qed.

Lemma cleanup_never_removes_own_backups_witness :
  fnmatch (backup_pattern "xmltv" ".xml") (backup_name "xmltv" ".xml" "20240101_010000")
  = false
  /\ ~ In (backup_name "xmltv" ".xml" "20240101_010000")
          (cleanup_old_backups
             [ ("xmltv.xml", 1704157200);
               (backup_name "xmltv" ".xml" "20240101_010000", 1704070800);
               (backup_name "xmltv" ".xml" "20240102_010000", 1704157200) ]
             "xmltv" ".xml" 0).
Proof.
  apply (cleanup_never_removes_own_backups _ "xmltv" ".xml" "20240101_010000" 0);
    reflexivity.
Defined.

(** With nothing to keep, the copies stay and a file with two dots before
    the extension goes. *)
Example cleanup_of_three_files :
  cleanup_old_backups
    [ (backup_name "xmltv" ".xml" "20240101_010000", 1704070800);
      ("xmltv.old..xml.bak", 1700000000);
      (backup_name "xmltv" ".xml" "20240102_010000", 1704157200) ]
    "xmltv" ".xml" 0
  = [ "xmltv.old..xml.bak" ].
Proof. reflexivity. Qed.

(** * The lineup and the guide, one after the other *)

Lemma join_nonempty (token : string) (tokens : list string) :
  token <> "" -> join (token :: tokens) <> "".
Proof.
  intros Hne. unfold join. destruct token as [|c token]; [contradiction|].
  destruct tokens; cbn; discriminate.
Qed.

(** A discovery that succeeds leaves a credential that is not empty. *)
Lemma discover_sets_credential (l : lan) (self self' : HDHomeRunClient)
    (credential : string) :
  discover_all_devices l self = (self', inr credential) ->
  device_auth self' = Some credential /\ credential <> ""
  /\ _channels self' = _channels self.
Proof.
  set (hosts := set_iteration l (device_hosts l (host self))).
  pose proof (fold_probe_host_aligned l hosts hosts (incl_refl _) [] []
                (Forall2_nil _)) as Hal.
  unfold discover_all_devices. fold hosts.
  destruct (fold_left (probe_host l) hosts ([], [])) as [auths devices].
  cbn [fst snd] in Hal.
  destruct auths as [|a auths]; intros H; inversion H; subst.
  cbn [device_auth _channels]. split; [reflexivity|]. split; [|reflexivity].
  inversion Hal as [|h a' devices' auths' (_ & _ & Hne) _]; subst.
  apply join_nonempty. exact Hne.
Qed.

Lemma has_device_auth_true (self : HDHomeRunClient) :
  has_device_auth self = true
  <-> exists credential, device_auth self = Some credential /\ credential <> "".
Proof.
  unfold has_device_auth, truthy. destruct (device_auth self) as [a|].
  - destruct (String.eqb_spec a ""); cbn; split.
    + discriminate.
    + intros (c & Hc & Hne). inversion Hc; subst. contradiction.
    + intros _. exists a. split; [reflexivity | assumption].
    + reflexivity.
  - split; [discriminate | intros (c & Hc & _); discriminate].
Qed.



(** * The text of a time *)

(** ** Numbers padded with zeros *)

Lemma zeros_digits (n : nat) :
  String.length (zeros n) = n /\ all_chars is_digit (zeros n) = true.
Proof.
  induction n as [|n [IH1 IH2]]; cbn; [split; reflexivity|].
  rewrite IH1. split; [reflexivity | exact IH2].
Qed.

(** A number below the power of ten of the width is written with exactly
    that many digits. *)
Lemma zero_padded_width (w : nat) (z : Z) :
  (1 <= w)%nat -> 0 <= z < 10 ^ Z.of_nat w ->
  String.length (zero_padded w z) = w /\ all_chars is_digit (zero_padded w z) = true.
Proof.
  intros Hw Hz. destruct (str_digits w z Hw Hz) as [Hlen Hdig].
  destruct (zeros_digits (w - String.length (str z))) as [Hzl Hzd].
  unfold zero_padded. rewrite length_append, all_chars_append, Hzl, Hzd, Hdig.
  split; [lia | reflexivity].
Qed.

(** ** Dates *)

Lemma civil_from_days_bounds (days : Z) :
  0 <= days <= 2932896 ->
  let '(y, m, d) := civil_from_days days in
  1970 <= y <= 9999 /\ 1 <= m <= 12 /\ 1 <= d <= 31.
Proof.
  intros H. unfold civil_from_days. cbv zeta.
  match goal with
  | |- context [if ?c <? 10 then _ else _] => destruct (Z.ltb_spec c 10) as [E1|E1]
  end.
  all: match goal with
       | |- context [if ?c <=? 2 then _ else _] => destruct (Z.leb_spec c 2) as [E2|E2]
       end.
  all: Z.to_euclidean_division_equations; lia.
Qed.

(** X23.  For a time from 1970 to the end of the year 9999 on the
    converter's clock, the text of a "start", "stop" or "previously-shown"
    time has exactly fourteen digits; when the offset of the zone is a whole
    number of minutes, the text with offset is these digits, a space, the
    sign of the offset and four more digits. *)
Theorem timestamps_have_fixed_width (d : datetime) :
  0 <= wall d < 253402300800 ->
  -86400 < offset d < 86400 ->
  offset d mod 60 = 0 ->
  String.length (strftime_compact d) = 14%nat
  /\ all_chars is_digit (strftime_compact d) = true
  /\ exists hhmm,
       strftime_with_offset d
       = (strftime_compact d ++ " "
          ++ (if (offset d <? 0)%Z then "-" else "+") ++ hhmm)%string
       /\ String.length hhmm = 4%nat
       /\ all_chars is_digit hhmm = true.
Proof.
  intros Hwall Hoff Hmin.
  assert (Hz : exists hhmm,
             strftime_with_offset d
             = (strftime_compact d ++ " "
                ++ (if (offset d <? 0)%Z then "-" else "+") ++ hhmm)%string
             /\ String.length hhmm = 4%nat
             /\ all_chars is_digit hhmm = true).
  { destruct (zero_padded_width 2 (Z.abs (offset d) / 3600)) as [Lzh Dzh];
      [lia | cbn; Z.to_euclidean_division_equations; lia|].
    destruct (zero_padded_width 2 (Z.abs (offset d) / 60 mod 60)) as [Lzm Dzm];
      [lia | cbn; Z.to_euclidean_division_equations; lia|].
    exists (zero_padded 2 (Z.abs (offset d) / 3600)
            ++ zero_padded 2 (Z.abs (offset d) / 60 mod 60))%string.
    split; [|split].
    - unfold strftime_with_offset, strftime_z. cbv zeta.
      replace (Z.abs (offset d) mod 60 =? 0) with true
        by (symmetry; apply Z.eqb_eq; Z.to_euclidean_division_equations; lia).
      rewrite append_empty. reflexivity.
    - rewrite length_append, Lzh, Lzm. reflexivity.
    - rewrite all_chars_append, Dzh, Dzm. reflexivity. }
  split; [|split; [|exact Hz]]; clear Hz.
  all: assert (Hdays : 0 <= wall d / 86400 <= 2932896)
    by (Z.to_euclidean_division_equations; lia).
  all: pose proof (civil_from_days_bounds (wall d / 86400) Hdays) as Hcivil.
  all: unfold strftime_compact.
  all: destruct (civil_from_days (wall d / 86400)) as [[y m] day].
  all: destruct Hcivil as (Hy & Hm & Hd); cbv zeta.
  all: assert (Ly : String.length (str y) = 4%nat)
    by (apply str_length; [cbn; lia | lia]).
  all: assert (Dy : all_chars is_digit (str y) = true)
    by (apply (str_digits 4 y); [lia | cbn; lia]).
  all: destruct (zero_padded_width 2 m) as [Lm Dm]; [lia | cbn; lia|].
  all: destruct (zero_padded_width 2 day) as [Ld Dd]; [lia | cbn; lia|].
  all: destruct (zero_padded_width 2 (wall d mod 86400 / 3600)) as [Lh Dh];
    [lia | cbn; Z.to_euclidean_division_equations; lia|].
  all: destruct (zero_padded_width 2 (wall d mod 86400 / 60 mod 60)) as [Li Di];
    [lia | cbn; Z.to_euclidean_division_equations; lia|].
  all: destruct (zero_padded_width 2 (wall d mod 86400 mod 60)) as [Ls Ds];
    [lia | cbn; Z.to_euclidean_division_equations; lia|].
  - rewrite !length_append, Ly, Lm, Ld, Lh, Li, Ls. reflexivity.
  - rewrite !all_chars_append, Dy, Dm, Dd, Dh, Di, Ds. reflexivity.
Qed.

Lemma timestamps_have_fixed_width_witness :
  String.length (strftime_compact (mkDatetime (1700000000 - 28800) (-28800))) = 14%nat
  /\ all_chars is_digit (strftime_compact (mkDatetime (1700000000 - 28800) (-28800)))
     = true
  /\ exists hhmm,
       strftime_with_offset (mkDatetime (1700000000 - 28800) (-28800))
       = (strftime_compact (mkDatetime (1700000000 - 28800) (-28800)) ++ " "
          ++ (if (offset (mkDatetime (1700000000 - 28800) (-28800)) <? 0)%Z
              then "-" else "+") ++ hhmm)%string
       /\ String.length hhmm = 4%nat
       /\ all_chars is_digit hhmm = true.
Proof.
  apply (timestamps_have_fixed_width (mkDatetime (1700000000 - 28800) (-28800))).
  - cbn. lia.
  - cbn. lia.
  - reflexivity.
Defined.

(** The start of a programme at 2023-11-14 22:13:20 UTC, eight hours
    behind UTC, and the first day of the count. *)
Example start_text_in_pacific :
  astimezone (timezone pacific) 1700000000
  = inr (mkDatetime (1700000000 - 28800) (-28800))
  /\ strftime_with_offset (mkDatetime (1700000000 - 28800) (-28800))
     = "20231114141320 -0800"
  /\ civil_from_days 0 = (1970, 1, 1).
Proof. repeat split. Qed.
